(** * Rise-Tide water cycle controller

    A shallow embedding of the two sketches kept in
    [rise-tide/main/main.ino]: the current sketch ("Enhanced UX/UI",
    hours/minutes settings, five menu pages) and the earlier sketch
    ("Menu Interface & Fast Scroll", one duration setting, four menu pages).

    The globals of a sketch are the fields of a [State] record; every
    function of the sketch is a function from [State] to [State].  The
    board is an Arduino Uno: [int] is 16 bits, [long] and [unsigned long]
    are 32 bits.  Time is a clock in the state: [millis] reads it modulo
    2^32, [delay] advances it, and every loop iteration starts by letting
    an arbitrary amount of time pass.  Every call to the outside world
    ([digitalWrite], the LCD, the serial port) is appended, with the time
    of the call, to a trace. *)

From Stdlib Require Import ZArith Bool List String Lia.
Import ListNotations.
Open Scope Z_scope.

(** ** Machine integers of the AVR target *)

Module Machine.

Definition INT_MAX : Z := 32767.
Definition INT_MIN : Z := -32768.

(** 16-bit two's complement [int]. *)
Definition to_int (z : Z) : Z := (z + 32768) mod 65536 - 32768.

(** 32-bit [unsigned long]. *)
Definition to_ulong (z : Z) : Z := z mod 4294967296.

(** 32-bit two's complement [long]. *)
Definition to_long (z : Z) : Z := (z + 2147483648) mod 4294967296 - 2147483648.

Definition is_int (z : Z) : Prop := INT_MIN <= z <= INT_MAX.

End Machine.
Import Machine.

Arguments to_int : simpl never.
Arguments to_ulong : simpl never.
Arguments to_long : simpl never.

(** ** The world outside the sketch *)

Abbreviation HIGH := true (only parsing).
Abbreviation LOW := false (only parsing).

(** Output pins the sketch writes. *)
Inductive Pin := relayFill | relayDrain | buzzerPin | trigPin.

Definition Pin_eqb (p q : Pin) : bool :=
  match p, q with
  | relayFill, relayFill | relayDrain, relayDrain
  | buzzerPin, buzzerPin | trigPin, trigPin => true
  | _, _ => false
  end.

Inductive SystemState :=
  STATE_FILLING | STATE_HOLD_HIGH | STATE_DRAINING | STATE_HOLD_LOW.

Definition SystemState_eqb (a b : SystemState) : bool :=
  match a, b with
  | STATE_FILLING, STATE_FILLING | STATE_HOLD_HIGH, STATE_HOLD_HIGH
  | STATE_DRAINING, STATE_DRAINING | STATE_HOLD_LOW, STATE_HOLD_LOW => true
  | _, _ => false
  end.

(** Calls to the outside world.  [Adjust] is not an output of the sketch:
    it marks a call of [adjustSetting], so that the calls can be counted. *)
Inductive Event :=
| DigitalWrite (p : Pin) (v : bool)
| LcdInit
| LcdBacklight
| LcdCreateChar (slot : Z)
| LcdClear
| LcdSetCursor (col row : Z)
| LcdPrint (s : string)
| LcdPrintInt (n : Z)
| LcdWrite (glyph : Z)
| SerialBegin (baud : Z)
| SerialPrint (s : string)
| SerialPrintInt (n : Z)
| SerialPrintln (s : string)
| Adjust (direction : Z).

(** The globals shared by both sketches, the clock and the trace (newest
    entry first).  [S] is the record of the settings variables, which
    differ between the sketches. *)
Record State (S : Type) := mkState {
  settings : S;
  isRunning : bool;
  isFinished : bool;
  completedCycles : Z;
  menuPage : Z;
  currentState : SystemState;
  stateStartTime : Z;
  currentDistance : Z;
  lastBtnMenu : bool;
  lastBtnStart : bool;
  lastBtnUp : bool;
  lastBtnDown : bool;
  btnPressStartTime : Z;
  lastRepeatTime : Z;
  clock : Z;
  trace : list (Z * Event)
}.

Arguments mkState {S}.
Arguments settings {S}.
Arguments isRunning {S}.
Arguments isFinished {S}.
Arguments completedCycles {S}.
Arguments menuPage {S}.
Arguments currentState {S}.
Arguments stateStartTime {S}.
Arguments currentDistance {S}.
Arguments lastBtnMenu {S}.
Arguments lastBtnStart {S}.
Arguments lastBtnUp {S}.
Arguments lastBtnDown {S}.
Arguments btnPressStartTime {S}.
Arguments lastRepeatTime {S}.
Arguments clock {S}.
Arguments trace {S}.

Section Assignments.
Context {S : Type}.
Implicit Type st : State S.

Definition set_settings (v : S) st :=
  mkState v (isRunning st) (isFinished st) (completedCycles st) (menuPage st)
    (currentState st) (stateStartTime st) (currentDistance st)
    (lastBtnMenu st) (lastBtnStart st) (lastBtnUp st) (lastBtnDown st)
    (btnPressStartTime st) (lastRepeatTime st) (clock st) (trace st).
Definition set_isRunning (v : bool) st :=
  mkState (settings st) v (isFinished st) (completedCycles st) (menuPage st)
    (currentState st) (stateStartTime st) (currentDistance st)
    (lastBtnMenu st) (lastBtnStart st) (lastBtnUp st) (lastBtnDown st)
    (btnPressStartTime st) (lastRepeatTime st) (clock st) (trace st).
Definition set_isFinished (v : bool) st :=
  mkState (settings st) (isRunning st) v (completedCycles st) (menuPage st)
    (currentState st) (stateStartTime st) (currentDistance st)
    (lastBtnMenu st) (lastBtnStart st) (lastBtnUp st) (lastBtnDown st)
    (btnPressStartTime st) (lastRepeatTime st) (clock st) (trace st).
Definition set_completedCycles (v : Z) st :=
  mkState (settings st) (isRunning st) (isFinished st) v (menuPage st)
    (currentState st) (stateStartTime st) (currentDistance st)
    (lastBtnMenu st) (lastBtnStart st) (lastBtnUp st) (lastBtnDown st)
    (btnPressStartTime st) (lastRepeatTime st) (clock st) (trace st).
Definition set_menuPage (v : Z) st :=
  mkState (settings st) (isRunning st) (isFinished st) (completedCycles st) v
    (currentState st) (stateStartTime st) (currentDistance st)
    (lastBtnMenu st) (lastBtnStart st) (lastBtnUp st) (lastBtnDown st)
    (btnPressStartTime st) (lastRepeatTime st) (clock st) (trace st).
Definition set_currentState (v : SystemState) st :=
  mkState (settings st) (isRunning st) (isFinished st) (completedCycles st)
    (menuPage st) v (stateStartTime st) (currentDistance st)
    (lastBtnMenu st) (lastBtnStart st) (lastBtnUp st) (lastBtnDown st)
    (btnPressStartTime st) (lastRepeatTime st) (clock st) (trace st).
Definition set_stateStartTime (v : Z) st :=
  mkState (settings st) (isRunning st) (isFinished st) (completedCycles st)
    (menuPage st) (currentState st) v (currentDistance st)
    (lastBtnMenu st) (lastBtnStart st) (lastBtnUp st) (lastBtnDown st)
    (btnPressStartTime st) (lastRepeatTime st) (clock st) (trace st).
Definition set_currentDistance (v : Z) st :=
  mkState (settings st) (isRunning st) (isFinished st) (completedCycles st)
    (menuPage st) (currentState st) (stateStartTime st) v
    (lastBtnMenu st) (lastBtnStart st) (lastBtnUp st) (lastBtnDown st)
    (btnPressStartTime st) (lastRepeatTime st) (clock st) (trace st).
Definition set_lastBtnMenu (v : bool) st :=
  mkState (settings st) (isRunning st) (isFinished st) (completedCycles st)
    (menuPage st) (currentState st) (stateStartTime st) (currentDistance st)
    v (lastBtnStart st) (lastBtnUp st) (lastBtnDown st)
    (btnPressStartTime st) (lastRepeatTime st) (clock st) (trace st).
Definition set_lastBtnStart (v : bool) st :=
  mkState (settings st) (isRunning st) (isFinished st) (completedCycles st)
    (menuPage st) (currentState st) (stateStartTime st) (currentDistance st)
    (lastBtnMenu st) v (lastBtnUp st) (lastBtnDown st)
    (btnPressStartTime st) (lastRepeatTime st) (clock st) (trace st).
Definition set_lastBtnUp (v : bool) st :=
  mkState (settings st) (isRunning st) (isFinished st) (completedCycles st)
    (menuPage st) (currentState st) (stateStartTime st) (currentDistance st)
    (lastBtnMenu st) (lastBtnStart st) v (lastBtnDown st)
    (btnPressStartTime st) (lastRepeatTime st) (clock st) (trace st).
Definition set_lastBtnDown (v : bool) st :=
  mkState (settings st) (isRunning st) (isFinished st) (completedCycles st)
    (menuPage st) (currentState st) (stateStartTime st) (currentDistance st)
    (lastBtnMenu st) (lastBtnStart st) (lastBtnUp st) v
    (btnPressStartTime st) (lastRepeatTime st) (clock st) (trace st).
Definition set_btnPressStartTime (v : Z) st :=
  mkState (settings st) (isRunning st) (isFinished st) (completedCycles st)
    (menuPage st) (currentState st) (stateStartTime st) (currentDistance st)
    (lastBtnMenu st) (lastBtnStart st) (lastBtnUp st) (lastBtnDown st)
    v (lastRepeatTime st) (clock st) (trace st).
Definition set_lastRepeatTime (v : Z) st :=
  mkState (settings st) (isRunning st) (isFinished st) (completedCycles st)
    (menuPage st) (currentState st) (stateStartTime st) (currentDistance st)
    (lastBtnMenu st) (lastBtnStart st) (lastBtnUp st) (lastBtnDown st)
    (btnPressStartTime st) v (clock st) (trace st).
Definition set_clock (v : Z) st :=
  mkState (settings st) (isRunning st) (isFinished st) (completedCycles st)
    (menuPage st) (currentState st) (stateStartTime st) (currentDistance st)
    (lastBtnMenu st) (lastBtnStart st) (lastBtnUp st) (lastBtnDown st)
    (btnPressStartTime st) (lastRepeatTime st) v (trace st).
Definition set_trace (v : list (Z * Event)) st :=
  mkState (settings st) (isRunning st) (isFinished st) (completedCycles st)
    (menuPage st) (currentState st) (stateStartTime st) (currentDistance st)
    (lastBtnMenu st) (lastBtnStart st) (lastBtnUp st) (lastBtnDown st)
    (btnPressStartTime st) (lastRepeatTime st) (clock st) v.

(** *** Arduino primitives *)

Definition millis st : Z := to_ulong (clock st).
Definition delay (ms : Z) st := set_clock (clock st + ms) st.

(** Append a call to the trace, stamped with the current time. *)
Definition emit (e : Event) st := set_trace ((clock st, e) :: trace st) st.

Definition digitalWrite (p : Pin) (v : bool) st := emit (DigitalWrite p v) st.

(** [beep]: [for (int i = 0; i < count; i++)], by recursion on the number
    of iterations left.  [delay] takes an [unsigned long]: the [int]
    [duration] is converted on the call. *)
Fixpoint beep_from (left : nat) (i duration count : Z) st : State S :=
  match left with
  | O => st
  | Datatypes.S left' =>
      let st := digitalWrite buzzerPin HIGH st in
      let st := delay (to_ulong duration) st in
      let st := digitalWrite buzzerPin LOW st in
      let st := if (1 <? count) && (i <? count - 1) then delay 100 st else st in
      beep_from left' (i + 1) duration count st
  end.

Definition beep (duration count : Z) st : State S :=
  beep_from (Z.to_nat count) 0 duration count st.

Definition logStateChange (msg : string) st : State S :=
  let st := emit (SerialPrint "[") st in
  let st := emit (SerialPrintInt (millis st / 1000)) st in
  let st := emit (SerialPrint "s] ") st in
  emit (SerialPrintln msg) st.

Definition stopSystem (reason : string) st : State S :=
  let st := set_isRunning false st in
  let st := digitalWrite relayFill HIGH st in
  let st := digitalWrite relayDrain HIGH st in
  let st := emit LcdClear st in
  let st := logStateChange reason st in
  beep 500 1 st.

(** [getDistance]: the trigger pulse is written; the value the function
    returns (the echo time scaled by a floating-point constant and
    truncated to [int]) is an input of the model. *)
Definition getDistance st : State S :=
  let st := digitalWrite trigPin LOW st in
  let st := digitalWrite trigPin HIGH st in
  digitalWrite trigPin LOW st.

End Assignments.

(** ** Commanded relay levels, read off the trace *)

(** The level last written to pin [p], if any. *)
Fixpoint pinLevel (p : Pin) (tr : list (Z * Event)) : option bool :=
  match tr with
  | [] => None
  | (_, DigitalWrite q v) :: tr' => if Pin_eqb q p then Some v else pinLevel p tr'
  | _ :: tr' => pinLevel p tr'
  end.

(** The relays are active-low: a relay is commanded ON when the last level
    written to its pin is [LOW]. *)
Definition commandedOn (p : Pin) (tr : list (Z * Event)) : bool :=
  match pinLevel p tr with
  | Some v => Bool.eqb v LOW
  | None => false
  end.

Definition both_on (tr : list (Z * Event)) : bool :=
  commandedOn relayFill tr && commandedOn relayDrain tr.

(** At no moment of the trace were both relays commanded ON: the test is
    made after every single call. *)
Fixpoint never_both (tr : list (Z * Event)) : bool :=
  match tr with
  | [] => true
  | e :: tr' => negb (both_on (e :: tr')) && never_both tr'
  end.

(** The relay commands of a trace, in the same order. *)
Definition isRelay (p : Pin) : bool :=
  match p with
  | relayFill | relayDrain => true
  | _ => false
  end.

Fixpoint relayLog (tr : list (Z * Event)) : list (Z * Pin * bool) :=
  match tr with
  | [] => []
  | (t, DigitalWrite p v) :: tr' =>
      if isRelay p then (t, p, v) :: relayLog tr' else relayLog tr'
  | _ :: tr' => relayLog tr'
  end.

Fixpoint lastLevel (p : Pin) (log : list (Z * Pin * bool)) : option bool :=
  match log with
  | [] => None
  | (_, q, v) :: log' => if Pin_eqb q p then Some v else lastLevel p log'
  end.

Definition onLog (p : Pin) (log : list (Z * Pin * bool)) : bool :=
  match lastLevel p log with
  | Some v => Bool.eqb v LOW
  | None => false
  end.

Definition bothOnLog (log : list (Z * Pin * bool)) : bool :=
  onLog relayFill log && onLog relayDrain log.

Fixpoint neverBothLog (log : list (Z * Pin * bool)) : bool :=
  match log with
  | [] => true
  | e :: log' => negb (bothOnLog (e :: log')) && neverBothLog log'
  end.

(** ** The code shared by both sketches *)

(** What one iteration of [loop] reads from the outside: the four button
    levels ([LOW] is pressed), the value [getDistance] returns, and the
    time that passed since the previous iteration ended. *)
Record Input := mkInput {
  rMenu : bool;
  rUp : bool;
  rDown : bool;
  rStart : bool;
  reading : Z;
  elapsed : Z
}.

Definition LONG_PRESS_DELAY : Z := 500.
Definition REPEAT_RATE : Z := 100.

Section Sketch.
Context {S : Type}.
Implicit Type st : State S.

(** What differs between the sketches: [adjustSetting] (as a function of
    the page and the direction on the settings variables), the index of
    the last menu page, the reason logged by a stop, and the two branches
    of [loop]. *)
Variable adjustSetting : Z -> Z -> S -> S.
Variable MAX_PAGES : Z.
Variable stopReason : string.
Variable runCycleLogic : Z -> State S -> State S.
Variable displayMenu : State S -> State S.

(** A call [adjustSetting(direction)]. *)
Definition callAdjustSetting (direction : Z) st : State S :=
  let st := emit (Adjust direction) st in
  set_settings (adjustSetting (menuPage st) direction (settings st)) st.

(** Section 3 of [handleButtons]: the Up button. *)
Definition handleUp (rUp : bool) st : State S :=
  let st :=
    if Bool.eqb rUp LOW then
      if Bool.eqb (lastBtnUp st) HIGH then
        let st := callAdjustSetting 1 st in
        let st := set_btnPressStartTime (millis st) st in
        let st := set_lastRepeatTime (millis st) st in
        delay 20 st
      else if LONG_PRESS_DELAY <? to_ulong (millis st - btnPressStartTime st) then
        if REPEAT_RATE <? to_ulong (millis st - lastRepeatTime st) then
          let st := callAdjustSetting 1 st in
          set_lastRepeatTime (millis st) st
        else st
      else st
    else st in
  set_lastBtnUp rUp st.

(** Section 4 of [handleButtons]: the Down button. *)
Definition handleDown (rDown : bool) st : State S :=
  let st :=
    if Bool.eqb rDown LOW then
      if Bool.eqb (lastBtnDown st) HIGH then
        let st := callAdjustSetting (-1) st in
        let st := set_btnPressStartTime (millis st) st in
        let st := set_lastRepeatTime (millis st) st in
        delay 20 st
      else if LONG_PRESS_DELAY <? to_ulong (millis st - btnPressStartTime st) then
        if REPEAT_RATE <? to_ulong (millis st - lastRepeatTime st) then
          let st := callAdjustSetting (-1) st in
          set_lastRepeatTime (millis st) st
        else st
      else st
    else st in
  set_lastBtnDown rDown st.

(** The start branch of section 1. *)
Definition startSystem st : State S :=
  let st := set_isRunning true st in
  let st := set_isFinished false st in
  let st := set_completedCycles 0 st in
  let st := set_currentState STATE_FILLING st in
  let st := set_stateStartTime (millis st) st in
  let st := emit LcdClear st in
  let st := logStateChange "STARTED" st in
  beep 200 1 st.

(** Section 1 of [handleButtons]: the start/stop button. *)
Definition startStop (i : Input) st : State S :=
  let st :=
    if Bool.eqb (rStart i) LOW && Bool.eqb (lastBtnStart st) HIGH then
      let st :=
        if negb (isRunning st) then startSystem st
        else stopSystem stopReason st in
      delay 200 st
    else st in
  set_lastBtnStart (rStart i) st.

(** Section 2 of [handleButtons]: the menu button. *)
Definition menuButton (i : Input) st : State S :=
  let st :=
    if Bool.eqb (rMenu i) LOW && Bool.eqb (lastBtnMenu st) HIGH then
      let st := set_menuPage (to_int (menuPage st + 1)) st in
      let st := if MAX_PAGES <? menuPage st then set_menuPage 0 st else st in
      let st := emit LcdClear st in
      delay 200 st
    else st in
  set_lastBtnMenu (rMenu i) st.

(** [handleButtons]: the four levels are read first (they are the
    [Input]); [if (isRunning) return;] follows section 1. *)
Definition handleButtons (i : Input) st : State S :=
  let st := startStop i st in
  if isRunning st then st else
  let st := menuButton i st in
  let st := handleUp (rUp i) st in
  handleDown (rDown i) st.

Definition loop (i : Input) st : State S :=
  let st := delay (elapsed i) st in
  let st := handleButtons i st in
  if isRunning st then runCycleLogic (reading i) st else displayMenu st.

Fixpoint run (inputs : list Input) st : State S :=
  match inputs with
  | [] => st
  | i :: rest => run rest (loop i st)
  end.

End Sketch.

(** The time spent in the current phase, as [runCycleLogic] computes it. *)
Definition timeElapsed {S : Type} (st : State S) : Z :=
  to_ulong (millis st - stateStartTime st).

(** A press-edge of the start/stop button, as section 1 of
    [handleButtons] tests it. *)
Definition startEdge {S : Type} (i : Input) (st : State S) : bool :=
  Bool.eqb (rStart i) LOW && Bool.eqb (lastBtnStart st) HIGH.


(** The globals at power-on, before [setup]. *)
Definition powerOn {S : Type} (defaults : S) : State S :=
  mkState defaults false false 0 0 STATE_FILLING 0 0 HIGH HIGH HIGH HIGH 0 0 0 [].

(** ** The current sketch: hours and minutes, five menu pages *)

Module UxUi.

Record Settings := mkSettings {
  setHours : Z;
  setMinutes : Z;
  setHighDist : Z;
  setLowDist : Z;
  setMaxCycles : Z
}.

Definition defaults : Settings := mkSettings 1 1 10 50 1.

Definition MAX_PAGES : Z := 4.

Definition adjustSetting (menuPage direction : Z) (s : Settings) : Settings :=
  match menuPage with
  | 0 => (* Hours *)
      let h := to_int (setHours s + direction) in
      let h := if h <? 0 then 0 else h in
      let h := if 48 <? h then 48 else h in
      mkSettings h (setMinutes s) (setHighDist s) (setLowDist s) (setMaxCycles s)
  | 1 => (* Minutes *)
      let m := to_int (setMinutes s + direction) in
      let m := if m <? 0 then 59 else if 59 <? m then 0 else m in
      mkSettings (setHours s) m (setHighDist s) (setLowDist s) (setMaxCycles s)
  | 2 => (* High Dist *)
      let h := to_int (setHighDist s + direction) in
      let h := if h <? 2 then 2 else h in
      mkSettings (setHours s) (setMinutes s) h (setLowDist s) (setMaxCycles s)
  | 3 => (* Low Dist *)
      let l := to_int (setLowDist s + direction) in
      let l := if l <? to_int (setHighDist s + 5)
               then to_int (setHighDist s + 5) else l in
      mkSettings (setHours s) (setMinutes s) (setHighDist s) l (setMaxCycles s)
  | 4 => (* Cycles *)
      let c := to_int (setMaxCycles s + direction) in
      let c := if c <? 1 then 1 else c in
      mkSettings (setHours s) (setMinutes s) (setHighDist s) (setLowDist s) c
  | _ => s
  end.

(** A sequence of calls [adjustSetting(direction)], each on the menu page
    selected at the time: pairs (page, direction), first call first. *)
Fixpoint adjustAll (calls : list (Z * Z)) (s : Settings) : Settings :=
  match calls with
  | [] => s
  | (page, direction) :: rest => adjustAll rest (adjustSetting page direction s)
  end.

(** The variable a menu page edits. *)
Definition selected (page : Z) (s : Settings) : Z :=
  match page with
  | 0 => setHours s
  | 1 => setMinutes s
  | 2 => setHighDist s
  | 3 => setLowDist s
  | _ => setMaxCycles s
  end.

(** The lower clamp [adjustSetting] applies on each page. *)
Definition floor (page : Z) (s : Settings) : Z :=
  match page with
  | 0 => 0
  | 1 => 0
  | 2 => 2
  | 3 => to_int (setHighDist s + 5)
  | _ => 1
  end.

(** The value [v + 1] of a page after its upper rule: hours stop at 48,
    minutes wrap from 59 to 0, the other pages have no upper rule. *)
Definition incremented (page v : Z) : Z :=
  match page with
  | 0 => Z.min 48 (v + 1)
  | 1 => if 59 <? v + 1 then 0 else v + 1
  | _ => v + 1
  end.

Definition floors (s : Settings) : Prop :=
  0 <= setHours s /\ 0 <= setMinutes s /\ 2 <= setHighDist s /\ 1 <= setMaxCycles s.

Definition gap (s : Settings) : Prop := setHighDist s + 5 <= setLowDist s.

Definition St := State Settings.

Definition displayMenu (st : St) : St :=
  if isFinished st then
    let st := emit (LcdSetCursor 0 0) st in
    let st := emit (LcdWrite 3) st in
    let st := emit (LcdPrint " Done! Cyc: ") st in
    let st := emit (LcdPrintInt (completedCycles st)) st in
    let st := emit (LcdSetCursor 0 1) st in
    emit (LcdPrint "Press Stop->Reset") st
  else
    let st := emit (LcdSetCursor 0 0) st in
    let st :=
      match menuPage st with
      | 0 => emit (LcdPrint "Set Hold Hours:") st
      | 1 => emit (LcdPrint "Set Hold Mins:") st
      | 2 => emit (LcdPrint "Set High Level:") st
      | 3 => emit (LcdPrint "Set Low Level:") st
      | 4 => emit (LcdPrint "Set Total Cycl:") st
      | _ => st
      end in
    let st := emit (LcdSetCursor 0 1) st in
    let st := emit (LcdPrint " > ") st in
    match menuPage st with
    | 0 =>
        let st := if setHours (settings st) <? 10
                  then emit (LcdPrint "0") st else st in
        let st := emit (LcdPrintInt (setHours (settings st))) st in
        emit (LcdPrint " Hr") st
    | 1 =>
        let st := if setMinutes (settings st) <? 10
                  then emit (LcdPrint "0") st else st in
        let st := emit (LcdPrintInt (setMinutes (settings st))) st in
        emit (LcdPrint " Min") st
    | 2 =>
        let st := emit (LcdPrintInt (setHighDist (settings st))) st in
        emit (LcdPrint " cm") st
    | 3 =>
        let st := emit (LcdPrintInt (setLowDist (settings st))) st in
        emit (LcdPrint " cm") st
    | 4 =>
        let st := emit (LcdPrintInt (setMaxCycles (settings st))) st in
        emit (LcdPrint " times") st
    | _ => st
    end.

Definition updateRunningLCD (elapsed targetDuration : Z) (st : St) : St :=
  let st := emit (LcdSetCursor 0 0) st in
  let st := emit (LcdWrite 2) st in
  let st := emit (LcdPrint " ") st in
  let st :=
    match currentState st with
    | STATE_FILLING => emit (LcdPrint "Fill") st
    | STATE_HOLD_HIGH => emit (LcdPrint "Wait") st
    | STATE_DRAINING => emit (LcdPrint "Drain") st
    | STATE_HOLD_LOW => emit (LcdPrint "Wait") st
    end in
  let st := emit (LcdSetCursor 9 0) st in
  let st := emit (LcdWrite 1) st in
  let st := emit (LcdPrintInt (currentDistance st)) st in
  let st := emit (LcdPrint "cm ") st in
  let st := emit (LcdSetCursor 0 1) st in
  let st := emit (LcdWrite 0) st in
  let st := emit (LcdPrint " ") st in
  let remaining := to_long (targetDuration - elapsed) in
  let remaining := if remaining <? 0 then 0 else remaining in
  let totSec := to_ulong (Z.quot remaining 1000) in
  let h := to_int (totSec / 3600) in
  let m := to_int ((totSec mod 3600) / 60) in
  let s := to_int (totSec mod 60) in
  let st := if h <? 10 then emit (LcdPrint "0") st else st in
  let st := emit (LcdPrintInt h) st in
  let st := emit (LcdPrint ":") st in
  let st := if m <? 10 then emit (LcdPrint "0") st else st in
  let st := emit (LcdPrintInt m) st in
  let st := emit (LcdPrint ":") st in
  let st := if s <? 10 then emit (LcdPrint "0") st else st in
  let st := emit (LcdPrintInt s) st in
  let st := emit (LcdSetCursor 11 1) st in
  let st := emit (LcdPrint "#") st in
  let st := emit (LcdPrintInt (to_int (completedCycles st + 1))) st in
  let st := emit (LcdPrint "/") st in
  emit (LcdPrintInt (setMaxCycles (settings st))) st.

Definition logStatusChange (st : St) : St :=
  let s :=
    match currentState st with
    | STATE_FILLING => "FILLING"
    | STATE_HOLD_HIGH => "HOLD_HIGH"
    | STATE_DRAINING => "DRAINING"
    | STATE_HOLD_LOW => "HOLD_LOW"
    end%string in
  let st := logStateChange s st in
  beep 100 2 st.

(** [durationMillis] of [runCycleLogic], in [unsigned long] arithmetic. *)
Definition durationMillis (s : Settings) : Z :=
  to_ulong (to_ulong (to_ulong (setHours s) * 3600000)
            + to_ulong (to_ulong (setMinutes s) * 60000)).

(** The [switch (currentState)] statement of [runCycleLogic]. *)
Definition phaseSwitch (timeElapsed durationMillis : Z) (st : St) : St :=
  match currentState st with
  | STATE_FILLING =>
      let st := digitalWrite relayFill LOW st in
      let st := digitalWrite relayDrain HIGH st in
      if (0 <? currentDistance st)
         && (currentDistance st <=? setHighDist (settings st)) then
        let st := digitalWrite relayFill HIGH st in
        set_currentState STATE_HOLD_HIGH st
      else st
  | STATE_HOLD_HIGH =>
      let st := digitalWrite relayFill HIGH st in
      let st := digitalWrite relayDrain HIGH st in
      if durationMillis <=? timeElapsed then
        let st := set_currentState STATE_DRAINING st in
        set_stateStartTime (millis st) st
      else st
  | STATE_DRAINING =>
      let st := digitalWrite relayFill HIGH st in
      let st := digitalWrite relayDrain LOW st in
      if setLowDist (settings st) <=? currentDistance st then
        let st := digitalWrite relayDrain HIGH st in
        set_currentState STATE_HOLD_LOW st
      else st
  | STATE_HOLD_LOW =>
      let st := digitalWrite relayFill HIGH st in
      let st := digitalWrite relayDrain HIGH st in
      if durationMillis <=? timeElapsed then
        let st := set_completedCycles (to_int (completedCycles st + 1)) st in
        if setMaxCycles (settings st) <=? completedCycles st then
          let st := stopSystem "DONE" st in
          let st := set_isFinished true st in
          beep 500 3 st
        else
          let st := set_currentState STATE_FILLING st in
          set_stateStartTime (millis st) st
      else st
  end.

Definition runCycleLogic (reading : Z) (st : St) : St :=
  let st := getDistance st in
  let st := set_currentDistance reading st in
  let timeElapsed := to_ulong (millis st - stateStartTime st) in
  let durationMillis := durationMillis (settings st) in
  let oldState := currentState st in
  let st := phaseSwitch timeElapsed durationMillis st in
  let st :=
    if negb (SystemState_eqb (currentState st) oldState) && isRunning st
    then logStatusChange st else st in
  if isRunning st then
    let st := updateRunningLCD timeElapsed durationMillis st in
    delay 200 st
  else st.

(** [setup]; the [pinMode] calls configure directions and are left out. *)
Definition setup (st : St) : St :=
  let st := digitalWrite relayFill HIGH st in
  let st := digitalWrite relayDrain HIGH st in
  let st := digitalWrite buzzerPin LOW st in
  let st := emit (SerialBegin 9600) st in
  let st := emit LcdInit st in
  let st := emit LcdBacklight st in
  let st := emit (LcdCreateChar 0) st in
  let st := emit (LcdCreateChar 1) st in
  let st := emit (LcdCreateChar 2) st in
  let st := emit (LcdCreateChar 3) st in
  let st := emit (LcdSetCursor 0 0) st in
  let st := emit (LcdPrint "Water Cycle Sys") st in
  let st := emit (LcdSetCursor 0 1) st in
  let st := emit (LcdPrint "   v2.0 UI") st in
  let st := beep 50 2 st in
  let st := delay 1500 st in
  emit LcdClear st.

Definition handleButtons : Input -> St -> St :=
  handleButtons adjustSetting MAX_PAGES "STOPPED".

Definition loop : Input -> St -> St :=
  loop adjustSetting MAX_PAGES "STOPPED" runCycleLogic displayMenu.

Definition run : list Input -> St -> St :=
  run adjustSetting MAX_PAGES "STOPPED" runCycleLogic displayMenu.

(** The state after [setup]. *)
Definition boot : St := setup (powerOn defaults).

End UxUi.

(** ** The earlier sketch: one duration setting, four menu pages *)

Module FastScroll.

Record Settings := mkSettings {
  setDurationMins : Z;
  setHighDist : Z;
  setLowDist : Z;
  setMaxCycles : Z
}.

Definition defaults : Settings := mkSettings 360 10 50 1.

(** The literal [3] of [if (menuPage > 3) menuPage = 0]. *)
Definition MAX_PAGES : Z := 3.

Definition adjustSetting (menuPage direction : Z) (s : Settings) : Settings :=
  match menuPage with
  | 0 => (* Duration *)
      let d := to_int (setDurationMins s + direction) in
      let d := if d <? 1 then 1 else d in
      mkSettings d (setHighDist s) (setLowDist s) (setMaxCycles s)
  | 1 => (* High Dist *)
      let h := to_int (setHighDist s + direction) in
      let h := if h <? 2 then 2 else h in
      mkSettings (setDurationMins s) h (setLowDist s) (setMaxCycles s)
  | 2 => (* Low Dist *)
      let l := to_int (setLowDist s + direction) in
      let l := if l <? to_int (setHighDist s + 5)
               then to_int (setHighDist s + 5) else l in
      mkSettings (setDurationMins s) (setHighDist s) l (setMaxCycles s)
  | 3 => (* Max Cycles *)
      let c := to_int (setMaxCycles s + direction) in
      let c := if c <? 1 then 1 else c in
      mkSettings (setDurationMins s) (setHighDist s) (setLowDist s) c
  | _ => s
  end.

(** A sequence of calls [adjustSetting(direction)], each on the menu page
    selected at the time: pairs (page, direction), first call first. *)
Fixpoint adjustAll (calls : list (Z * Z)) (s : Settings) : Settings :=
  match calls with
  | [] => s
  | (page, direction) :: rest => adjustAll rest (adjustSetting page direction s)
  end.

(** The variable a menu page edits. *)
Definition selected (page : Z) (s : Settings) : Z :=
  match page with
  | 0 => setDurationMins s
  | 1 => setHighDist s
  | 2 => setLowDist s
  | _ => setMaxCycles s
  end.

(** The lower clamp [adjustSetting] applies on each page. *)
Definition floor (page : Z) (s : Settings) : Z :=
  match page with
  | 0 => 1
  | 1 => 2
  | 2 => to_int (setHighDist s + 5)
  | _ => 1
  end.

Definition floors (s : Settings) : Prop :=
  1 <= setDurationMins s /\ 2 <= setHighDist s /\ 1 <= setMaxCycles s.

Definition gap (s : Settings) : Prop := setHighDist s + 5 <= setLowDist s.

Definition St := State Settings.

Definition displayMenu (st : St) : St :=
  if isFinished st then
    let st := emit (LcdSetCursor 0 0) st in
    let st := emit (LcdPrint "Done! Cycles: ") st in
    let st := emit (LcdPrintInt (completedCycles st)) st in
    let st := emit (LcdSetCursor 0 1) st in
    emit (LcdPrint "Press Stop->Reset") st
  else
    let st := emit (LcdSetCursor 0 0) st in
    let st :=
      match menuPage st with
      | 0 => emit (LcdPrint "Set Hold Time:  ") st
      | 1 => emit (LcdPrint "Set High Level: ") st
      | 2 => emit (LcdPrint "Set Low Level:  ") st
      | 3 => emit (LcdPrint "Set Cycles:     ") st
      | _ => st
      end in
    let st := emit (LcdSetCursor 0 1) st in
    let st := emit (LcdPrint "Val: ") st in
    match menuPage st with
    | 0 =>
        let st := emit (LcdPrintInt (setDurationMins (settings st))) st in
        emit (LcdPrint " mins   ") st
    | 1 =>
        let st := emit (LcdPrintInt (setHighDist (settings st))) st in
        emit (LcdPrint " cm     ") st
    | 2 =>
        let st := emit (LcdPrintInt (setLowDist (settings st))) st in
        emit (LcdPrint " cm     ") st
    | 3 =>
        let st := emit (LcdPrintInt (setMaxCycles (settings st))) st in
        emit (LcdPrint " times  ") st
    | _ => st
    end.

Definition updateRunningLCD (elapsed targetDuration : Z) (st : St) : St :=
  let st := emit (LcdSetCursor 0 0) st in
  let st :=
    match currentState st with
    | STATE_FILLING => emit (LcdPrint "Fill ") st
    | STATE_HOLD_HIGH => emit (LcdPrint "Wait ") st
    | STATE_DRAINING => emit (LcdPrint "Drn  ") st
    | STATE_HOLD_LOW => emit (LcdPrint "Wait ") st
    end in
  let st := emit (LcdPrintInt (currentDistance st)) st in
  let st := emit (LcdPrint "cm ") st in
  let st := emit (LcdPrint "C:") st in
  let st := emit (LcdPrintInt (to_int (completedCycles st + 1))) st in
  let st := emit (LcdPrint "/") st in
  let st := emit (LcdPrintInt (setMaxCycles (settings st))) st in
  let st := emit (LcdSetCursor 0 1) st in
  if SystemState_eqb (currentState st) STATE_FILLING
     || SystemState_eqb (currentState st) STATE_DRAINING then
    emit (LcdPrint "Pumping...      ") st
  else
    let remaining := to_long (targetDuration - elapsed) in
    let remaining := if remaining <? 0 then 0 else remaining in
    let totSec := to_ulong (Z.quot remaining 1000) in
    let h := to_int (totSec / 3600) in
    let m := to_int ((totSec mod 3600) / 60) in
    let s := to_int (totSec mod 60) in
    let st := emit (LcdPrint "Rem: ") st in
    let st := if h <? 10 then emit (LcdPrint "0") st else st in
    let st := emit (LcdPrintInt h) st in
    let st := emit (LcdPrint ":") st in
    let st := if m <? 10 then emit (LcdPrint "0") st else st in
    let st := emit (LcdPrintInt m) st in
    let st := emit (LcdPrint ":") st in
    let st := if s <? 10 then emit (LcdPrint "0") st else st in
    emit (LcdPrintInt s) st.

Definition logStatusChange (st : St) : St :=
  let s :=
    match currentState st with
    | STATE_FILLING => "FILLING"
    | STATE_HOLD_HIGH => "HOLDING HIGH"
    | STATE_DRAINING => "DRAINING"
    | STATE_HOLD_LOW => "HOLDING LOW"
    end%string in
  let st := logStateChange s st in
  beep 100 2 st.

(** [durationMillis] of [runCycleLogic], in [unsigned long] arithmetic. *)
Definition durationMillis (s : Settings) : Z :=
  to_ulong (to_ulong (setDurationMins s) * 60000).

(** The [switch (currentState)] statement of [runCycleLogic]. *)
Definition phaseSwitch (timeElapsed durationMillis : Z) (st : St) : St :=
  match currentState st with
  | STATE_FILLING =>
      let st := digitalWrite relayFill LOW st in
      let st := digitalWrite relayDrain HIGH st in
      if (0 <? currentDistance st)
         && (currentDistance st <=? setHighDist (settings st)) then
        let st := digitalWrite relayFill HIGH st in
        let st := set_currentState STATE_HOLD_HIGH st in
        set_stateStartTime (millis st) st
      else st
  | STATE_HOLD_HIGH =>
      let st := digitalWrite relayFill HIGH st in
      let st := digitalWrite relayDrain HIGH st in
      if durationMillis <=? timeElapsed then
        let st := set_currentState STATE_DRAINING st in
        set_stateStartTime (millis st) st
      else st
  | STATE_DRAINING =>
      let st := digitalWrite relayFill HIGH st in
      let st := digitalWrite relayDrain LOW st in
      if setLowDist (settings st) <=? currentDistance st then
        let st := digitalWrite relayDrain HIGH st in
        let st := set_currentState STATE_HOLD_LOW st in
        set_stateStartTime (millis st) st
      else st
  | STATE_HOLD_LOW =>
      let st := digitalWrite relayFill HIGH st in
      let st := digitalWrite relayDrain HIGH st in
      if durationMillis <=? timeElapsed then
        let st := set_completedCycles (to_int (completedCycles st + 1)) st in
        if setMaxCycles (settings st) <=? completedCycles st then
          let st := stopSystem "ALL CYCLES DONE" st in
          let st := set_isFinished true st in
          beep 500 3 st
        else
          let st := set_currentState STATE_FILLING st in
          set_stateStartTime (millis st) st
      else st
  end.

Definition runCycleLogic (reading : Z) (st : St) : St :=
  let st := getDistance st in
  let st := set_currentDistance reading st in
  let timeElapsed := to_ulong (millis st - stateStartTime st) in
  let durationMillis := durationMillis (settings st) in
  let oldState := currentState st in
  let st := phaseSwitch timeElapsed durationMillis st in
  let st :=
    if negb (SystemState_eqb (currentState st) oldState) && isRunning st
    then logStatusChange st else st in
  if isRunning st then
    let st := updateRunningLCD timeElapsed durationMillis st in
    delay 200 st
  else st.

(** [setup]; the [pinMode] calls configure directions and are left out. *)
Definition setup (st : St) : St :=
  let st := digitalWrite relayFill HIGH st in
  let st := digitalWrite relayDrain HIGH st in
  let st := digitalWrite buzzerPin LOW st in
  let st := emit (SerialBegin 9600) st in
  let st := emit LcdInit st in
  let st := emit LcdBacklight st in
  let st := emit (LcdSetCursor 0 0) st in
  let st := emit (LcdPrint "System Ready") st in
  let st := beep 50 2 st in
  let st := delay 1000 st in
  emit LcdClear st.

Definition handleButtons : Input -> St -> St :=
  handleButtons adjustSetting MAX_PAGES "STOPPED BY USER".

Definition loop : Input -> St -> St :=
  loop adjustSetting MAX_PAGES "STOPPED BY USER" runCycleLogic displayMenu.

Definition run : list Input -> St -> St :=
  run adjustSetting MAX_PAGES "STOPPED BY USER" runCycleLogic displayMenu.

(** The state after [setup]. *)
Definition boot : St := setup (powerOn defaults).

End FastScroll.

(** ** Observing the adjustment buttons *)

(** The calls of [adjustSetting] recorded in a trace, each by its
    direction, newest first. *)
Fixpoint adjustments (tr : list (Z * Event)) : list Z :=
  match tr with
  | [] => []
  | (_, Adjust d) :: tr' => d :: adjustments tr'
  | _ :: tr' => adjustments tr'
  end.

(** The calls of [adjustSetting], in either direction, that [after] has
    and [before] does not have yet. *)
Definition callsSince (before after : list (Z * Event)) : list Z :=
  firstn (List.length (adjustments after) - List.length (adjustments before))
    (adjustments after).

(** One poll of the adjustment buttons: the time passed since the previous
    poll and the two levels read. *)
Record Poll := mkPoll {
  p_wait : Z;
  p_up : bool;
  p_down : bool
}.

(** What a poll shows of one button: the time when its section of
    [handleButtons] ran, the level read, and every call of [adjustSetting]
    the section made, by its direction. *)
Record Obs := mkObs {
  o_time : Z;
  o_level : bool;
  o_fired : list Z
}.

Section Scroll.
Context {S : Type}.
Variable adjustSetting : Z -> Z -> S -> S.
Implicit Type st : State S.

(** Sections 3 and 4 of [handleButtons], after the wait. *)
Definition pollScroll (p : Poll) st : State S :=
  let st := delay (p_wait p) st in
  let st := handleUp adjustSetting (p_up p) st in
  handleDown adjustSetting (p_down p) st.

Definition observeUp (p : Poll) st : Obs :=
  let st := delay (p_wait p) st in
  mkObs (clock st) (p_up p)
    (callsSince (trace st) (trace (handleUp adjustSetting (p_up p) st))).

Definition observeDown (p : Poll) st : Obs :=
  let st := delay (p_wait p) st in
  let st := handleUp adjustSetting (p_up p) st in
  mkObs (clock st) (p_down p)
    (callsSince (trace st) (trace (handleDown adjustSetting (p_down p) st))).

Fixpoint observeUps (polls : list Poll) st : list Obs :=
  match polls with
  | [] => []
  | p :: rest => observeUp p st :: observeUps rest (pollScroll p st)
  end.

Fixpoint observeDowns (polls : list Poll) st : list Obs :=
  match polls with
  | [] => []
  | p :: rest => observeDown p st :: observeDowns rest (pollScroll p st)
  end.

End Scroll.

(** The auto-repeat rule, followed along the observations of the button
    that adjusts in direction [dir].  [held] is [Some (t0, tl)] while the
    button has been read pressed at every poll since its press-edge at time
    [t0], [tl] being the time of its last adjustment; it is [None] while the
    button is released.  A released button makes no call; a press-edge
    makes one call, in direction [dir]; a held button makes no call, or one
    call in direction [dir] when 500 ms have passed since the press-edge
    and 100 ms since the last adjustment.  Any other list of calls breaks
    the rule. *)
Definition scroll_step (dir : Z) (held : option (Z * Z)) (o : Obs) : bool :=
  if o_level o then
    match o_fired o with
    | [] => true
    | _ => false
    end
  else
    match held with
    | None =>
        match o_fired o with
        | [d] => d =? dir
        | _ => false
        end
    | Some (t0, tl) =>
        match o_fired o with
        | [] => true
        | [d] => (d =? dir) && (500 <=? o_time o - t0) && (100 <=? o_time o - tl)
        | _ => false
        end
    end.




(** What a section does at a poll, from the level read, the level stored
    and the three times it compares. *)
Inductive Fire := NoFire | PressFire | RepeatFire.

Definition classify (r last : bool) (now pressStart lastRepeat : Z) : Fire :=
  if r then NoFire
  else if last then PressFire
  else if (LONG_PRESS_DELAY <? to_ulong (to_ulong now - pressStart))
          && (REPEAT_RATE <? to_ulong (to_ulong now - lastRepeat))
       then RepeatFire
       else NoFire.

(** Two states the Up and Down sections cannot tell apart: the same stored
    levels, the same two stored times, the same clock, and the same calls of
    [adjustSetting] so far. *)
Definition ScrollSame {S : Type} (a b : State S) : Prop :=
  lastBtnUp a = lastBtnUp b
  /\ lastBtnDown a = lastBtnDown b
  /\ btnPressStartTime a = btnPressStartTime b
  /\ lastRepeatTime a = lastRepeatTime b
  /\ clock a = clock b
  /\ adjustments (trace a) = adjustments (trace b).

(** ** What the cycle machine and the relays depend on *)

(** The part of the state that decides how the cycle machine and the
    relays go on: the settings, the run flags, the counter, the phase and
    its start time, the last distance, the stored level of the start
    button and the relay commands issued so far. *)
Record View (S : Type) := mkView {
  v_settings : S;
  v_isRunning : bool;
  v_isFinished : bool;
  v_completedCycles : Z;
  v_currentState : SystemState;
  v_stateStartTime : Z;
  v_currentDistance : Z;
  v_lastBtnStart : bool;
  v_relays : list (Z * Pin * bool)
}.

Arguments mkView {S}.
Arguments v_settings {S}.
Arguments v_isRunning {S}.
Arguments v_isFinished {S}.
Arguments v_completedCycles {S}.
Arguments v_currentState {S}.
Arguments v_stateStartTime {S}.
Arguments v_currentDistance {S}.
Arguments v_lastBtnStart {S}.
Arguments v_relays {S}.

Section Views.
Context {S : Type}.
Implicit Type w : View S.

Definition view (st : State S) : View S :=
  mkView (settings st) (isRunning st) (isFinished st) (completedCycles st)
    (currentState st) (stateStartTime st) (currentDistance st)
    (lastBtnStart st) (relayLog (trace st)).

Definition w_settings (v : S) w :=
  mkView v (v_isRunning w) (v_isFinished w) (v_completedCycles w)
    (v_currentState w) (v_stateStartTime w) (v_currentDistance w)
    (v_lastBtnStart w) (v_relays w).
Definition w_isRunning (v : bool) w :=
  mkView (v_settings w) v (v_isFinished w) (v_completedCycles w)
    (v_currentState w) (v_stateStartTime w) (v_currentDistance w)
    (v_lastBtnStart w) (v_relays w).
Definition w_isFinished (v : bool) w :=
  mkView (v_settings w) (v_isRunning w) v (v_completedCycles w)
    (v_currentState w) (v_stateStartTime w) (v_currentDistance w)
    (v_lastBtnStart w) (v_relays w).
Definition w_completedCycles (v : Z) w :=
  mkView (v_settings w) (v_isRunning w) (v_isFinished w) v
    (v_currentState w) (v_stateStartTime w) (v_currentDistance w)
    (v_lastBtnStart w) (v_relays w).
Definition w_currentState (v : SystemState) w :=
  mkView (v_settings w) (v_isRunning w) (v_isFinished w) (v_completedCycles w)
    v (v_stateStartTime w) (v_currentDistance w)
    (v_lastBtnStart w) (v_relays w).
Definition w_stateStartTime (v : Z) w :=
  mkView (v_settings w) (v_isRunning w) (v_isFinished w) (v_completedCycles w)
    (v_currentState w) v (v_currentDistance w)
    (v_lastBtnStart w) (v_relays w).
Definition w_currentDistance (v : Z) w :=
  mkView (v_settings w) (v_isRunning w) (v_isFinished w) (v_completedCycles w)
    (v_currentState w) (v_stateStartTime w) v
    (v_lastBtnStart w) (v_relays w).
Definition w_lastBtnStart (v : bool) w :=
  mkView (v_settings w) (v_isRunning w) (v_isFinished w) (v_completedCycles w)
    (v_currentState w) (v_stateStartTime w) (v_currentDistance w)
    v (v_relays w).
Definition w_relays (v : list (Z * Pin * bool)) w :=
  mkView (v_settings w) (v_isRunning w) (v_isFinished w) (v_completedCycles w)
    (v_currentState w) (v_stateStartTime w) (v_currentDistance w)
    (v_lastBtnStart w) v.

(** Events that are not relay commands. *)
Definition silent (e : Event) : bool :=
  match e with
  | DigitalWrite p _ => negb (isRelay p)
  | _ => true
  end.

(** The relays agree with the cycle machine: never both ON so far, the
    fill relay ON only while running in [STATE_FILLING], the drain relay
    ON only while running in [STATE_DRAINING]. *)
Definition RelayOk w : Prop :=
  neverBothLog (v_relays w) = true
  /\ (lastLevel relayFill (v_relays w) = Some HIGH
      \/ (lastLevel relayFill (v_relays w) = Some LOW
          /\ v_isRunning w = true /\ v_currentState w = STATE_FILLING))
  /\ (lastLevel relayDrain (v_relays w) = Some HIGH
      \/ (lastLevel relayDrain (v_relays w) = Some LOW
          /\ v_isRunning w = true /\ v_currentState w = STATE_DRAINING)).

(** The cycle counter stays below the target while running. *)
Definition CyclesOk (maxCycles : S -> Z) w : Prop :=
  1 <= maxCycles (v_settings w) <= INT_MAX
  /\ (v_isRunning w = true ->
      v_isFinished w = false
      /\ 0 <= v_completedCycles w < maxCycles (v_settings w)).

Definition Inv (maxCycles : S -> Z) (st : State S) : Prop :=
  RelayOk (view st) /\ CyclesOk maxCycles (view st).

(** Settings reached by calls of [adjustSetting]. *)
Inductive Adjusted (adjustSetting : Z -> Z -> S -> S) (s : S) : S -> Prop :=
| Adjusted_none : Adjusted adjustSetting s s
| Adjusted_call page direction s' :
    Adjusted adjustSetting s s' ->
    Adjusted adjustSetting s (adjustSetting page direction s').

(** [Idle a b]: from [a] to [b] the view changed in its settings only,
    and these by calls of [adjustSetting]. *)
Definition Idle (adjustSetting : Z -> Z -> S -> S) (a b : State S) : Prop :=
  exists s', Adjusted adjustSetting (settings a) s'
             /\ view b = w_settings s' (view a).

End Views.

(** [Quiet a b]: from [a] to [b] the view is unchanged. *)
Abbreviation Quiet a b := (view b = view a).

(** ** The two sketches side by side *)

Inductive Sketch := Current | Earlier.

Definition SettingsOf (k : Sketch) : Type :=
  match k with
  | Current => UxUi.Settings
  | Earlier => FastScroll.Settings
  end.

Definition bootOf (k : Sketch) : State (SettingsOf k) :=
  match k with
  | Current => UxUi.boot
  | Earlier => FastScroll.boot
  end.

Definition handleButtonsOf (k : Sketch)
  : Input -> State (SettingsOf k) -> State (SettingsOf k) :=
  match k with
  | Current => UxUi.handleButtons
  | Earlier => FastScroll.handleButtons
  end.

Definition runCycleLogicOf (k : Sketch)
  : Z -> State (SettingsOf k) -> State (SettingsOf k) :=
  match k with
  | Current => UxUi.runCycleLogic
  | Earlier => FastScroll.runCycleLogic
  end.

Definition displayMenuOf (k : Sketch)
  : State (SettingsOf k) -> State (SettingsOf k) :=
  match k with
  | Current => UxUi.displayMenu
  | Earlier => FastScroll.displayMenu
  end.

Definition loopOf (k : Sketch)
  : Input -> State (SettingsOf k) -> State (SettingsOf k) :=
  match k with
  | Current => UxUi.loop
  | Earlier => FastScroll.loop
  end.

Definition runOf (k : Sketch)
  : list Input -> State (SettingsOf k) -> State (SettingsOf k) :=
  match k with
  | Current => UxUi.run
  | Earlier => FastScroll.run
  end.

Definition durationMillisOf (k : Sketch) : SettingsOf k -> Z :=
  match k with
  | Current => UxUi.durationMillis
  | Earlier => FastScroll.durationMillis
  end.

Definition setMaxCyclesOf (k : Sketch) : SettingsOf k -> Z :=
  match k with
  | Current => UxUi.setMaxCycles
  | Earlier => FastScroll.setMaxCycles
  end.

(** A state the sketch can be in between two iterations of [loop]. *)
Definition reachable (k : Sketch) (st : State (SettingsOf k)) : Prop :=
  exists inputs, st = runOf k inputs (bootOf k).

(** ** Inputs of one iteration, and a few executions *)

(** No button held; the sensor reads [d]; [e] ms since the last iteration. *)
Definition at_level (d e : Z) : Input := mkInput HIGH HIGH HIGH HIGH d e.

(** The start/stop button held down. *)
Definition press_start (d e : Z) : Input := mkInput HIGH HIGH HIGH LOW d e.

(** The current sketch, started from the default settings and taken through
    filling, the high hold and draining, into the low hold. *)
Definition ux_to_lowHold : list Input :=
  [press_start 30 10; at_level 5 1000; at_level 5 3700000; at_level 60 1000].

Definition ux_lowHold : State (SettingsOf Current) :=
  runOf Current ux_to_lowHold (bootOf Current).

(** The same execution, one iteration further: the low hold has expired and
    the single cycle of the default settings is done. *)
Definition ux_finished : State (SettingsOf Current) :=
  runOf Current (ux_to_lowHold ++ [at_level 60 3700000]) (bootOf Current).

(** The current sketch just started, filling. *)
Definition ux_filling : State (SettingsOf Current) :=
  runOf Current [press_start 30 10] (bootOf Current).

(** The earlier sketch after one idle iteration. *)
Definition fs_ready : State (SettingsOf Earlier) :=
  runOf Earlier [at_level 30 100] (bootOf Earlier).

(** The Up button pressed, held through four polls, released; then one press
    of Down. *)
Definition hold_up : list Poll :=
  [mkPoll 10 LOW HIGH; mkPoll 300 LOW HIGH; mkPoll 300 LOW HIGH;
   mkPoll 150 LOW HIGH; mkPoll 10 HIGH HIGH; mkPoll 10 HIGH LOW].

(** ** The controls, the order of the phases, the numbers on the display *)

(** What the cycle machine never reads: the menu page, the stored levels
    of the Menu, Up and Down buttons and the two times of the
    auto-repeat. *)
Record Panel := mkPanel {
  p_menuPage : Z;
  p_lastBtnMenu : bool;
  p_lastBtnUp : bool;
  p_lastBtnDown : bool;
  p_btnPressStartTime : Z;
  p_lastRepeatTime : Z
}.

Definition panel {S : Type} (st : State S) : Panel :=
  mkPanel (menuPage st) (lastBtnMenu st) (lastBtnUp st) (lastBtnDown st)
    (btnPressStartTime st) (lastRepeatTime st).

(** The phases in the order of the [enum], around the cycle. *)
Definition nextPhase (p : SystemState) : SystemState :=
  match p with
  | STATE_FILLING => STATE_HOLD_HIGH
  | STATE_HOLD_HIGH => STATE_DRAINING
  | STATE_DRAINING => STATE_HOLD_LOW
  | STATE_HOLD_LOW => STATE_FILLING
  end.

Definition MAX_PAGESOf (k : Sketch) : Z :=
  match k with
  | Current => UxUi.MAX_PAGES
  | Earlier => FastScroll.MAX_PAGES
  end.

Definition setHighDistOf (k : Sketch) : SettingsOf k -> Z :=
  match k with
  | Current => UxUi.setHighDist
  | Earlier => FastScroll.setHighDist
  end.

Definition setLowDistOf (k : Sketch) : SettingsOf k -> Z :=
  match k with
  | Current => UxUi.setLowDist
  | Earlier => FastScroll.setLowDist
  end.

(** The numbers printed on the LCD, the last one first. *)
Fixpoint lcdInts (tr : list (Z * Event)) : list Z :=
  match tr with
  | [] => []
  | (_, LcdPrintInt n) :: tr' => n :: lcdInts tr'
  | _ :: tr' => lcdInts tr'
  end.

(** The variable a menu page edits, in either sketch. *)
Definition selectedOf (k : Sketch) : Z -> SettingsOf k -> Z :=
  match k with
  | Current => UxUi.selected
  | Earlier => FastScroll.selected
  end.

Definition adjustSettingOf (k : Sketch) : Z -> Z -> SettingsOf k -> SettingsOf k :=
  match k with
  | Current => UxUi.adjustSetting
  | Earlier => FastScroll.adjustSetting
  end.

(** The lines printed on the serial port with [Serial.println], the last
    one first. *)
Fixpoint serialLines (tr : list (Z * Event)) : list string :=
  match tr with
  | [] => []
  | (_, SerialPrintln s) :: tr' => s :: serialLines tr'
  | _ :: tr' => serialLines tr'
  end.

(** The names [logStatusChange] gives the phases, and the reason logged
    when the last cycle is done. *)
Definition phaseNameOf (k : Sketch) (p : SystemState) : string :=
  match k, p with
  | _, STATE_FILLING => "FILLING"
  | Current, STATE_HOLD_HIGH => "HOLD_HIGH"
  | Earlier, STATE_HOLD_HIGH => "HOLDING HIGH"
  | _, STATE_DRAINING => "DRAINING"
  | Current, STATE_HOLD_LOW => "HOLD_LOW"
  | Earlier, STATE_HOLD_LOW => "HOLDING LOW"
  end.

Definition finishReasonOf (k : Sketch) : string :=
  match k with
  | Current => "DONE"
  | Earlier => "ALL CYCLES DONE"
  end.

(** The reason logged by a stop with the button. *)
Definition stopReasonOf (k : Sketch) : string :=
  match k with
  | Current => "STOPPED"
  | Earlier => "STOPPED BY USER"
  end.

(** * Properties *)

(** ** Machine integers *)

Section MachineFacts.

Lemma to_int_id z : is_int z -> to_int z = z.
Proof.
  unfold is_int, INT_MIN, INT_MAX, to_int. intros H.
  rewrite Z.mod_small by lia. lia.
Qed.

Lemma to_int_range z : is_int (to_int z).
Proof.
  unfold is_int, INT_MIN, INT_MAX, to_int.
  pose proof (Z.mod_pos_bound (z + 32768) 65536). lia.
Qed.

Lemma to_ulong_range z : 0 <= to_ulong z < 4294967296.
Proof. unfold to_ulong. apply Z.mod_pos_bound. lia. Qed.


Lemma SystemState_eqb_eq a b : SystemState_eqb a b = true <-> a = b.
Proof. destruct a, b; simpl; split; congruence. Qed.

End MachineFacts.

(** ** The adjustment buttons *)

Section ScrollFacts.
Context {S : Type}.
Variable adjustSetting : Z -> Z -> S -> S.
Implicit Type st : State S.

Local Abbreviation up := (handleUp adjustSetting).
Local Abbreviation down := (handleDown adjustSetting).

(** The Up section, field by field. *)
Lemma handleUp_fields r st :
  let k := classify r (lastBtnUp st) (clock st)
             (btnPressStartTime st) (lastRepeatTime st) in
  lastBtnUp (up r st) = r
  /\ lastBtnDown (up r st) = lastBtnDown st
  /\ clock (up r st) = match k with PressFire => clock st + 20 | _ => clock st end
  /\ btnPressStartTime (up r st)
     = match k with PressFire => to_ulong (clock st) | _ => btnPressStartTime st end
  /\ lastRepeatTime (up r st)
     = match k with NoFire => lastRepeatTime st | _ => to_ulong (clock st) end
  /\ adjustments (trace (up r st))
     = match k with NoFire => [] | _ => [1] end ++ adjustments (trace st).
Proof.
  destruct st as [s run fin cyc page ph t0 dist bm bs bu bd ps lr c tr].
  unfold handleUp, classify, callAdjustSetting, millis.
  destruct r; [cbn; repeat split; reflexivity|].
  destruct bu; [cbn; repeat split; reflexivity|].
  cbn [Bool.eqb lastBtnUp clock btnPressStartTime lastRepeatTime].
  destruct (LONG_PRESS_DELAY <? to_ulong (to_ulong c - ps));
    [|cbn; repeat split; reflexivity].
  destruct (REPEAT_RATE <? to_ulong (to_ulong c - lr));
    cbn; repeat split; reflexivity.
Qed.

(** The Down section, field by field. *)
Lemma handleDown_fields r st :
  let k := classify r (lastBtnDown st) (clock st)
             (btnPressStartTime st) (lastRepeatTime st) in
  lastBtnDown (down r st) = r
  /\ lastBtnUp (down r st) = lastBtnUp st
  /\ clock (down r st) = match k with PressFire => clock st + 20 | _ => clock st end
  /\ btnPressStartTime (down r st)
     = match k with PressFire => to_ulong (clock st) | _ => btnPressStartTime st end
  /\ lastRepeatTime (down r st)
     = match k with NoFire => lastRepeatTime st | _ => to_ulong (clock st) end
  /\ adjustments (trace (down r st))
     = match k with NoFire => [] | _ => [-1] end ++ adjustments (trace st).
Proof.
  destruct st as [s run fin cyc page ph t0 dist bm bs bu bd ps lr c tr].
  unfold handleDown, classify, callAdjustSetting, millis.
  destruct r; [cbn; repeat split; reflexivity|].
  destruct bd; [cbn; repeat split; reflexivity|].
  cbn [Bool.eqb lastBtnDown clock btnPressStartTime lastRepeatTime].
  destruct (LONG_PRESS_DELAY <? to_ulong (to_ulong c - ps));
    [|cbn; repeat split; reflexivity].
  destruct (REPEAT_RATE <? to_ulong (to_ulong c - lr));
    cbn; repeat split; reflexivity.
Qed.






(** *** The sections inside [handleButtons] *)

Variable MAX_PAGES : Z.
Variable stopReason : string.

Lemma up_ScrollSame r (a b : State S) : ScrollSame a b -> ScrollSame (up r a) (up r b).
Proof.
  intros (E1 & E2 & E3 & E4 & E5 & E6).
  destruct (handleUp_fields r a) as (A1 & A2 & A3 & A4 & A5 & A6).
  destruct (handleUp_fields r b) as (B1 & B2 & B3 & B4 & B5 & B6).
  cbv zeta in *. unfold ScrollSame.
  rewrite A1, A2, A3, A4, A5, A6, B1, B2, B3, B4, B5, B6.
  rewrite E1, E2, E3, E4, E5, E6. repeat split.
Qed.

Lemma down_ScrollSame r (a b : State S) : ScrollSame a b -> ScrollSame (down r a) (down r b).
Proof.
  intros (E1 & E2 & E3 & E4 & E5 & E6).
  destruct (handleDown_fields r a) as (A1 & A2 & A3 & A4 & A5 & A6).
  destruct (handleDown_fields r b) as (B1 & B2 & B3 & B4 & B5 & B6).
  cbv zeta in *. unfold ScrollSame.
  rewrite A1, A2, A3, A4, A5, A6, B1, B2, B3, B4, B5, B6.
  rewrite E1, E2, E3, E4, E5, E6. repeat split.
Qed.

(** Sections 1 and 2 are, to the Up and Down sections, a wait. *)
Lemma startStop_waits i st :
  exists w, 0 <= w /\ ScrollSame (startStop stopReason i st) (delay w st).
Proof.
  destruct st as [s run fin cyc page ph t0 dist bm bs bu bd ps lr c tr].
  unfold startStop, startSystem, stopSystem, beep.
  change (Z.to_nat 1) with 1%nat. cbn [lastBtnStart isRunning].
  destruct (Bool.eqb (rStart i) LOW && Bool.eqb bs HIGH).
  - destruct run; [exists 700 | exists 400]; (split; [lia|]);
      unfold ScrollSame; cbn;
      change (to_ulong 500) with 500; change (to_ulong 200) with 200;
      repeat split; lia.
  - exists 0. split; [lia|]. unfold ScrollSame; cbn; repeat split; lia.
Qed.

Lemma menuButton_waits i st :
  exists w, 0 <= w /\ ScrollSame (menuButton MAX_PAGES i st) (delay w st).
Proof.
  destruct st as [s run fin cyc page ph t0 dist bm bs bu bd ps lr c tr].
  unfold menuButton. cbn [lastBtnMenu menuPage].
  destruct (Bool.eqb (rMenu i) LOW && Bool.eqb bm HIGH).
  - exists 200. split; [lia|].
    cbn [set_menuPage menuPage]. destruct (MAX_PAGES <? to_int (page + 1));
      unfold ScrollSame; cbn; repeat split.
  - exists 0. split; [lia|]. unfold ScrollSame; cbn; repeat split; lia.
Qed.

Lemma ScrollSame_delay d (a b : State S) :
  ScrollSame a b -> ScrollSame (delay d a) (delay d b).
Proof.
  intros (E1 & E2 & E3 & E4 & E5 & E6).
  unfold ScrollSame, delay. cbn. rewrite E5. repeat split; assumption.
Qed.

Lemma ScrollSame_trans (a b c : State S) :
  ScrollSame a b -> ScrollSame b c -> ScrollSame a c.
Proof.
  intros (E1 & E2 & E3 & E4 & E5 & E6) (F1 & F2 & F3 & F4 & F5 & F6).
  unfold ScrollSame. repeat split; congruence.
Qed.

Lemma delay_delay d e st : ScrollSame (delay d (delay e st)) (delay (e + d) st).
Proof. unfold ScrollSame, delay. cbn. repeat split. lia. Qed.

(** A call of [handleButtons] that does not return after section 1 is,
    for the two adjustment buttons, one poll: sections 3 and 4 run on
    the levels read, after a wait. *)
Lemma handleButtons_polls i e st :
  0 <= e ->
  isRunning (startStop stopReason i (delay e st)) = false ->
  exists w,
    0 <= w
    /\ ScrollSame (handleButtons adjustSetting MAX_PAGES stopReason i (delay e st))
         (pollScroll adjustSetting (mkPoll w (rUp i) (rDown i)) st).
Proof.
  intros He Hr. unfold handleButtons, pollScroll. cbv zeta. rewrite Hr.
  destruct (startStop_waits i (delay e st)) as [w1 [H1 S1]].
  destruct (menuButton_waits i (startStop stopReason i (delay e st)))
    as [w2 [H2 S2]].
  exists (e + w1 + w2). split; [lia|]. cbn [p_wait p_up p_down].
  apply down_ScrollSame, up_ScrollSame.
  eapply ScrollSame_trans; [exact S2|].
  eapply ScrollSame_trans; [apply ScrollSame_delay; exact S1|].
  eapply ScrollSame_trans; [apply ScrollSame_delay, delay_delay|].
  apply delay_delay.
Qed.

(** A call that returns after section 1 leaves the adjustment buttons
    as they were, and makes no adjustment. *)
Lemma handleButtons_skips i e st :
  0 <= e ->
  isRunning (startStop stopReason i (delay e st)) = true ->
  exists w,
    0 <= w
    /\ ScrollSame (handleButtons adjustSetting MAX_PAGES stopReason i (delay e st))
         (delay w st).
Proof.
  intros He Hr. unfold handleButtons. cbv zeta. rewrite Hr.
  destruct (startStop_waits i (delay e st)) as [w1 [H1 S1]].
  exists (e + w1). split; [lia|].
  eapply ScrollSame_trans; [exact S1|]. apply delay_delay.
Qed.

End ScrollFacts.

(** ** The menu page *)

Section MenuFacts.
Context {S : Type}.
Variable adjustSetting : Z -> Z -> S -> S.
Variable MAX_PAGES : Z.
Implicit Type st : State S.

(** The Up and Down sections change neither the page nor the stored
    level of the Menu button. *)
Lemma handleUp_menu r st :
  menuPage (handleUp adjustSetting r st) = menuPage st
  /\ lastBtnMenu (handleUp adjustSetting r st) = lastBtnMenu st.
Proof.
  destruct st as [s run fin cyc page ph t0 dist bm bs bu bd ps lr c tr].
  unfold handleUp, callAdjustSetting, millis.
  destruct r; [cbn; split; reflexivity|].
  destruct bu; [cbn; split; reflexivity|].
  cbn [Bool.eqb lastBtnUp clock btnPressStartTime lastRepeatTime].
  destruct (LONG_PRESS_DELAY <? to_ulong (to_ulong c - ps));
    [|cbn; split; reflexivity].
  destruct (REPEAT_RATE <? to_ulong (to_ulong c - lr)); cbn; split; reflexivity.
Qed.

Lemma handleDown_menu r st :
  menuPage (handleDown adjustSetting r st) = menuPage st
  /\ lastBtnMenu (handleDown adjustSetting r st) = lastBtnMenu st.
Proof.
  destruct st as [s run fin cyc page ph t0 dist bm bs bu bd ps lr c tr].
  unfold handleDown, callAdjustSetting, millis.
  destruct r; [cbn; split; reflexivity|].
  destruct bd; [cbn; split; reflexivity|].
  cbn [Bool.eqb lastBtnDown clock btnPressStartTime lastRepeatTime].
  destruct (LONG_PRESS_DELAY <? to_ulong (to_ulong c - ps));
    [|cbn; split; reflexivity].
  destruct (REPEAT_RATE <? to_ulong (to_ulong c - lr)); cbn; split; reflexivity.
Qed.

(** Section 2, field by field: a press-edge of Menu moves to the next
    page, and past the last page to page 0. *)
Lemma menuButton_fields i st :
  menuPage (menuButton MAX_PAGES i st)
  = (if Bool.eqb (rMenu i) LOW && Bool.eqb (lastBtnMenu st) HIGH
     then if MAX_PAGES <? to_int (menuPage st + 1)
          then 0 else to_int (menuPage st + 1)
     else menuPage st)
  /\ lastBtnMenu (menuButton MAX_PAGES i st) = rMenu i.
Proof.
  destruct st as [s run fin cyc page ph t0 dist bm bs bu bd ps lr c tr].
  unfold menuButton. cbn [lastBtnMenu menuPage].
  destruct (Bool.eqb (rMenu i) LOW && Bool.eqb bm HIGH); [|cbn; split; reflexivity].
  cbn [set_menuPage menuPage].
  destruct (MAX_PAGES <? to_int (page + 1)); cbn; split; reflexivity.
Qed.

(** What the Up and Down sections do to the settings: one call of
    [adjustSetting] on the current page when they fire, nothing
    otherwise. *)
Lemma handleUp_settings r st :
  settings (handleUp adjustSetting r st)
  = match classify r (lastBtnUp st) (clock st)
            (btnPressStartTime st) (lastRepeatTime st) with
    | NoFire => settings st
    | _ => adjustSetting (menuPage st) 1 (settings st)
    end.
Proof.
  destruct st as [s run fin cyc page ph t0 dist bm bs bu bd ps lr c tr].
  unfold handleUp, classify, callAdjustSetting, millis.
  destruct r; [reflexivity|].
  destruct bu; [reflexivity|].
  cbn [Bool.eqb lastBtnUp clock btnPressStartTime lastRepeatTime].
  destruct (LONG_PRESS_DELAY <? to_ulong (to_ulong c - ps)); [|reflexivity].
  destruct (REPEAT_RATE <? to_ulong (to_ulong c - lr)); reflexivity.
Qed.

Lemma handleDown_settings r st :
  settings (handleDown adjustSetting r st)
  = match classify r (lastBtnDown st) (clock st)
            (btnPressStartTime st) (lastRepeatTime st) with
    | NoFire => settings st
    | _ => adjustSetting (menuPage st) (-1) (settings st)
    end.
Proof.
  destruct st as [s run fin cyc page ph t0 dist bm bs bu bd ps lr c tr].
  unfold handleDown, classify, callAdjustSetting, millis.
  destruct r; [reflexivity|].
  destruct bd; [reflexivity|].
  cbn [Bool.eqb lastBtnDown clock btnPressStartTime lastRepeatTime].
  destruct (LONG_PRESS_DELAY <? to_ulong (to_ulong c - ps)); [|reflexivity].
  destruct (REPEAT_RATE <? to_ulong (to_ulong c - lr)); reflexivity.
Qed.

(** Section 2 leaves the settings and the Up and Down buttons alone. *)
Lemma menuButton_keeps i st :
  settings (menuButton MAX_PAGES i st) = settings st
  /\ lastBtnUp (menuButton MAX_PAGES i st) = lastBtnUp st
  /\ lastBtnDown (menuButton MAX_PAGES i st) = lastBtnDown st.
Proof.
  destruct st as [s run fin cyc page ph t0 dist bm bs bu bd ps lr c tr].
  unfold menuButton. cbn [lastBtnMenu menuPage].
  destruct (Bool.eqb (rMenu i) LOW && Bool.eqb bm HIGH);
    [|cbn; repeat split; reflexivity].
  cbn [set_menuPage menuPage].
  destruct (MAX_PAGES <? to_int (page + 1)); cbn; repeat split; reflexivity.
Qed.

End MenuFacts.

(** ** The idle display *)

Section FinishedView.

(** Once [isFinished] is set, [displayMenu] draws the finished view,
    whatever the menu page. *)
Lemma ux_finished_view (st : UxUi.St) :
  isFinished st = true ->
  trace (UxUi.displayMenu st)
  = map (pair (clock st))
      [LcdPrint "Press Stop->Reset"; LcdSetCursor 0 1;
       LcdPrintInt (completedCycles st); LcdPrint " Done! Cyc: ";
       LcdWrite 3; LcdSetCursor 0 0]
    ++ trace st.
Proof. intros H. unfold UxUi.displayMenu. rewrite H. reflexivity. Qed.

Lemma fs_finished_view (st : FastScroll.St) :
  isFinished st = true ->
  trace (FastScroll.displayMenu st)
  = map (pair (clock st))
      [LcdPrint "Press Stop->Reset"; LcdSetCursor 0 1;
       LcdPrintInt (completedCycles st); LcdPrint "Done! Cycles: ";
       LcdSetCursor 0 0]
    ++ trace st.
Proof. intros H. unfold FastScroll.displayMenu. rewrite H. reflexivity. Qed.

End FinishedView.

(** ** Views of the primitive calls *)

Section ViewFacts.
Context {S : Type}.
Implicit Type st : State S.

Lemma view_set_settings v st : view (set_settings v st) = w_settings v (view st).
Proof. reflexivity. Qed.
Lemma view_set_isRunning v st : view (set_isRunning v st) = w_isRunning v (view st).
Proof. reflexivity. Qed.
Lemma view_set_isFinished v st : view (set_isFinished v st) = w_isFinished v (view st).
Proof. reflexivity. Qed.
Lemma view_set_completedCycles v st :
  view (set_completedCycles v st) = w_completedCycles v (view st).
Proof. reflexivity. Qed.
Lemma view_set_currentState v st :
  view (set_currentState v st) = w_currentState v (view st).
Proof. reflexivity. Qed.
Lemma view_set_stateStartTime v st :
  view (set_stateStartTime v st) = w_stateStartTime v (view st).
Proof. reflexivity. Qed.
Lemma view_set_currentDistance v st :
  view (set_currentDistance v st) = w_currentDistance v (view st).
Proof. reflexivity. Qed.
Lemma view_set_lastBtnStart v st :
  view (set_lastBtnStart v st) = w_lastBtnStart v (view st).
Proof. reflexivity. Qed.

Lemma Quiet_set_menuPage v st : Quiet st (set_menuPage v st).
Proof. reflexivity. Qed.
Lemma Quiet_set_lastBtnMenu v st : Quiet st (set_lastBtnMenu v st).
Proof. reflexivity. Qed.
Lemma Quiet_set_lastBtnUp v st : Quiet st (set_lastBtnUp v st).
Proof. reflexivity. Qed.
Lemma Quiet_set_lastBtnDown v st : Quiet st (set_lastBtnDown v st).
Proof. reflexivity. Qed.
Lemma Quiet_set_btnPressStartTime v st : Quiet st (set_btnPressStartTime v st).
Proof. reflexivity. Qed.
Lemma Quiet_set_lastRepeatTime v st : Quiet st (set_lastRepeatTime v st).
Proof. reflexivity. Qed.
Lemma Quiet_delay d st : Quiet st (delay d st).
Proof. reflexivity. Qed.

Lemma relayLog_silent t e tr : silent e = true -> relayLog ((t, e) :: tr) = relayLog tr.
Proof.
  destruct e; simpl; try reflexivity.
  destruct (isRelay p); simpl; [discriminate | reflexivity].
Qed.

Lemma Quiet_emit e st : silent e = true -> Quiet st (emit e st).
Proof.
  intros H. unfold view. f_equal.
  exact (relayLog_silent (clock st) e (trace st) H).
Qed.

Lemma Quiet_digitalWrite p v st : isRelay p = false -> Quiet st (digitalWrite p v st).
Proof. intros H. apply Quiet_emit. simpl. now rewrite H. Qed.

(** A relay command enters the view with the time of the call. *)
Lemma view_relayWrite p v st :
  isRelay p = true ->
  view (digitalWrite p v st) = w_relays ((clock st, p, v) :: v_relays (view st)) (view st).
Proof.
  intros H. unfold view, w_relays. f_equal.
  change (relayLog ((clock st, DigitalWrite p v) :: trace st)
          = (clock st, p, v) :: relayLog (trace st)).
  cbn [relayLog]. now rewrite H.
Qed.

(** The fields, read off the view. *)
Lemma settings_view st : settings st = v_settings (view st).
Proof. reflexivity. Qed.
Lemma isRunning_view st : isRunning st = v_isRunning (view st).
Proof. reflexivity. Qed.
Lemma isFinished_view st : isFinished st = v_isFinished (view st).
Proof. reflexivity. Qed.
Lemma completedCycles_view st : completedCycles st = v_completedCycles (view st).
Proof. reflexivity. Qed.
Lemma currentState_view st : currentState st = v_currentState (view st).
Proof. reflexivity. Qed.
Lemma stateStartTime_view st : stateStartTime st = v_stateStartTime (view st).
Proof. reflexivity. Qed.
Lemma currentDistance_view st : currentDistance st = v_currentDistance (view st).
Proof. reflexivity. Qed.
Lemma lastBtnStart_view st : lastBtnStart st = v_lastBtnStart (view st).
Proof. reflexivity. Qed.
Lemma relayLog_view st : relayLog (trace st) = v_relays (view st).
Proof. reflexivity. Qed.

(** The clock moves in [delay] only. *)
Lemma clock_set_settings v st : clock (set_settings v st) = clock st.
Proof. reflexivity. Qed.
Lemma clock_set_isRunning v st : clock (set_isRunning v st) = clock st.
Proof. reflexivity. Qed.
Lemma clock_set_isFinished v st : clock (set_isFinished v st) = clock st.
Proof. reflexivity. Qed.
Lemma clock_set_completedCycles v st : clock (set_completedCycles v st) = clock st.
Proof. reflexivity. Qed.
Lemma clock_set_menuPage v st : clock (set_menuPage v st) = clock st.
Proof. reflexivity. Qed.
Lemma clock_set_currentState v st : clock (set_currentState v st) = clock st.
Proof. reflexivity. Qed.
Lemma clock_set_stateStartTime v st : clock (set_stateStartTime v st) = clock st.
Proof. reflexivity. Qed.
Lemma clock_set_currentDistance v st : clock (set_currentDistance v st) = clock st.
Proof. reflexivity. Qed.
Lemma clock_set_lastBtnMenu v st : clock (set_lastBtnMenu v st) = clock st.
Proof. reflexivity. Qed.
Lemma clock_set_lastBtnStart v st : clock (set_lastBtnStart v st) = clock st.
Proof. reflexivity. Qed.
Lemma clock_set_lastBtnUp v st : clock (set_lastBtnUp v st) = clock st.
Proof. reflexivity. Qed.
Lemma clock_set_lastBtnDown v st : clock (set_lastBtnDown v st) = clock st.
Proof. reflexivity. Qed.
Lemma clock_set_btnPressStartTime v st : clock (set_btnPressStartTime v st) = clock st.
Proof. reflexivity. Qed.
Lemma clock_set_lastRepeatTime v st : clock (set_lastRepeatTime v st) = clock st.
Proof. reflexivity. Qed.
Lemma clock_emit e st : clock (emit e st) = clock st.
Proof. reflexivity. Qed.
Lemma clock_digitalWrite p v st : clock (digitalWrite p v st) = clock st.
Proof. reflexivity. Qed.
Lemma clock_delay d st : clock (delay d st) = clock st + d.
Proof. reflexivity. Qed.
Lemma millis_clock st : millis st = to_ulong (clock st).
Proof. reflexivity. Qed.

(** Updates of a view commute with its projections by computation;
    two updates of the settings collapse. *)
Lemma w_settings_twice s1 s2 (w : View S) :
  w_settings s2 (w_settings s1 w) = w_settings s2 w.
Proof. reflexivity. Qed.

Lemma w_settings_same (w : View S) : w_settings (v_settings w) w = w.
Proof. destruct w; reflexivity. Qed.

(** *** Settings reached by calls of [adjustSetting] *)

Variable adjustSetting : Z -> Z -> S -> S.

Lemma Adjusted_trans s1 s2 s3 :
  Adjusted adjustSetting s1 s2 -> Adjusted adjustSetting s2 s3 ->
  Adjusted adjustSetting s1 s3.
Proof.
  intros H12 H23. induction H23; [exact H12 | constructor; assumption].
Qed.

Lemma Adjusted_keeps (P : S -> Prop) :
  (forall page d s, P s -> P (adjustSetting page d s)) ->
  forall s s', Adjusted adjustSetting s s' -> P s -> P s'.
Proof. intros HP s s' H Hs. induction H; auto. Qed.

Lemma Idle_refl st : Idle adjustSetting st st.
Proof.
  exists (settings st). split; [constructor|].
  rewrite settings_view. symmetry. apply w_settings_same.
Qed.

Lemma Idle_trans a b c :
  Idle adjustSetting a b -> Idle adjustSetting b c -> Idle adjustSetting a c.
Proof.
  intros [s1 [A1 E1]] [s2 [A2 E2]]. exists s2. split.
  - eapply Adjusted_trans; [exact A1|].
    rewrite settings_view, E1 in A2. exact A2.
  - rewrite E2, E1. apply w_settings_twice.
Qed.

Lemma Quiet_Idle a b : Quiet a b -> Idle adjustSetting a b.
Proof.
  intros E. exists (settings a). split; [constructor|].
  rewrite E, settings_view. symmetry. apply w_settings_same.
Qed.

Lemma Idle_callAdjustSetting d st :
  Idle adjustSetting st (callAdjustSetting adjustSetting d st).
Proof.
  exists (adjustSetting (menuPage st) d (settings st)).
  split; [constructor; constructor|].
  unfold callAdjustSetting. cbv zeta. rewrite view_set_settings.
  now rewrite (Quiet_emit (Adjust d) st eq_refl).
Qed.

(** What [Idle] keeps. *)
Lemma Idle_view a b :
  Idle adjustSetting a b -> view b = w_settings (settings b) (view a).
Proof.
  intros [s' [_ E]]. rewrite (settings_view b), E. reflexivity.
Qed.

Lemma Idle_settings a b :
  Idle adjustSetting a b -> Adjusted adjustSetting (settings a) (settings b).
Proof.
  intros [s' [A E]]. rewrite (settings_view b), E. exact A.
Qed.


End ViewFacts.

(** From here on the primitive calls are used through the facts above. *)
Opaque view set_settings set_isRunning set_isFinished set_completedCycles
  set_menuPage set_currentState set_stateStartTime set_currentDistance
  set_lastBtnMenu set_lastBtnStart set_lastBtnUp set_lastBtnDown
  set_btnPressStartTime set_lastRepeatTime set_clock set_trace
  emit delay digitalWrite millis.

Create Rewrite HintDb views.
Create Rewrite HintDb clocks.
Create Rewrite HintDb fields.

#[global] Hint Rewrite @view_set_settings @view_set_isRunning @view_set_isFinished
  @view_set_completedCycles @view_set_currentState @view_set_stateStartTime
  @view_set_currentDistance @view_set_lastBtnStart
  @Quiet_set_menuPage @Quiet_set_lastBtnMenu @Quiet_set_lastBtnUp
  @Quiet_set_lastBtnDown @Quiet_set_btnPressStartTime @Quiet_set_lastRepeatTime
  @Quiet_delay : views.

#[global] Hint Rewrite @Quiet_emit @Quiet_digitalWrite @view_relayWrite
  using reflexivity : views.

#[global] Hint Rewrite @clock_set_settings @clock_set_isRunning @clock_set_isFinished
  @clock_set_completedCycles @clock_set_menuPage @clock_set_currentState
  @clock_set_stateStartTime @clock_set_currentDistance @clock_set_lastBtnMenu
  @clock_set_lastBtnStart @clock_set_lastBtnUp @clock_set_lastBtnDown
  @clock_set_btnPressStartTime @clock_set_lastRepeatTime @clock_emit
  @clock_digitalWrite @clock_delay : clocks.

#[global] Hint Rewrite @settings_view @isRunning_view @isFinished_view
  @completedCycles_view @currentState_view @stateStartTime_view
  @currentDistance_view @lastBtnStart_view @relayLog_view : fields.

(** The view of a composition of calls: rewrite with the views of the
    calls, splitting on every test met on the way. *)
Ltac quiet_step :=
  lazymatch goal with
  | |- view ?b = view ?a =>
      first
        [ constr_eq a b; reflexivity
        | progress autorewrite with views
        | lazymatch b with
          | (if ?c then _ else _) => destruct c
          | (match ?c with _ => _ end) => destruct c
          end ]
  end.

Ltac quiet := cbv zeta; repeat quiet_step.

Ltac idle_step :=
  lazymatch goal with
  | |- Idle ?adj ?a ?b =>
      first
        [ constr_eq a b; exact (Idle_refl adj a)
        | lazymatch b with
          | (if ?c then _ else _) => destruct c
          | (match ?c with _ => _ end) => destruct c
          | ?f ?x =>
              apply (Idle_trans adj a x);
              [|first [ apply Idle_callAdjustSetting
                      | apply Quiet_Idle; autorewrite with views; reflexivity ]]
          end ]
  end.

Ltac idle := cbv zeta; repeat idle_step.

(** Compute with updates and projections of views and with relay logs. *)
Ltac view_cbn :=
  cbn [v_settings v_isRunning v_isFinished v_completedCycles v_currentState
       v_stateStartTime v_currentDistance v_lastBtnStart v_relays
       w_settings w_isRunning w_isFinished w_completedCycles w_currentState
       w_stateStartTime w_currentDistance w_lastBtnStart w_relays
       neverBothLog lastLevel Pin_eqb Bool.eqb negb andb] in *.

(** Bring every field read in the goal and the hypotheses to the view of
    the state the step started from. *)
Ltac to_view :=
  rewrite ?millis_clock in *;
  autorewrite with fields in *;
  autorewrite with views clocks in *;
  view_cbn.

(** The four cases of [RelayOk], with the levels put in place. *)
Ltac relay_cases H :=
  let Hn := fresh "Hn" in
  let Hf := fresh "Hf" in
  let Hd := fresh "Hd" in
  unfold RelayOk in H |- *; view_cbn;
  unfold bothOnLog, onLog in H |- *; view_cbn;
  destruct H as [Hn [[Hf|[Hf [? ?]]] [Hd|[Hd [? ?]]]]];
  rewrite ?Hf, ?Hd, ?Hn; view_cbn.

Section CallFrames.
Context {S : Type}.
Implicit Type st : State S.

Lemma Quiet_beep_from left i duration count st :
  Quiet st (beep_from left i duration count st).
Proof.
  revert i st.
  induction left as [|n IH]; intros i st; cbn [beep_from].
  - reflexivity.
  - rewrite IH. quiet.
Qed.

Lemma Quiet_beep duration count st : Quiet st (beep duration count st).
Proof. apply Quiet_beep_from. Qed.

Lemma Quiet_logStateChange msg st : Quiet st (logStateChange msg st).
Proof. unfold logStateChange. quiet. Qed.

Lemma Quiet_getDistance st : Quiet st (getDistance st).
Proof. unfold getDistance. quiet. Qed.

Lemma clock_logStateChange msg st : clock (logStateChange msg st) = clock st.
Proof. unfold logStateChange. cbv zeta. now autorewrite with clocks. Qed.

Lemma clock_getDistance st : clock (getDistance st) = clock st.
Proof. unfold getDistance. cbv zeta. now autorewrite with clocks. Qed.

End CallFrames.

Opaque beep logStateChange getDistance.

#[global] Hint Rewrite @Quiet_beep @Quiet_logStateChange @Quiet_getDistance : views.
#[global] Hint Rewrite @clock_logStateChange @clock_getDistance : clocks.

(** ** Relay commands *)

Section RelayLog.

Lemma pinLevel_relayLog p tr :
  isRelay p = true -> pinLevel p tr = lastLevel p (relayLog tr).
Proof.
  intros Hp. induction tr as [|[t e] tr IH]; simpl; [reflexivity|].
  destruct e; simpl; auto.
  destruct (isRelay p0) eqn:Hq; simpl; destruct (Pin_eqb p0 p) eqn:E; auto.
  destruct p0, p; simpl in *; discriminate.
Qed.

Lemma both_on_relayLog tr : both_on tr = bothOnLog (relayLog tr).
Proof.
  unfold both_on, commandedOn, bothOnLog, onLog.
  now rewrite !pinLevel_relayLog by reflexivity.
Qed.

Lemma neverBothLog_now log : neverBothLog log = true -> bothOnLog log = false.
Proof.
  destruct log as [|e log]; [reflexivity|].
  simpl. intros H. apply andb_true_iff in H. destruct H as [H _].
  apply negb_true_iff in H. exact H.
Qed.

Lemma never_both_relayLog tr : never_both tr = neverBothLog (relayLog tr).
Proof.
  induction tr as [|[t e] tr IH]; [reflexivity|].
  cbn [never_both]. rewrite both_on_relayLog, IH.
  destruct (silent e) eqn:He.
  - rewrite (relayLog_silent t e tr He).
    destruct (neverBothLog (relayLog tr)) eqn:N.
    + rewrite (neverBothLog_now _ N). reflexivity.
    + apply andb_false_r.
  - destruct e; try discriminate. simpl in He.
    apply negb_false_iff in He. simpl. rewrite He. reflexivity.
Qed.

Context {S : Type}.
Implicit Type st : State S.

Lemma never_both_view st : never_both (trace st) = neverBothLog (v_relays (view st)).
Proof. rewrite never_both_relayLog. apply f_equal, relayLog_view. Qed.

Lemma pinLevel_view p st :
  isRelay p = true -> pinLevel p (trace st) = lastLevel p (v_relays (view st)).
Proof.
  intros H. rewrite (pinLevel_relayLog p _ H). apply f_equal, relayLog_view.
Qed.

(** [stopSystem]: the run flag drops and the two relays are switched off,
    at the time of the call. *)
Lemma view_stopSystem reason st :
  view (stopSystem reason st)
  = w_relays ((clock st, relayDrain, HIGH) :: (clock st, relayFill, HIGH)
                :: v_relays (view st))
      (w_isRunning false (view st)).
Proof.
  unfold stopSystem. cbv zeta.
  autorewrite with views clocks. reflexivity.
Qed.

(** [startSystem] resets the cycle machine and writes no relay. *)
Lemma view_startSystem st :
  view (startSystem st)
  = w_stateStartTime (millis st)
      (w_currentState STATE_FILLING
         (w_completedCycles 0 (w_isFinished false (w_isRunning true (view st))))).
Proof.
  unfold startSystem. cbv zeta. rewrite !millis_clock.
  autorewrite with views clocks. reflexivity.
Qed.

End RelayLog.

Opaque startSystem stopSystem.

#[global] Hint Rewrite @view_stopSystem @view_startSystem : views.

(** ** The button handler *)

Section Controller.
Context {S : Type}.
Implicit Type st : State S.

Variable adjustSetting : Z -> Z -> S -> S.
Variable MAX_PAGES : Z.
Variable stopReason : string.

Local Abbreviation up := (handleUp adjustSetting).
Local Abbreviation down := (handleDown adjustSetting).
Local Abbreviation buttons := (handleButtons adjustSetting MAX_PAGES stopReason).
Local Abbreviation Idle' := (Idle adjustSetting).

Lemma Idle_handleUp r st : Idle' st (up r st).
Proof. unfold handleUp. idle. Qed.

Lemma Idle_handleDown r st : Idle' st (down r st).
Proof. unfold handleDown. idle. Qed.

Lemma Quiet_menuButton i st : Quiet st (menuButton MAX_PAGES i st).
Proof. unfold menuButton. quiet. Qed.

Lemma startStop_start i st :
  startEdge i st = true -> isRunning st = false ->
  startStop stopReason i st
  = set_lastBtnStart (rStart i) (delay 200 (startSystem st)).
Proof.
  unfold startEdge, startStop. intros He Hr. rewrite He, Hr. reflexivity.
Qed.

Lemma startStop_stop i st :
  startEdge i st = true -> isRunning st = true ->
  startStop stopReason i st
  = set_lastBtnStart (rStart i) (delay 200 (stopSystem stopReason st)).
Proof.
  unfold startEdge, startStop. intros He Hr. rewrite He, Hr. reflexivity.
Qed.

Lemma startStop_none i st :
  startEdge i st = false ->
  startStop stopReason i st = set_lastBtnStart (rStart i) st.
Proof.
  unfold startEdge, startStop. intros He. rewrite He. reflexivity.
Qed.

(** A press-edge while stopped: the handler starts the system and
    returns. *)
Lemma handleButtons_start i st :
  startEdge i st = true -> isRunning st = false ->
  buttons i st = set_lastBtnStart (rStart i) (delay 200 (startSystem st)).
Proof.
  intros He Hr. unfold handleButtons. rewrite (startStop_start i st He Hr).
  cbv zeta.
  assert (E : isRunning (set_lastBtnStart (rStart i) (delay 200 (startSystem st)))
              = true).
  { rewrite isRunning_view. autorewrite with views. reflexivity. }
  rewrite E. reflexivity.
Qed.

(** A press-edge while running: the handler stops the system, then goes
    on with the menu and adjustment buttons. *)
Lemma handleButtons_stop i st :
  startEdge i st = true -> isRunning st = true ->
  Idle' (set_lastBtnStart (rStart i) (delay 200 (stopSystem stopReason st)))
        (buttons i st).
Proof.
  intros He Hr. unfold handleButtons. rewrite (startStop_stop i st He Hr).
  cbv zeta.
  assert (E : isRunning (set_lastBtnStart (rStart i)
                           (delay 200 (stopSystem stopReason st))) = false).
  { rewrite isRunning_view. autorewrite with views. reflexivity. }
  rewrite E.
  eapply Idle_trans; [|apply Idle_handleDown].
  eapply Idle_trans; [|apply Idle_handleUp].
  apply Quiet_Idle, Quiet_menuButton.
Qed.

(** No press-edge while running: only the stored level changes. *)
Lemma handleButtons_running i st :
  startEdge i st = false -> isRunning st = true ->
  buttons i st = set_lastBtnStart (rStart i) st.
Proof.
  intros He Hr. unfold handleButtons. rewrite (startStop_none i st He).
  cbv zeta.
  assert (E : isRunning (set_lastBtnStart (rStart i) st) = true).
  { rewrite isRunning_view. autorewrite with views. exact Hr. }
  rewrite E. reflexivity.
Qed.

(** No press-edge while stopped: menu and adjustment buttons only. *)
Lemma handleButtons_idle i st :
  startEdge i st = false -> isRunning st = false ->
  Idle' (set_lastBtnStart (rStart i) st) (buttons i st).
Proof.
  intros He Hr. unfold handleButtons. rewrite (startStop_none i st He).
  cbv zeta.
  assert (E : isRunning (set_lastBtnStart (rStart i) st) = false).
  { rewrite isRunning_view. autorewrite with views. exact Hr. }
  rewrite E.
  eapply Idle_trans; [|apply Idle_handleDown].
  eapply Idle_trans; [|apply Idle_handleUp].
  apply Quiet_Idle, Quiet_menuButton.
Qed.

(** *** The invariant of the controller *)

Variable maxCycles : S -> Z.

Hypothesis adjust_maxCycles :
  forall page d s,
    1 <= maxCycles s <= INT_MAX ->
    1 <= maxCycles (adjustSetting page d s) <= INT_MAX.

Local Abbreviation Inv' := (Inv maxCycles).

Lemma Inv_Quiet a b : Quiet a b -> Inv' a -> Inv' b.
Proof. unfold Inv. intros E. rewrite E. auto. Qed.

Lemma Inv_Idle a b : Idle' a b -> isRunning a = false -> Inv' a -> Inv' b.
Proof.
  intros HI Hr [HR [HC1 HC2]].
  pose proof (Idle_settings _ _ _ HI) as HA.
  unfold Inv. rewrite (Idle_view _ _ _ HI).
  rewrite isRunning_view in Hr. rewrite settings_view in HA.
  split; [exact HR|]. unfold CyclesOk. view_cbn. split.
  - exact (Adjusted_keeps adjustSetting _ adjust_maxCycles _ _ HA HC1).
  - rewrite Hr. discriminate.
Qed.

Lemma Inv_set_lastBtnStart v st : Inv' st -> Inv' (set_lastBtnStart v st).
Proof. unfold Inv. rewrite view_set_lastBtnStart. auto. Qed.

Lemma Inv_start v st :
  Inv' st -> isRunning st = false ->
  Inv' (set_lastBtnStart v (delay 200 (startSystem st))).
Proof.
  unfold Inv. rewrite isRunning_view. autorewrite with views. intros [HR HC] Hr.
  relay_cases HR; unfold CyclesOk in *; view_cbn; intuition (try congruence; lia).
Qed.

Lemma Inv_stop v st :
  Inv' st -> Inv' (set_lastBtnStart v (delay 200 (stopSystem stopReason st))).
Proof.
  unfold Inv. autorewrite with views. intros [HR HC].
  relay_cases HR; unfold CyclesOk in *; view_cbn; intuition (try congruence; lia).
Qed.

Lemma handleButtons_inv i st : Inv' st -> Inv' (buttons i st).
Proof.
  intros H. destruct (startEdge i st) eqn:He, (isRunning st) eqn:Hr.
  - apply (Inv_Idle _ _ (handleButtons_stop i st He Hr)).
    + rewrite isRunning_view. autorewrite with views. reflexivity.
    + apply Inv_stop, H.
  - rewrite (handleButtons_start i st He Hr). apply Inv_start; assumption.
  - rewrite (handleButtons_running i st He Hr). apply Inv_set_lastBtnStart, H.
  - apply (Inv_Idle _ _ (handleButtons_idle i st He Hr)).
    + rewrite isRunning_view. autorewrite with views. exact Hr.
    + apply Inv_set_lastBtnStart, H.
Qed.

(** *** The loop *)

Variable runCycleLogic : Z -> State S -> State S.
Variable displayMenu : State S -> State S.

Hypothesis displayMenu_quiet : forall st, Quiet st (displayMenu st).
Hypothesis runCycleLogic_inv :
  forall d st, Inv' st -> isRunning st = true -> Inv' (runCycleLogic d st).

Local Abbreviation loop' :=
  (loop adjustSetting MAX_PAGES stopReason runCycleLogic displayMenu).
Local Abbreviation run' :=
  (run adjustSetting MAX_PAGES stopReason runCycleLogic displayMenu).

Lemma loop_inv i st : Inv' st -> Inv' (loop' i st).
Proof.
  intros H. unfold loop. cbv zeta.
  assert (H1 : Inv' (buttons i (delay (elapsed i) st))).
  { apply handleButtons_inv. apply (Inv_Quiet st); [apply Quiet_delay | exact H]. }
  destruct (isRunning (buttons i (delay (elapsed i) st))) eqn:Hr.
  - apply runCycleLogic_inv; assumption.
  - apply (Inv_Quiet _ _ (displayMenu_quiet _) H1).
Qed.

Lemma startEdge_delay i d st : startEdge i (delay d st) = startEdge i st.
Proof. unfold startEdge. to_view. reflexivity. Qed.

(** While running and with no press-edge, an iteration is one call of
    [runCycleLogic]. *)
Lemma loop_running i st :
  startEdge i st = false -> isRunning st = true ->
  loop' i st
  = runCycleLogic (reading i) (set_lastBtnStart (rStart i) (delay (elapsed i) st)).
Proof.
  intros He Hr. unfold loop. cbv zeta.
  rewrite handleButtons_running;
    [| rewrite startEdge_delay; exact He | to_view; exact Hr].
  assert (E : isRunning (set_lastBtnStart (rStart i) (delay (elapsed i) st)) = true)
    by (to_view; exact Hr).
  rewrite E. reflexivity.
Qed.

(** A press-edge while stopped: the system starts and the same iteration
    goes on with [runCycleLogic]. *)
Lemma loop_start i st :
  startEdge i st = true -> isRunning st = false ->
  loop' i st
  = runCycleLogic (reading i)
      (set_lastBtnStart (rStart i) (delay 200 (startSystem (delay (elapsed i) st)))).
Proof.
  intros He Hr. unfold loop. cbv zeta.
  rewrite handleButtons_start;
    [| rewrite startEdge_delay; exact He | to_view; exact Hr].
  assert (E : isRunning (set_lastBtnStart (rStart i)
                           (delay 200 (startSystem (delay (elapsed i) st)))) = true)
    by (to_view; reflexivity).
  rewrite E. reflexivity.
Qed.


(** A press-edge while running: the iteration stops the system.  The two
    relays are switched off at the time the buttons are read, the phase
    and the counter stay as they were. *)
Lemma loop_stop i st :
  startEdge i st = true -> isRunning st = true ->
  let st' := loop' i st in
  isRunning st' = false
  /\ isFinished st' = isFinished st
  /\ currentState st' = currentState st
  /\ completedCycles st' = completedCycles st
  /\ relayLog (trace st')
     = (clock st + elapsed i, relayDrain, HIGH)
         :: (clock st + elapsed i, relayFill, HIGH) :: relayLog (trace st)
  /\ commandedOn relayFill (trace st') = false
  /\ commandedOn relayDrain (trace st') = false.
Proof.
  intros He Hr. unfold loop. cbv zeta.
  assert (HI : Idle' (set_lastBtnStart (rStart i)
                        (delay 200 (stopSystem stopReason (delay (elapsed i) st))))
                     (buttons i (delay (elapsed i) st))).
  { apply handleButtons_stop; [rewrite startEdge_delay; exact He | to_view; exact Hr]. }
  pose proof (Idle_view _ _ _ HI) as E.
  autorewrite with views clocks in E.
  assert (Hb : isRunning (buttons i (delay (elapsed i) st)) = false).
  { rewrite isRunning_view, E. reflexivity. }
  rewrite Hb. unfold commandedOn. rewrite !pinLevel_view by reflexivity.
  rewrite !isRunning_view, !isFinished_view, !currentState_view,
    !completedCycles_view, !relayLog_view, !displayMenu_quiet, E.
  repeat split.
Qed.

(** A press-edge while stopped: what the handler leaves.  The start
    branch writes to no relay. *)
Lemma start_fields i st :
  startEdge i st = true -> isRunning st = false ->
  let st' := buttons i st in
  isRunning st' = true /\ isFinished st' = false
  /\ completedCycles st' = 0
  /\ currentState st' = STATE_FILLING
  /\ stateStartTime st' = millis st
  /\ relayLog (trace st') = relayLog (trace st).
Proof.
  intros He Hr. cbv zeta. rewrite (handleButtons_start i st He Hr).
  rewrite !isRunning_view, !isFinished_view, !currentState_view,
    !completedCycles_view, !stateStartTime_view, !relayLog_view.
  autorewrite with views. repeat split.
Qed.

(** Between runs both relays stand switched off. *)
Lemma stopped_relays_off st :
  Inv' st -> isRunning st = false ->
  pinLevel relayFill (trace st) = Some HIGH
  /\ pinLevel relayDrain (trace st) = Some HIGH.
Proof.
  intros [HR _]. rewrite isRunning_view, !pinLevel_view by reflexivity.
  intros Hr. destruct HR as [_ [[Hf|[_ [Hf _]]] [Hd|[_ [Hd _]]]]];
    split; congruence.
Qed.



Lemma run_inv inputs st : Inv' st -> Inv' (run' inputs st).
Proof.
  revert st. induction inputs as [|i rest IH]; intros st H; simpl.
  - exact H.
  - apply IH, loop_inv, H.
Qed.

End Controller.

Opaque handleUp handleDown menuButton startStop handleButtons.

(** ** The cycle machine *)

Section DisplayFrames.

Lemma ux_Quiet_displayMenu st : Quiet st (UxUi.displayMenu st).
Proof. unfold UxUi.displayMenu. quiet. Qed.

Lemma ux_Quiet_updateRunningLCD e t st : Quiet st (UxUi.updateRunningLCD e t st).
Proof. unfold UxUi.updateRunningLCD. quiet. Qed.

Lemma ux_Quiet_logStatusChange st : Quiet st (UxUi.logStatusChange st).
Proof. unfold UxUi.logStatusChange. quiet. Qed.

Lemma fs_Quiet_displayMenu st : Quiet st (FastScroll.displayMenu st).
Proof. unfold FastScroll.displayMenu. quiet. Qed.

Lemma fs_Quiet_updateRunningLCD e t st :
  Quiet st (FastScroll.updateRunningLCD e t st).
Proof. unfold FastScroll.updateRunningLCD. quiet. Qed.

Lemma fs_Quiet_logStatusChange st : Quiet st (FastScroll.logStatusChange st).
Proof. unfold FastScroll.logStatusChange. quiet. Qed.

End DisplayFrames.

Opaque UxUi.displayMenu UxUi.updateRunningLCD UxUi.logStatusChange
  FastScroll.displayMenu FastScroll.updateRunningLCD FastScroll.logStatusChange.

#[global] Hint Rewrite ux_Quiet_displayMenu ux_Quiet_updateRunningLCD
  ux_Quiet_logStatusChange fs_Quiet_displayMenu fs_Quiet_updateRunningLCD
  fs_Quiet_logStatusChange : views.

Section CycleMachine.

(** [runCycleLogic] is its [switch] as far as the view goes: what
    follows only logs, beeps and draws. *)
Lemma ux_view_runCycleLogic d st :
  view (UxUi.runCycleLogic d st)
  = view (UxUi.phaseSwitch (timeElapsed st) (UxUi.durationMillis (settings st))
            (set_currentDistance d (getDistance st))).
Proof.
  unfold UxUi.runCycleLogic. cbv zeta.
  replace (to_ulong (millis (set_currentDistance d (getDistance st))
                     - stateStartTime (set_currentDistance d (getDistance st))))
    with (timeElapsed st)
    by (unfold timeElapsed; to_view; reflexivity).
  replace (settings (set_currentDistance d (getDistance st)))
    with (settings st) by (to_view; reflexivity).
  quiet.
Qed.

Lemma fs_view_runCycleLogic d st :
  view (FastScroll.runCycleLogic d st)
  = view (FastScroll.phaseSwitch (timeElapsed st)
            (FastScroll.durationMillis (settings st))
            (set_currentDistance d (getDistance st))).
Proof.
  unfold FastScroll.runCycleLogic. cbv zeta.
  replace (to_ulong (millis (set_currentDistance d (getDistance st))
                     - stateStartTime (set_currentDistance d (getDistance st))))
    with (timeElapsed st)
    by (unfold timeElapsed; to_view; reflexivity).
  replace (settings (set_currentDistance d (getDistance st)))
    with (settings st) by (to_view; reflexivity).
  quiet.
Qed.

End CycleMachine.

Opaque UxUi.runCycleLogic FastScroll.runCycleLogic.

(** ** The invariant along the cycle *)

(** Split [phaseSwitch] into its paths. *)
Ltac phase_split st :=
  destruct (currentState st) eqn:Ephase; cbv zeta;
  repeat match goal with
         | |- context [if ?c then _ else _] => destruct c eqn:?
         end.

Ltac cycles_ok :=
  unfold CyclesOk, INT_MAX in *; view_cbn;
  repeat match goal with
         | H : _ /\ _ |- _ => destruct H
         | H : ?a = true -> _, H' : ?a = true |- _ => specialize (H H')
         | H : (_ <=? _) = false |- _ => apply Z.leb_gt in H
         | H : (_ <=? _) = true |- _ => apply Z.leb_le in H
         end;
  rewrite ?to_int_id in * by (unfold is_int, INT_MIN, INT_MAX; lia);
  repeat split; intros; try congruence; try lia.

Section CycleInvariant.

Lemma ux_phaseSwitch_inv te dm st :
  Inv UxUi.setMaxCycles st -> isRunning st = true ->
  Inv UxUi.setMaxCycles (UxUi.phaseSwitch te dm st).
Proof.
  intros [HR HC] Hrun. unfold UxUi.phaseSwitch.
  phase_split st; unfold Inv; to_view;
    (split; [relay_cases HR; intuition congruence | cycles_ok]).
Qed.

Lemma fs_phaseSwitch_inv te dm st :
  Inv FastScroll.setMaxCycles st -> isRunning st = true ->
  Inv FastScroll.setMaxCycles (FastScroll.phaseSwitch te dm st).
Proof.
  intros [HR HC] Hrun. unfold FastScroll.phaseSwitch.
  phase_split st; unfold Inv; to_view;
    (split; [relay_cases HR; intuition congruence | cycles_ok]).
Qed.

Lemma Inv_sensed {S : Type} (maxCycles : S -> Z) d (st : State S) :
  Inv maxCycles st -> Inv maxCycles (set_currentDistance d (getDistance st)).
Proof. unfold Inv. to_view. auto. Qed.

Lemma ux_runCycleLogic_inv d st :
  Inv UxUi.setMaxCycles st -> isRunning st = true ->
  Inv UxUi.setMaxCycles (UxUi.runCycleLogic d st).
Proof.
  intros H Hr. unfold Inv. rewrite ux_view_runCycleLogic.
  apply ux_phaseSwitch_inv; [apply Inv_sensed, H | to_view; exact Hr].
Qed.

Lemma fs_runCycleLogic_inv d st :
  Inv FastScroll.setMaxCycles st -> isRunning st = true ->
  Inv FastScroll.setMaxCycles (FastScroll.runCycleLogic d st).
Proof.
  intros H Hr. unfold Inv. rewrite fs_view_runCycleLogic.
  apply fs_phaseSwitch_inv; [apply Inv_sensed, H | to_view; exact Hr].
Qed.

Lemma ux_adjust_maxCycles page d s :
  1 <= UxUi.setMaxCycles s <= INT_MAX ->
  1 <= UxUi.setMaxCycles (UxUi.adjustSetting page d s) <= INT_MAX.
Proof.
  intros H. pose proof (to_int_range (UxUi.setMaxCycles s + d)) as R.
  unfold is_int, INT_MIN, INT_MAX in *.
  destruct page as [|p|p]; try exact H;
    repeat (destruct p as [p|p|]; try exact H); simpl; try exact H.
  destruct (Z.ltb_spec (to_int (UxUi.setMaxCycles s + d)) 1); lia.
Qed.

Lemma fs_adjust_maxCycles page d s :
  1 <= FastScroll.setMaxCycles s <= INT_MAX ->
  1 <= FastScroll.setMaxCycles (FastScroll.adjustSetting page d s) <= INT_MAX.
Proof.
  intros H. pose proof (to_int_range (FastScroll.setMaxCycles s + d)) as R.
  unfold is_int, INT_MIN, INT_MAX in *.
  destruct page as [|p|p]; try exact H;
    repeat (destruct p as [p|p|]; try exact H); simpl; try exact H.
  destruct (Z.ltb_spec (to_int (FastScroll.setMaxCycles s + d)) 1); lia.
Qed.

Lemma ux_boot_inv : Inv UxUi.setMaxCycles UxUi.boot.
Proof.
  split.
  - unfold RelayOk. vm_compute. auto.
  - unfold CyclesOk. vm_compute. intuition discriminate.
Qed.

Lemma fs_boot_inv : Inv FastScroll.setMaxCycles FastScroll.boot.
Proof.
  split.
  - unfold RelayOk. vm_compute. auto.
  - unfold CyclesOk. vm_compute. intuition discriminate.
Qed.

(** Every reachable state satisfies the invariant. *)
Lemma reachable_inv k st : reachable k st -> Inv (setMaxCyclesOf k) st.
Proof.
  intros [inputs ->]. destruct k; cbn [runOf bootOf setMaxCyclesOf SettingsOf].
  - apply run_inv.
    + exact ux_adjust_maxCycles.
    + exact ux_Quiet_displayMenu.
    + exact ux_runCycleLogic_inv.
    + exact ux_boot_inv.
  - apply run_inv.
    + exact fs_adjust_maxCycles.
    + exact fs_Quiet_displayMenu.
    + exact fs_runCycleLogic_inv.
    + exact fs_boot_inv.
Qed.

End CycleInvariant.

(** ** Steps of the cycle machine *)




(** The first relay command of [runCycleLogic] in [STATE_FILLING] switches
    the fill relay on; the same proof in both sketches. *)
Ltac filling_first view_runCycleLogic :=
  let Hph := fresh "Hph" in
  intros Hph; cbv zeta; autorewrite with fields;
  rewrite ?relayLog_view, !view_runCycleLogic;
  unfold UxUi.phaseSwitch, FastScroll.phaseSwitch;
  match goal with
  | |- context [currentState (set_currentDistance ?d (getDistance ?st))] =>
      replace (currentState (set_currentDistance d (getDistance st)))
        with STATE_FILLING by (to_view; congruence)
  end;
  cbv zeta;
  match goal with
  | |- context [if ?c then _ else _] => destruct c
  end;
  to_view; repeat split;
  first [ left; assumption | right; reflexivity
        | eexists [_; _]; reflexivity | eexists [_]; reflexivity ].

(** The iteration of [loop] that starts the system; the same proof in both
    sketches. *)
Ltac start_iteration filling_step i st :=
  let Hinv := fresh "Hinv" in
  let He := fresh "He" in
  let Hr := fresh "Hr" in
  let Hr' := fresh "Hr'" in
  let F := fresh "F" in
  let G := fresh "G" in
  let O := fresh "O" in
  let L := fresh "L" in
  let E := fresh "E" in
  intros Hinv He Hr; cbv zeta;
  unfold UxUi.loop, FastScroll.loop, UxUi.handleButtons, FastScroll.handleButtons;
  rewrite (loop_start _ _ _ _ _ i st He Hr);
  rewrite <- (startEdge_delay i (elapsed i) st) in He;
  assert (Hr' : isRunning (delay (elapsed i) st) = false)
    by (rewrite isRunning_view, Quiet_delay, <- isRunning_view; exact Hr);
  lazymatch goal with
  | |- context [handleButtons ?adj ?mp ?sr i] =>
      pose proof (start_fields adj mp sr i (delay (elapsed i) st) He Hr') as F;
      cbv zeta in F;
      rewrite (handleButtons_start adj mp sr i (delay (elapsed i) st) He Hr') in *
  end;
  destruct F as (F1 & F2 & F3 & F4 & F5 & F6);
  pose proof (stopped_relays_off _ st Hinv Hr) as O;
  rewrite (pinLevel_relayLog relayFill (trace st) eq_refl),
    (pinLevel_relayLog relayDrain (trace st) eq_refl) in O;
  rewrite (pinLevel_relayLog relayFill _ eq_refl),
    (pinLevel_relayLog relayDrain _ eq_refl);
  assert (L : relayLog (trace (delay (elapsed i) st)) = relayLog (trace st))
    by (rewrite !relayLog_view, Quiet_delay; reflexivity);
  rewrite L in F6; rewrite F6;
  pose proof (filling_step (reading i) _ F4) as G; cbv zeta in G;
  rewrite F1, F2, F3, F6 in G;
  destruct G as (G1 & G2 & G3 & G4 & G5);
  repeat split; try assumption; tauto.

Section Steps.





Lemma ux_filling_first d st :
  currentState st = STATE_FILLING ->
  let st' := UxUi.runCycleLogic d st in
  isRunning st' = isRunning st
  /\ isFinished st' = isFinished st
  /\ completedCycles st' = completedCycles st
  /\ (currentState st' = STATE_FILLING \/ currentState st' = STATE_HOLD_HIGH)
  /\ exists more,
       relayLog (trace st')
       = more ++ (clock st, relayFill, LOW) :: relayLog (trace st).
Proof. filling_first ux_view_runCycleLogic. Qed.

(** The iteration of [loop] that starts the system. *)
Lemma ux_start_loop (st : UxUi.St) (i : Input) :
  Inv UxUi.setMaxCycles st ->
  startEdge i st = true ->
  isRunning st = false ->
  let st0 := delay (elapsed i) st in
  let st1 := UxUi.handleButtons i st0 in
  let st' := UxUi.loop i st in
  (isRunning st1 = true /\ isFinished st1 = false
   /\ completedCycles st1 = 0
   /\ currentState st1 = STATE_FILLING
   /\ stateStartTime st1 = millis st0)
  /\ (relayLog (trace st1) = relayLog (trace st)
      /\ pinLevel relayFill (trace st1) = Some HIGH
      /\ pinLevel relayDrain (trace st1) = Some HIGH)
  /\ st' = UxUi.runCycleLogic (reading i) st1
  /\ (isRunning st' = true /\ isFinished st' = false
      /\ completedCycles st' = 0
      /\ (currentState st' = STATE_FILLING \/ currentState st' = STATE_HOLD_HIGH))
  /\ exists more,
       relayLog (trace st')
       = more ++ (clock st1, relayFill, LOW) :: relayLog (trace st).
Proof. start_iteration ux_filling_first i st. Qed.

Lemma fs_filling_first d st :
  currentState st = STATE_FILLING ->
  let st' := FastScroll.runCycleLogic d st in
  isRunning st' = isRunning st
  /\ isFinished st' = isFinished st
  /\ completedCycles st' = completedCycles st
  /\ (currentState st' = STATE_FILLING \/ currentState st' = STATE_HOLD_HIGH)
  /\ exists more,
       relayLog (trace st')
       = more ++ (clock st, relayFill, LOW) :: relayLog (trace st).
Proof. filling_first fs_view_runCycleLogic. Qed.

(** The iteration of [loop] that starts the system. *)
Lemma fs_start_loop (st : FastScroll.St) (i : Input) :
  Inv FastScroll.setMaxCycles st ->
  startEdge i st = true ->
  isRunning st = false ->
  let st0 := delay (elapsed i) st in
  let st1 := FastScroll.handleButtons i st0 in
  let st' := FastScroll.loop i st in
  (isRunning st1 = true /\ isFinished st1 = false
   /\ completedCycles st1 = 0
   /\ currentState st1 = STATE_FILLING
   /\ stateStartTime st1 = millis st0)
  /\ (relayLog (trace st1) = relayLog (trace st)
      /\ pinLevel relayFill (trace st1) = Some HIGH
      /\ pinLevel relayDrain (trace st1) = Some HIGH)
  /\ st' = FastScroll.runCycleLogic (reading i) st1
  /\ (isRunning st' = true /\ isFinished st' = false
      /\ completedCycles st' = 0
      /\ (currentState st' = STATE_FILLING \/ currentState st' = STATE_HOLD_HIGH))
  /\ exists more,
       relayLog (trace st')
       = more ++ (clock st1, relayFill, LOW) :: relayLog (trace st).
Proof. start_iteration fs_filling_first i st. Qed.

(** In the earlier sketch every change of phase made by [runCycleLogic]
    sets the phase timer to the clock read at that moment. *)
Lemma fs_transition_resets_timer d st :
  currentState (FastScroll.runCycleLogic d st) <> currentState st ->
  stateStartTime (FastScroll.runCycleLogic d st) = millis st.
Proof.
  autorewrite with fields. rewrite fs_view_runCycleLogic.
  unfold FastScroll.phaseSwitch.
  replace (currentState (set_currentDistance d (getDistance st)))
    with (v_currentState (view st)) by (to_view; reflexivity).
  destruct (v_currentState (view st)) eqn:Ephase; cbv zeta;
    repeat match goal with
           | |- context [if ?c then _ else _] => destruct c
           end;
    to_view; intros H; first [reflexivity | congruence].
Qed.

(** In the current sketch the two timed changes of phase set the timer;
    the two changes made on a level leave it as it was. *)
Lemma ux_transition_timer d st :
  currentState (UxUi.runCycleLogic d st) <> currentState st ->
  stateStartTime (UxUi.runCycleLogic d st)
  = match currentState st with
    | STATE_FILLING | STATE_DRAINING => stateStartTime st
    | STATE_HOLD_HIGH | STATE_HOLD_LOW => millis st
    end.
Proof.
  autorewrite with fields. rewrite ux_view_runCycleLogic.
  unfold UxUi.phaseSwitch.
  replace (currentState (set_currentDistance d (getDistance st)))
    with (v_currentState (view st)) by (to_view; reflexivity).
  destruct (v_currentState (view st)) eqn:Ephase; cbv zeta;
    repeat match goal with
           | |- context [if ?c then _ else _] => destruct c
           end;
    to_view; intros H; first [reflexivity | congruence].
Qed.

End Steps.

(** * The specification, statement by statement *)

(** ** Relays *)

(** [C10].  In both sketches, along every execution from power-on, the two
    relays are never commanded ON together at any moment of the trace;
    between iterations the fill relay is ON only while running in
    [STATE_FILLING] and the drain relay only while running in
    [STATE_DRAINING] (so neither is ON in the hold phases or when
    stopped). *)
Theorem relays_never_both_on (k : Sketch) (inputs : list Input) :
  let st := runOf k inputs (bootOf k) in
  never_both (trace st) = true
  /\ implb (commandedOn relayFill (trace st))
       (isRunning st && SystemState_eqb (currentState st) STATE_FILLING) = true
  /\ implb (commandedOn relayDrain (trace st))
       (isRunning st && SystemState_eqb (currentState st) STATE_DRAINING) = true.
Proof.
  intros st.
  assert (H : Inv (setMaxCyclesOf k) st) by (apply reachable_inv; exists inputs; reflexivity).
  destruct H as [HR _]. unfold commandedOn.
  rewrite never_both_view, !pinLevel_view by reflexivity.
  rewrite (isRunning_view st), (currentState_view st).
  destruct HR as [Hn [[Hf|[Hf [Hfr Hfp]]] [Hd|[Hd [Hdr Hdp]]]]];
    try congruence;
    rewrite Hn, Hf, Hd, ?Hfr, ?Hfp, ?Hdr, ?Hdp; repeat split; reflexivity.
Qed.

(** ** The cycle *)



(** [C4].  In both sketches, in any state with [isRunning] set, whatever the
    phase, an iteration of [loop] that reads a press-edge of start/stop
    leaves [isRunning] cleared and writes HIGH (off) to the fill relay and
    to the drain relay, both at the time the buttons are read and before
    anything else is written to a relay; the phase and the cycle counter
    are kept. *)
Theorem stop_cuts_both_relays (k : Sketch) (st : State (SettingsOf k)) (i : Input) :
  startEdge i st = true ->
  isRunning st = true ->
  let st' := loopOf k i st in
  isRunning st' = false
  /\ isFinished st' = isFinished st
  /\ currentState st' = currentState st
  /\ completedCycles st' = completedCycles st
  /\ relayLog (trace st')
     = (clock st + elapsed i, relayDrain, HIGH)
         :: (clock st + elapsed i, relayFill, HIGH) :: relayLog (trace st)
  /\ commandedOn relayFill (trace st') = false
  /\ commandedOn relayDrain (trace st') = false.
Proof.
  intros He Hr.
  destruct k; unfold loopOf, UxUi.loop, FastScroll.loop.
  - apply loop_stop; [exact ux_Quiet_displayMenu | exact He | exact Hr].
  - apply loop_stop; [exact fs_Quiet_displayMenu | exact He | exact Hr].
Qed.

Lemma stop_cuts_both_relays_witness :
  isRunning (loopOf Current (press_start 60 100) ux_lowHold) = false.
Proof.
  assert (H1 : startEdge (press_start 60 100) ux_lowHold = true)
    by (vm_compute; reflexivity).
  assert (H2 : isRunning ux_lowHold = true) by (vm_compute; reflexivity).
  pose proof (stop_cuts_both_relays Current ux_lowHold (press_start 60 100) H1 H2) as H.
  cbv zeta in H. destruct H as [H _]. exact H.
Defined.

(** [C6], as amended.  In both sketches, in a state reached from power-on
    with the system stopped, an iteration of [loop] that reads a press-edge of
    start/stop leaves the button handler running, not finished, with the
    cycle counter at 0, in [STATE_FILLING], and with the phase timer at the
    clock read on entering the start branch.  The start branch itself writes
    to no relay: both relays stand at HIGH (off), as last written by
    [setup], by a stop or by the finish.  The iteration goes on with
    [runCycleLogic], and the first relay command after the start is the one
    that switches the fill relay on. *)
Theorem start_initialises (k : Sketch) (st : State (SettingsOf k)) (i : Input) :
  reachable k st ->
  startEdge i st = true ->
  isRunning st = false ->
  let st0 := delay (elapsed i) st in
  let st1 := handleButtonsOf k i st0 in
  let st' := loopOf k i st in
  (isRunning st1 = true /\ isFinished st1 = false
   /\ completedCycles st1 = 0
   /\ currentState st1 = STATE_FILLING
   /\ stateStartTime st1 = millis st0)
  /\ (relayLog (trace st1) = relayLog (trace st)
      /\ pinLevel relayFill (trace st1) = Some HIGH
      /\ pinLevel relayDrain (trace st1) = Some HIGH)
  /\ st' = runCycleLogicOf k (reading i) st1
  /\ (isRunning st' = true /\ isFinished st' = false
      /\ completedCycles st' = 0
      /\ (currentState st' = STATE_FILLING \/ currentState st' = STATE_HOLD_HIGH))
  /\ exists more,
       relayLog (trace st')
       = more ++ (clock st1, relayFill, LOW) :: relayLog (trace st).
Proof.
  intros Hreach He Hr.
  pose proof (reachable_inv k st Hreach) as Hinv.
  destruct k.
  - exact (ux_start_loop st i Hinv He Hr).
  - exact (fs_start_loop st i Hinv He Hr).
Qed.

Lemma start_initialises_witness :
  let st1 := handleButtonsOf Earlier (press_start 30 10)
               (delay (elapsed (press_start 30 10)) fs_ready) in
  isRunning st1 = true /\ isFinished st1 = false
  /\ completedCycles st1 = 0
  /\ currentState st1 = STATE_FILLING
  /\ stateStartTime st1 = millis (delay (elapsed (press_start 30 10)) fs_ready).
Proof.
  assert (H1 : reachable Earlier fs_ready) by (exists [at_level 30 100]; reflexivity).
  assert (H2 : startEdge (press_start 30 10) fs_ready = true)
    by (vm_compute; reflexivity).
  assert (H3 : isRunning fs_ready = false) by (vm_compute; reflexivity).
  pose proof (start_initialises Earlier fs_ready (press_start 30 10) H1 H2 H3) as H.
  cbv zeta in H. destruct H as [H _]. exact H.
Defined.

(** [C6], as stated, fails: a start does not command the two actuators
    off.  At the first press of start/stop after power-on, in either
    sketch, the start branch of [handleButtons] adds no relay command: the
    relay commands on record when it ends are the two [setup] made at
    time 0.  The relay commands of the whole iteration are, in the order
    made, fill on and drain off, both by [runCycleLogic]: no command
    switches the fill relay off before the one that switches it on. *)
Lemma start_commands_no_relay_off :
  let i := press_start 30 10 in
  let started k := handleButtonsOf k i (delay (elapsed i) (bootOf k)) in
  let commands k :=
    firstn (List.length (relayLog (trace (loopOf k i (bootOf k))))
            - List.length (relayLog (trace (bootOf k))))
      (relayLog (trace (loopOf k i (bootOf k)))) in
  (isRunning (bootOf Current) = false
   /\ isRunning (started Current) = true
   /\ relayLog (trace (bootOf Current))
      = [(0, relayDrain, HIGH); (0, relayFill, HIGH)]
   /\ relayLog (trace (started Current)) = relayLog (trace (bootOf Current))
   /\ rev (commands Current) = [(2110, relayFill, LOW); (2110, relayDrain, HIGH)])
  /\ (isRunning (bootOf Earlier) = false
      /\ isRunning (started Earlier) = true
      /\ relayLog (trace (bootOf Earlier))
         = [(0, relayDrain, HIGH); (0, relayFill, HIGH)]
      /\ relayLog (trace (started Earlier)) = relayLog (trace (bootOf Earlier))
      /\ rev (commands Earlier)
         = [(1610, relayFill, LOW); (1610, relayDrain, HIGH)]).
Proof. vm_compute. repeat split. Qed.

(** [C5].  In both sketches, in a state reached from power-on with
    [isFinished] set, an iteration of [loop] that reads a press-edge of
    start/stop clears [isFinished], but it does not go back to the idle
    menu: it starts a new run.  [isRunning] is set, the cycle counter is 0,
    the machine is in [STATE_FILLING] (or already past it, in
    [STATE_HOLD_HIGH]), and the fill relay has been switched on.  Until
    that press the idle display is the finished view ([ux_finished_view],
    [fs_finished_view]). *)
Theorem press_after_finish_restarts (k : Sketch) (st : State (SettingsOf k))
    (i : Input) :
  reachable k st ->
  isFinished st = true ->
  startEdge i st = true ->
  let st' := loopOf k i st in
  isRunning st = false
  /\ isFinished st' = false
  /\ isRunning st' = true
  /\ completedCycles st' = 0
  /\ (currentState st' = STATE_FILLING \/ currentState st' = STATE_HOLD_HIGH)
  /\ exists more t,
       relayLog (trace st') = more ++ (t, relayFill, LOW) :: relayLog (trace st).
Proof.
  intros Hreach Hf He.
  pose proof (reachable_inv k st Hreach) as Hinv.
  assert (Hr : isRunning st = false).
  { destruct Hinv as [_ [_ HC]]. revert HC Hf.
    rewrite isRunning_view, isFinished_view.
    destruct (v_isRunning (view st)); [|reflexivity].
    intros HC Hf. destruct (HC eq_refl) as [HC' _]. congruence. }
  destruct k.
  - destruct (ux_start_loop st i Hinv He Hr) as (_ & _ & _ & (A & B & C & D) & more & E).
    repeat split; try assumption. exists more. eexists. exact E.
  - destruct (fs_start_loop st i Hinv He Hr) as (_ & _ & _ & (A & B & C & D) & more & E).
    repeat split; try assumption. exists more. eexists. exact E.
Qed.

Lemma press_after_finish_restarts_witness :
  isRunning (loopOf Current (press_start 60 100) ux_finished) = true.
Proof.
  assert (H1 : reachable Current ux_finished)
    by (exists (ux_to_lowHold ++ [at_level 60 3700000]); reflexivity).
  assert (H2 : isFinished ux_finished = true) by (vm_compute; reflexivity).
  assert (H3 : startEdge (press_start 60 100) ux_finished = true)
    by (vm_compute; reflexivity).
  pose proof (press_after_finish_restarts Current ux_finished (press_start 60 100)
                H1 H2 H3) as H.
  cbv zeta in H. destruct H as (_ & _ & H & _). exact H.
Defined.

(** [C2].  In the current sketch the two changes of phase made on a water
    level, filling to high hold and draining to low hold, leave
    [stateStartTime] as it was: the time in the hold that follows is counted
    from the start of the filling or draining before it.  (The two timed
    changes set the timer, and the earlier sketch sets it on all four:
    [ux_transition_timer], [fs_transition_resets_timer].) *)
Theorem level_transitions_keep_timer (d : Z) (st : UxUi.St) :
  (currentState st = STATE_FILLING /\ 0 < d <= UxUi.setHighDist (settings st))
  \/ (currentState st = STATE_DRAINING /\ UxUi.setLowDist (settings st) <= d) ->
  let st' := UxUi.runCycleLogic d st in
  currentState st'
  = match currentState st with
    | STATE_FILLING => STATE_HOLD_HIGH
    | _ => STATE_HOLD_LOW
    end
  /\ stateStartTime st' = stateStartTime st.
Proof.
  intros H. cbv zeta.
  assert (Hne : currentState (UxUi.runCycleLogic d st)
                = match currentState st with
                  | STATE_FILLING => STATE_HOLD_HIGH
                  | _ => STATE_HOLD_LOW
                  end).
  { autorewrite with fields. rewrite ux_view_runCycleLogic.
    unfold UxUi.phaseSwitch.
    replace (currentState (set_currentDistance d (getDistance st)))
      with (v_currentState (view st)) by (to_view; reflexivity).
    rewrite currentState_view, settings_view in H.
    destruct H as [[Hp [H1 H2]]|[Hp H1]]; rewrite Hp; cbv zeta.
    - replace ((0 <? currentDistance _) && (currentDistance _ <=? _))
        with true; [to_view; reflexivity|].
      to_view. symmetry. apply andb_true_iff. split.
      + apply Z.ltb_lt; exact H1.
      + apply Z.leb_le; exact H2.
    - replace (_ <=? currentDistance _) with true; [to_view; reflexivity|].
      to_view. symmetry. apply Z.leb_le; exact H1. }
  split; [exact Hne|].
  rewrite ux_transition_timer.
  - destruct H as [[Hp _]|[Hp _]]; rewrite Hp; reflexivity.
  - rewrite Hne. destruct H as [[Hp _]|[Hp _]]; rewrite Hp; discriminate.
Qed.

Lemma level_transitions_keep_timer_witness :
  stateStartTime (UxUi.runCycleLogic 5 ux_filling) = stateStartTime ux_filling.
Proof.
  assert (H : (currentState ux_filling = STATE_FILLING
               /\ 0 < 5 <= UxUi.setHighDist (settings ux_filling))
              \/ (currentState ux_filling = STATE_DRAINING
                  /\ UxUi.setLowDist (settings ux_filling) <= 5))
    by (left; vm_compute; repeat split; discriminate).
  pose proof (level_transitions_keep_timer 5 ux_filling H) as H0.
  cbv zeta in H0. destruct H0 as [_ H0]. exact H0.
Defined.

(** The same change of phase in the two sketches, on the same inputs: the
    current sketch enters the high hold with the timer still at the time of
    the start, the earlier one with the timer at the time of the change. *)
Example timer_at_high_hold :
  let i := at_level 5 1000 in
  let su := runOf Current [press_start 30 10] (bootOf Current) in
  let sf := runOf Earlier [press_start 30 10] (bootOf Earlier) in
  (currentState (loopOf Current i su) = STATE_HOLD_HIGH
   /\ millis (delay (elapsed i) su) = 3310
   /\ stateStartTime (loopOf Current i su) = 1710)
  /\ (currentState (loopOf Earlier i sf) = STATE_HOLD_HIGH
      /\ millis (delay (elapsed i) sf) = 2810
      /\ stateStartTime (loopOf Earlier i sf) = 2810).
Proof. vm_compute. repeat split. Qed.

(** ** The adjustment buttons *)



(** What the polls of [hold_up] show of the Up button: the press at
    1210 ms, nothing 320 ms later, a repeat 620 ms after the press and one
    770 ms after it, nothing after the release; and of the Down button:
    nothing while it is released, its one call at the press. *)
Example hold_up_observed :
  map (fun o => (o_time o, o_fired o))
    (observeUps FastScroll.adjustSetting hold_up FastScroll.boot)
  = [(1210, [1]); (1530, []); (1830, [1]); (1980, [1]); (1990, []); (2000, [])]
  /\ map o_fired (observeDowns FastScroll.adjustSetting hold_up FastScroll.boot)
     = [[]; []; []; []; []; [-1]].
Proof. vm_compute. split; reflexivity. Qed.

(** The rule counts every call: an Up section that made a second call, or
    a call in the other direction, on a press-edge would break it. *)
Example scroll_rule_rejects :
  scroll_step 1 None (mkObs 1210 LOW [1; 1]) = false
  /\ scroll_step 1 None (mkObs 1210 LOW [-1]) = false
  /\ scroll_step 1 (Some (1210, 1210)) (mkObs 1830 LOW [1; -1]) = false
  /\ scroll_step 1 (Some (1210, 1210)) (mkObs 1530 LOW [1]) = false
  /\ scroll_step 1 (Some (1210, 1210)) (mkObs 1530 HIGH [1]) = false.
Proof. vm_compute. repeat split. Qed.

(** ** The settings store *)

Section SettingsStore.

Ltac clamp :=
  repeat match goal with
         | |- context [to_int ?z] =>
             lazymatch goal with
             | _ : is_int (to_int z) |- _ => fail
             | _ => pose proof (to_int_range z)
             end
         end;
  unfold is_int, INT_MIN, INT_MAX in *;
  repeat match goal with
         | |- context [?a <? ?b] => destruct (Z.ltb_spec a b)
         | H : context [?a <? ?b] |- _ => destruct (Z.ltb_spec a b)
         end;
  simpl; try lia.

(** A page outside the menu changes nothing. *)
Lemma fs_adjust_pages page d s :
  page = 0 \/ page = 1 \/ page = 2 \/ page = 3
  \/ FastScroll.adjustSetting page d s = s.
Proof.
  destruct page as [|p|p]; auto 6.
  destruct p as [p|p|]; auto 6; destruct p as [p|p|]; auto 6.
Qed.

Lemma ux_adjust_pages page d s :
  page = 0 \/ page = 1 \/ page = 2 \/ page = 3 \/ page = 4
  \/ UxUi.adjustSetting page d s = s.
Proof.
  destruct page as [|p|p]; auto 7.
  destruct p as [p|p|]; auto 7; destruct p as [p|p|]; auto 7;
    destruct p as [p|p|]; auto 7.
Qed.

Lemma fs_floors_step page d s :
  FastScroll.floors s -> FastScroll.floors (FastScroll.adjustSetting page d s).
Proof.
  unfold FastScroll.floors. intros H.
  destruct (fs_adjust_pages page d s) as [E|[E|[E|[E|E]]]];
    [subst page ..| rewrite E; exact H]; simpl; clamp.
Qed.

Lemma ux_floors_step page d s :
  UxUi.floors s -> UxUi.floors (UxUi.adjustSetting page d s).
Proof.
  unfold UxUi.floors. intros H.
  destruct (ux_adjust_pages page d s) as [E|[E|[E|[E|[E|E]]]]];
    [subst page ..| rewrite E; exact H]; simpl; clamp.
Qed.

(** [C7], as amended.  From settings at or above their floors, after any
    sequence of adjustment calls (any page, any direction, so in
    particular any run of -1 calls): in the earlier sketch the hold
    duration stays at 1 minute or more, the high threshold at 2 or more
    and the cycle count at 1 or more; in the current sketch the high
    threshold and the cycle count keep the same floors, while the hold
    time is only kept non-negative (hours at 0 or more, minutes at 0 or
    more). *)
Theorem floors_preserved (calls : list (Z * Z))
    (sf : FastScroll.Settings) (su : UxUi.Settings)
    (Hf : FastScroll.floors sf) (Hu : UxUi.floors su) :
  FastScroll.floors (FastScroll.adjustAll calls sf)
  /\ UxUi.floors (UxUi.adjustAll calls su).
Proof.
  revert sf su Hf Hu.
  induction calls as [|[page d] rest IH]; intros sf su Hf Hu; simpl.
  - split; assumption.
  - apply IH; [apply fs_floors_step | apply ux_floors_step]; assumption.
Qed.

Lemma floors_preserved_witness :
  FastScroll.floors
    (FastScroll.adjustAll [(0, -1); (1, -1); (3, -1)] (FastScroll.mkSettings 1 2 7 1))
  /\ UxUi.floors
       (UxUi.adjustAll [(0, -1); (1, -1); (3, -1)] UxUi.defaults).
Proof.
  apply floors_preserved.
  - unfold FastScroll.floors; simpl; lia.
  - unfold UxUi.floors; simpl; lia.
Defined.

(** [C7], as stated, fails on the current sketch: one decrement of the
    hours and one of the minutes from the defaults leave a hold duration
    of zero, less than one minute. *)
Lemma hold_duration_reaches_zero :
  ~ (60000 <= UxUi.durationMillis (UxUi.adjustAll [(0, -1); (1, -1)] UxUi.defaults)).
Proof. vm_compute. intros H. apply H. reflexivity. Qed.

(** [C8], as amended.  With the selected variable below [INT_MAX] and its
    successor not below the page's floor, [adjustSetting(1)] adds exactly
    one on every page of the earlier sketch and on the threshold and
    cycle pages of the current sketch; on the hours page of the current
    sketch the result stops at 48 and on its minutes page 59 is followed
    by 0. *)
Theorem increment_exact (pf pu : Z)
    (sf : FastScroll.Settings) (su : UxUi.Settings)
    (Hpf : 0 <= pf <= 3) (Hpu : 0 <= pu <= 4)
    (Hf_int : INT_MIN <= FastScroll.selected pf sf < INT_MAX)
    (Hf_floor : FastScroll.floor pf sf <= FastScroll.selected pf sf + 1)
    (Hu_int : INT_MIN <= UxUi.selected pu su < INT_MAX)
    (Hu_floor : UxUi.floor pu su <= UxUi.selected pu su + 1) :
  FastScroll.selected pf (FastScroll.adjustSetting pf 1 sf)
    = FastScroll.selected pf sf + 1
  /\ UxUi.selected pu (UxUi.adjustSetting pu 1 su)
     = UxUi.incremented pu (UxUi.selected pu su).
Proof.
  unfold INT_MIN, INT_MAX in *. split.
  - assert (E : pf = 0 \/ pf = 1 \/ pf = 2 \/ pf = 3) by lia.
    destruct E as [E|[E|[E|E]]]; subst pf; simpl in *;
      rewrite !(to_int_id (_ + 1)) by (unfold is_int, INT_MIN, INT_MAX; lia);
      clamp.
  - assert (E : pu = 0 \/ pu = 1 \/ pu = 2 \/ pu = 3 \/ pu = 4) by lia.
    destruct E as [E|[E|[E|[E|E]]]]; subst pu; simpl in *;
      rewrite !(to_int_id (_ + 1)) by (unfold is_int, INT_MIN, INT_MAX; lia);
      clamp.
Qed.

Lemma increment_exact_witness :
  FastScroll.selected 2 (FastScroll.adjustSetting 2 1 FastScroll.defaults) = 50 + 1
  /\ UxUi.selected 0 (UxUi.adjustSetting 0 1 (UxUi.mkSettings 48 1 10 50 1))
     = UxUi.incremented 0 48.
Proof.
  apply (increment_exact 2 0 FastScroll.defaults (UxUi.mkSettings 48 1 10 50 1));
    vm_compute; intuition congruence.
Defined.

(** [C8], as stated, fails on the current sketch: at 48 hours a call with
    direction +1 leaves 48. *)
Lemma hours_capped_at_48 :
  UxUi.setHours (UxUi.adjustSetting 0 1 (UxUi.mkSettings 48 1 10 50 1)) <> 48 + 1.
Proof. vm_compute. congruence. Qed.

(** [C1]: the gap between the thresholds is lost by raising the high
    threshold.  In both sketches, lowering the low threshold from the
    defaults until its clamp holds it at 15 and then raising the high
    threshold once gives high = 11, low = 15. *)
Theorem high_page_breaks_gap :
  let calls_u := repeat (3, -1) 36 ++ [(2, 1)] in
  let calls_f := repeat (2, -1) 36 ++ [(1, 1)] in
  UxUi.gap UxUi.defaults /\ FastScroll.gap FastScroll.defaults
  /\ UxUi.gap (UxUi.adjustAll (repeat (3, -1) 36) UxUi.defaults)
  /\ FastScroll.gap (FastScroll.adjustAll (repeat (2, -1) 36) FastScroll.defaults)
  /\ UxUi.adjustAll calls_u UxUi.defaults = UxUi.mkSettings 1 1 11 15 1
  /\ FastScroll.adjustAll calls_f FastScroll.defaults = FastScroll.mkSettings 360 11 15 1
  /\ ~ UxUi.gap (UxUi.adjustAll calls_u UxUi.defaults)
  /\ ~ FastScroll.gap (FastScroll.adjustAll calls_f FastScroll.defaults).
Proof.
  unfold UxUi.gap, FastScroll.gap. vm_compute.
  repeat split; try congruence; intros H; apply H; reflexivity.
Qed.

(** Every other call keeps the gap: only a direction that raises the high
    threshold can lose it. *)
Lemma fs_gap_step page d s :
  FastScroll.floors s -> FastScroll.setHighDist s <= INT_MAX - 5 ->
  FastScroll.gap s -> page <> 1 \/ d <= 0 -> is_int d ->
  is_int (FastScroll.setHighDist s) ->
  FastScroll.gap (FastScroll.adjustSetting page d s).
Proof.
  unfold FastScroll.floors, FastScroll.gap, is_int, INT_MAX, INT_MIN.
  intros Hfl Hh Hg Hd Hdi Hhi.
  destruct (fs_adjust_pages page d s) as [E|[E|[E|[E|E]]]];
    [subst page ..| rewrite E; exact Hg]; simpl; try lia.
  - destruct Hd as [Hd|Hd]; [congruence|].
    rewrite (to_int_id (_ + d)) by (unfold is_int, INT_MIN, INT_MAX; lia).
    clamp.
  - rewrite (to_int_id (_ + 5)) by (unfold is_int, INT_MIN, INT_MAX; lia).
    clamp.
Qed.

Lemma ux_gap_step page d s :
  UxUi.floors s -> UxUi.setHighDist s <= INT_MAX - 5 ->
  UxUi.gap s -> page <> 2 \/ d <= 0 -> is_int d ->
  is_int (UxUi.setHighDist s) ->
  UxUi.gap (UxUi.adjustSetting page d s).
Proof.
  unfold UxUi.floors, UxUi.gap, is_int, INT_MAX, INT_MIN.
  intros Hfl Hh Hg Hd Hdi Hhi.
  destruct (ux_adjust_pages page d s) as [E|[E|[E|[E|[E|E]]]]];
    [subst page ..| rewrite E; exact Hg]; simpl; try lia.
  - destruct Hd as [Hd|Hd]; [congruence|].
    rewrite (to_int_id (_ + d)) by (unfold is_int, INT_MIN, INT_MAX; lia).
    clamp.
  - rewrite (to_int_id (_ + 5)) by (unfold is_int, INT_MIN, INT_MAX; lia).
    clamp.
Qed.

End SettingsStore.

(** * The rest of the sketch *)

(** ** The controls are out of the cycle machine's reach *)

Create Rewrite HintDb panels.

Section PanelFacts.
Context {S : Type}.
Implicit Type st : State S.

Lemma panel_set_settings v st : panel (set_settings v st) = panel st.
Proof. with_strategy transparent [set_settings] reflexivity. Qed.
Lemma panel_set_isRunning v st : panel (set_isRunning v st) = panel st.
Proof. with_strategy transparent [set_isRunning] reflexivity. Qed.
Lemma panel_set_isFinished v st : panel (set_isFinished v st) = panel st.
Proof. with_strategy transparent [set_isFinished] reflexivity. Qed.
Lemma panel_set_completedCycles v st : panel (set_completedCycles v st) = panel st.
Proof. with_strategy transparent [set_completedCycles] reflexivity. Qed.
Lemma panel_set_currentState v st : panel (set_currentState v st) = panel st.
Proof. with_strategy transparent [set_currentState] reflexivity. Qed.
Lemma panel_set_stateStartTime v st : panel (set_stateStartTime v st) = panel st.
Proof. with_strategy transparent [set_stateStartTime] reflexivity. Qed.
Lemma panel_set_currentDistance v st : panel (set_currentDistance v st) = panel st.
Proof. with_strategy transparent [set_currentDistance] reflexivity. Qed.
Lemma panel_set_lastBtnStart v st : panel (set_lastBtnStart v st) = panel st.
Proof. with_strategy transparent [set_lastBtnStart] reflexivity. Qed.
Lemma panel_delay d st : panel (delay d st) = panel st.
Proof. with_strategy transparent [delay] reflexivity. Qed.
Lemma panel_emit e st : panel (emit e st) = panel st.
Proof. with_strategy transparent [emit] reflexivity. Qed.
Lemma panel_digitalWrite p v st : panel (digitalWrite p v st) = panel st.
Proof. with_strategy transparent [digitalWrite emit] reflexivity. Qed.

End PanelFacts.

#[global] Hint Rewrite @panel_set_settings @panel_set_isRunning @panel_set_isFinished
  @panel_set_completedCycles @panel_set_currentState @panel_set_stateStartTime
  @panel_set_currentDistance @panel_set_lastBtnStart @panel_delay @panel_emit
  @panel_digitalWrite : panels.

(** The panel after a composition of calls: rewrite with the panels of the
    calls, splitting on every test met on the way. *)
Ltac framed_step :=
  lazymatch goal with
  | |- panel ?b = panel ?a =>
      first
        [ constr_eq a b; reflexivity
        | progress autorewrite with panels
        | lazymatch b with
          | (if ?c then _ else _) => destruct c
          | (match ?c with _ => _ end) => destruct c
          end ]
  end.

Ltac framed := cbv zeta; repeat framed_step.

Section PanelCalls.
Context {S : Type}.
Implicit Type st : State S.

Lemma panel_beep_from left i duration count st :
  panel (beep_from left i duration count st) = panel st.
Proof.
  revert i st. induction left as [|left IH]; intros i st; [reflexivity|].
  cbn [beep_from]. rewrite IH. framed.
Qed.

Lemma panel_beep duration count st : panel (beep duration count st) = panel st.
Proof. with_strategy transparent [beep] unfold beep. apply panel_beep_from. Qed.

Lemma panel_logStateChange msg st : panel (logStateChange msg st) = panel st.
Proof. with_strategy transparent [logStateChange] unfold logStateChange. framed. Qed.

Lemma panel_getDistance st : panel (getDistance st) = panel st.
Proof. with_strategy transparent [getDistance] unfold getDistance. framed. Qed.

End PanelCalls.

#[global] Hint Rewrite @panel_beep @panel_logStateChange @panel_getDistance : panels.

Section PanelSystem.
Context {S : Type}.
Implicit Type st : State S.

Lemma panel_stopSystem reason st : panel (stopSystem reason st) = panel st.
Proof. with_strategy transparent [stopSystem] unfold stopSystem. framed. Qed.

Lemma panel_startSystem st : panel (startSystem st) = panel st.
Proof. with_strategy transparent [startSystem] unfold startSystem. framed. Qed.

End PanelSystem.

#[global] Hint Rewrite @panel_stopSystem @panel_startSystem : panels.

Section PanelSketches.

Lemma panel_startStop {S : Type} reason i (st : State S) :
  panel (startStop reason i st) = panel st.
Proof. with_strategy transparent [startStop] unfold startStop. framed. Qed.

Lemma ux_panel_displayMenu st : panel (UxUi.displayMenu st) = panel st.
Proof.
  with_strategy transparent [UxUi.displayMenu] unfold UxUi.displayMenu. framed.
Qed.

Lemma ux_panel_updateRunningLCD e t st :
  panel (UxUi.updateRunningLCD e t st) = panel st.
Proof.
  with_strategy transparent [UxUi.updateRunningLCD] unfold UxUi.updateRunningLCD.
  framed.
Qed.

Lemma ux_panel_logStatusChange st : panel (UxUi.logStatusChange st) = panel st.
Proof.
  with_strategy transparent [UxUi.logStatusChange] unfold UxUi.logStatusChange.
  framed.
Qed.

Lemma fs_panel_displayMenu st : panel (FastScroll.displayMenu st) = panel st.
Proof.
  with_strategy transparent [FastScroll.displayMenu] unfold FastScroll.displayMenu.
  framed.
Qed.

Lemma fs_panel_updateRunningLCD e t st :
  panel (FastScroll.updateRunningLCD e t st) = panel st.
Proof.
  with_strategy transparent [FastScroll.updateRunningLCD]
    unfold FastScroll.updateRunningLCD.
  framed.
Qed.

Lemma fs_panel_logStatusChange st : panel (FastScroll.logStatusChange st) = panel st.
Proof.
  with_strategy transparent [FastScroll.logStatusChange]
    unfold FastScroll.logStatusChange.
  framed.
Qed.

End PanelSketches.

#[global] Hint Rewrite @panel_startStop ux_panel_displayMenu ux_panel_updateRunningLCD
  ux_panel_logStatusChange fs_panel_displayMenu fs_panel_updateRunningLCD
  fs_panel_logStatusChange : panels.

Section PanelCycle.

Lemma ux_panel_phaseSwitch te dm st : panel (UxUi.phaseSwitch te dm st) = panel st.
Proof. unfold UxUi.phaseSwitch. framed. Qed.

Lemma fs_panel_phaseSwitch te dm st :
  panel (FastScroll.phaseSwitch te dm st) = panel st.
Proof. unfold FastScroll.phaseSwitch. framed. Qed.

Lemma ux_panel_runCycleLogic d st : panel (UxUi.runCycleLogic d st) = panel st.
Proof.
  with_strategy transparent [UxUi.runCycleLogic] unfold UxUi.runCycleLogic.
  cbv zeta.
  repeat first [ progress rewrite ?ux_panel_phaseSwitch
               | framed_step ].
Qed.

Lemma fs_panel_runCycleLogic d st :
  panel (FastScroll.runCycleLogic d st) = panel st.
Proof.
  with_strategy transparent [FastScroll.runCycleLogic]
    unfold FastScroll.runCycleLogic.
  cbv zeta.
  repeat first [ progress rewrite ?fs_panel_phaseSwitch
               | framed_step ].
Qed.

End PanelCycle.

(** ** One iteration, field by field *)

Section HandlerFacts.
Context {S : Type}.
Implicit Type st : State S.

Variable adjustSetting : Z -> Z -> S -> S.
Variable MAX_PAGES : Z.
Variable stopReason : string.
Variable runCycleLogic : Z -> State S -> State S.
Variable displayMenu : State S -> State S.

Hypothesis displayMenu_quiet : forall st, Quiet st (displayMenu st).
Hypothesis displayMenu_panel : forall st, panel (displayMenu st) = panel st.
Hypothesis runCycleLogic_keeps :
  forall d st,
    settings (runCycleLogic d st) = settings st
    /\ lastBtnStart (runCycleLogic d st) = lastBtnStart st
    /\ panel (runCycleLogic d st) = panel st.

Local Abbreviation buttons := (handleButtons adjustSetting MAX_PAGES stopReason).
Local Abbreviation loop' :=
  (loop adjustSetting MAX_PAGES stopReason runCycleLogic displayMenu).
Local Abbreviation run' :=
  (run adjustSetting MAX_PAGES stopReason runCycleLogic displayMenu).

Lemma menuPage_panel st : menuPage st = p_menuPage (panel st).
Proof. reflexivity. Qed.

Lemma lastBtnMenu_panel st : lastBtnMenu st = p_lastBtnMenu (panel st).
Proof. reflexivity. Qed.

(** The four ways through an iteration. *)
Lemma loop_cases i st :
  let st0 := delay (elapsed i) st in
  (startEdge i st = false /\ isRunning st = true
   /\ loop' i st = runCycleLogic (reading i) (set_lastBtnStart (rStart i) st0))
  \/ (startEdge i st = true /\ isRunning st = false
      /\ loop' i st
         = runCycleLogic (reading i)
             (set_lastBtnStart (rStart i) (delay 200 (startSystem st0))))
  \/ (startEdge i st = isRunning st
      /\ isRunning (startStop stopReason i st0) = false
      /\ loop' i st = displayMenu (buttons i st0)
      /\ exists a,
           Idle adjustSetting a (buttons i st0)
           /\ settings a = settings st
           /\ lastBtnStart a = rStart i).
Proof.
  cbv zeta.
  destruct (startEdge i st) eqn:He, (isRunning st) eqn:Hr.
  - (* stop *)
    right; right.
    assert (He' : startEdge i (delay (elapsed i) st) = true)
      by (rewrite startEdge_delay; exact He).
    assert (Hr' : isRunning (delay (elapsed i) st) = true) by (to_view; exact Hr).
    pose proof (handleButtons_stop adjustSetting MAX_PAGES stopReason i _ He' Hr')
      as HI.
    pose proof (Idle_view _ _ _ HI) as E.
    assert (Hb : isRunning (buttons i (delay (elapsed i) st)) = false).
    { rewrite isRunning_view, E. autorewrite with views. reflexivity. }
    repeat split.
    + rewrite (startStop_stop stopReason i _ He' Hr').
      rewrite isRunning_view. autorewrite with views. reflexivity.
    + unfold loop. cbv zeta. rewrite Hb. reflexivity.
    + eexists. split; [exact HI|]. split.
      * rewrite !settings_view. autorewrite with views. reflexivity.
      * rewrite lastBtnStart_view. autorewrite with views. reflexivity.
  - (* start *)
    right; left. repeat split.
    apply (loop_start adjustSetting MAX_PAGES stopReason); assumption.
  - (* running *)
    left. repeat split.
    apply (loop_running adjustSetting MAX_PAGES stopReason); assumption.
  - (* idle *)
    right; right.
    assert (He' : startEdge i (delay (elapsed i) st) = false)
      by (rewrite startEdge_delay; exact He).
    assert (Hr' : isRunning (delay (elapsed i) st) = false) by (to_view; exact Hr).
    pose proof (handleButtons_idle adjustSetting MAX_PAGES stopReason i _ He' Hr')
      as HI.
    pose proof (Idle_view _ _ _ HI) as E.
    assert (Hb : isRunning (buttons i (delay (elapsed i) st)) = false).
    { rewrite isRunning_view, E. autorewrite with views. view_cbn.
      rewrite <- isRunning_view. exact Hr. }
    repeat split.
    + rewrite (startStop_none stopReason i _ He').
      rewrite isRunning_view. autorewrite with views. view_cbn.
      rewrite <- isRunning_view. exact Hr.
    + unfold loop. cbv zeta. rewrite Hb. reflexivity.
    + eexists. split; [exact HI|]. split.
      * rewrite !settings_view. autorewrite with views. reflexivity.
      * rewrite lastBtnStart_view. autorewrite with views. reflexivity.
Qed.

(** Every iteration stores the level read on the start/stop button. *)
Lemma loop_lastBtnStart i st : lastBtnStart (loop' i st) = rStart i.
Proof.
  destruct (loop_cases i st) as [(_ & _ & E)|[(_ & _ & E)|(_ & _ & E & a & HI & _ & HL)]];
    cbv zeta in E; rewrite E.
  - rewrite (proj1 (proj2 (runCycleLogic_keeps _ _))).
    rewrite lastBtnStart_view. autorewrite with views. reflexivity.
  - rewrite (proj1 (proj2 (runCycleLogic_keeps _ _))).
    rewrite lastBtnStart_view. autorewrite with views. reflexivity.
  - rewrite lastBtnStart_view, displayMenu_quiet, (Idle_view _ _ _ HI).
    view_cbn. rewrite <- lastBtnStart_view. exact HL.
Qed.

(** Whatever an iteration does to the settings, it does by calls of
    [adjustSetting]. *)
Lemma loop_adjusted i st :
  Adjusted adjustSetting (settings st) (settings (loop' i st)).
Proof.
  destruct (loop_cases i st) as [(_ & _ & E)|[(_ & _ & E)|(_ & _ & E & a & HI & HS & _)]];
    cbv zeta in E; rewrite E.
  - rewrite (proj1 (runCycleLogic_keeps _ _)).
    replace (settings (set_lastBtnStart (rStart i) (delay (elapsed i) st)))
      with (settings st); [constructor|].
    rewrite !settings_view. autorewrite with views. reflexivity.
  - rewrite (proj1 (runCycleLogic_keeps _ _)).
    replace (settings (set_lastBtnStart (rStart i)
                         (delay 200 (startSystem (delay (elapsed i) st)))))
      with (settings st); [constructor|].
    rewrite !settings_view. autorewrite with views. reflexivity.
  - replace (settings (displayMenu (buttons i (delay (elapsed i) st))))
      with (settings (buttons i (delay (elapsed i) st)))
      by (rewrite !settings_view, displayMenu_quiet; reflexivity).
    rewrite <- HS. exact (Idle_settings _ _ _ HI).
Qed.

Lemma run_adjusted inputs st :
  Adjusted adjustSetting (settings st) (settings (run' inputs st)).
Proof.
  revert st. induction inputs as [|i rest IH]; intros st; simpl.
  - constructor.
  - exact (Adjusted_trans _ _ _ _ (loop_adjusted i st) (IH _)).
Qed.

(** An iteration that goes through [runCycleLogic] leaves the controls
    as they were. *)
Lemma loop_panel_running i st :
  startEdge i st = negb (isRunning st) -> panel (loop' i st) = panel st.
Proof.
  intros H.
  destruct (loop_cases i st) as [(_ & _ & E)|[(_ & _ & E)|(H1 & _ & E & _)]];
    cbv zeta in E.
  - rewrite E, (proj2 (proj2 (runCycleLogic_keeps _ _))).
    autorewrite with panels. reflexivity.
  - rewrite E, (proj2 (proj2 (runCycleLogic_keeps _ _))).
    autorewrite with panels. reflexivity.
  - rewrite H1 in H. destruct (isRunning st); discriminate.
Qed.

(** The menu page after a call of the handler that gets past
    section 1. *)
Lemma handleButtons_menu i st :
  isRunning (startStop stopReason i st) = false ->
  menuPage (buttons i st)
  = (if Bool.eqb (rMenu i) LOW && Bool.eqb (lastBtnMenu st) HIGH
     then if MAX_PAGES <? to_int (menuPage st + 1)
          then 0 else to_int (menuPage st + 1)
     else menuPage st).
Proof.
  intros Hr. with_strategy transparent [handleButtons] unfold handleButtons.
  cbv zeta. rewrite Hr.
  rewrite (proj1 (handleDown_menu _ _ _)), (proj1 (handleUp_menu _ _ _)).
  rewrite (proj1 (menuButton_fields _ _ _)).
  rewrite (lastBtnMenu_panel (startStop _ _ _)), (menuPage_panel (startStop _ _ _)).
  rewrite panel_startStop. reflexivity.
Qed.

Lemma loop_menuPage i st :
  menuPage (loop' i st)
  = (if Bool.eqb (startEdge i st) (isRunning st)
     then if Bool.eqb (rMenu i) LOW && Bool.eqb (lastBtnMenu st) HIGH
          then if MAX_PAGES <? to_int (menuPage st + 1)
               then 0 else to_int (menuPage st + 1)
          else menuPage st
     else menuPage st).
Proof.
  destruct (loop_cases i st) as [(He & Hr & _)|[(He & Hr & _)|(He & Hr & E & _)]].
  - rewrite menuPage_panel, loop_panel_running by (rewrite He, Hr; reflexivity).
    rewrite He, Hr. reflexivity.
  - rewrite menuPage_panel, loop_panel_running by (rewrite He, Hr; reflexivity).
    rewrite He, Hr. reflexivity.
  - cbv zeta in Hr, E. rewrite E, He, Bool.eqb_reflx.
    rewrite menuPage_panel, displayMenu_panel, <- menuPage_panel.
    rewrite (handleButtons_menu _ _ Hr).
    rewrite (lastBtnMenu_panel (delay _ _)), (menuPage_panel (delay _ _)).
    rewrite panel_delay. reflexivity.
Qed.

(** The page stays on the menu. *)
Lemma loop_page_range i st :
  0 <= MAX_PAGES < INT_MAX ->
  0 <= menuPage st <= MAX_PAGES -> 0 <= menuPage (loop' i st) <= MAX_PAGES.
Proof.
  intros HM Hp. rewrite loop_menuPage.
  rewrite (to_int_id (menuPage st + 1))
    by (unfold is_int, INT_MIN, INT_MAX in *; lia).
  destruct (Bool.eqb (startEdge i st) (isRunning st)); [|exact Hp].
  destruct (Bool.eqb (rMenu i) LOW && Bool.eqb (lastBtnMenu st) HIGH); [|exact Hp].
  destruct (Z.ltb_spec MAX_PAGES (menuPage st + 1)); lia.
Qed.

Lemma run_page_range inputs st :
  0 <= MAX_PAGES < INT_MAX ->
  0 <= menuPage st <= MAX_PAGES -> 0 <= menuPage (run' inputs st) <= MAX_PAGES.
Proof.
  intros HM. revert st. induction inputs as [|i rest IH]; intros st Hp; simpl.
  - exact Hp.
  - apply IH, loop_page_range; assumption.
Qed.

(** While running and with no press of start/stop, an iteration changes
    neither the settings nor the controls. *)
Lemma loop_running_keeps i st :
  startEdge i st = false -> isRunning st = true ->
  settings (loop' i st) = settings st /\ panel (loop' i st) = panel st.
Proof.
  intros He Hr. split.
  - rewrite (loop_running adjustSetting MAX_PAGES stopReason _ _ i st He Hr).
    rewrite (proj1 (runCycleLogic_keeps _ _)).
    rewrite !settings_view. autorewrite with views. reflexivity.
  - apply loop_panel_running. rewrite He, Hr. reflexivity.
Qed.

(** Section 1 leaves the settings alone. *)
Lemma startStop_settings i st : settings (startStop stopReason i st) = settings st.
Proof.
  destruct (startEdge i st) eqn:He.
  - destruct (isRunning st) eqn:Hr.
    + rewrite (startStop_stop stopReason i st He Hr).
      rewrite !settings_view. autorewrite with views. reflexivity.
    + rewrite (startStop_start stopReason i st He Hr).
      rewrite !settings_view. autorewrite with views. reflexivity.
  - rewrite (startStop_none stopReason i st He).
    rewrite !settings_view. autorewrite with views. reflexivity.
Qed.

Lemma lastBtnUp_panel st : lastBtnUp st = p_lastBtnUp (panel st).
Proof. reflexivity. Qed.

Lemma lastBtnDown_panel st : lastBtnDown st = p_lastBtnDown (panel st).
Proof. reflexivity. Qed.

(** A call of the handler that gets past section 1, with a press-edge of
    one adjustment button and the other one released: one call of
    [adjustSetting], on the page the Menu section has left. *)
Lemma handleButtons_press i st dir :
  isRunning (startStop stopReason i st) = false ->
  (rUp i = LOW /\ lastBtnUp st = HIGH /\ rDown i = HIGH /\ dir = 1)
  \/ (rDown i = LOW /\ lastBtnDown st = HIGH /\ rUp i = HIGH /\ dir = -1) ->
  settings (buttons i st)
  = adjustSetting (menuPage (buttons i st)) dir (settings st).
Proof.
  intros Hr H.
  assert (EU : lastBtnUp (menuButton MAX_PAGES i (startStop stopReason i st))
               = lastBtnUp st).
  { rewrite (proj1 (proj2 (menuButton_keeps _ _ _))).
    rewrite !lastBtnUp_panel, panel_startStop. reflexivity. }
  assert (ED : lastBtnDown (menuButton MAX_PAGES i (startStop stopReason i st))
               = lastBtnDown st).
  { rewrite (proj2 (proj2 (menuButton_keeps _ _ _))).
    rewrite !lastBtnDown_panel, panel_startStop. reflexivity. }
  assert (ES : settings (menuButton MAX_PAGES i (startStop stopReason i st))
               = settings st).
  { rewrite (proj1 (menuButton_keeps _ _ _)). apply startStop_settings. }
  with_strategy transparent [handleButtons] unfold handleButtons.
  cbv zeta. rewrite Hr.
  rewrite (proj1 (handleDown_menu _ _ _)), (proj1 (handleUp_menu _ _ _)).
  rewrite handleDown_settings, handleUp_settings.
  destruct (handleUp_fields adjustSetting (rUp i)
              (menuButton MAX_PAGES i (startStop stopReason i st)))
    as (_ & U2 & _).
  rewrite U2, (proj1 (handleUp_menu _ _ _)), EU, ED, ES.
  destruct H as [(H1 & H2 & H3 & ->)|(H1 & H2 & H3 & ->)];
    rewrite H1, H2, H3; reflexivity.
Qed.

Lemma loop_press i st dir :
  isRunning st = false -> startEdge i st = false ->
  (rUp i = LOW /\ lastBtnUp st = HIGH /\ rDown i = HIGH /\ dir = 1)
  \/ (rDown i = LOW /\ lastBtnDown st = HIGH /\ rUp i = HIGH /\ dir = -1) ->
  settings (loop' i st) = adjustSetting (menuPage (loop' i st)) dir (settings st).
Proof.
  intros Hr He H.
  destruct (loop_cases i st) as [(_ & Hr' & _)|[(He' & _)|(_ & Hs & E & _)]];
    [congruence | congruence |].
  cbv zeta in Hs, E. rewrite E.
  rewrite (menuPage_panel (displayMenu _)), displayMenu_panel, <- menuPage_panel.
  replace (settings (displayMenu (buttons i (delay (elapsed i) st))))
    with (settings (buttons i (delay (elapsed i) st)))
    by (rewrite !settings_view, displayMenu_quiet; reflexivity).
  rewrite (handleButtons_press i _ dir Hs).
  - f_equal; try (rewrite !settings_view, Quiet_delay; reflexivity).
  - rewrite !lastBtnUp_panel, !lastBtnDown_panel, panel_delay in *. exact H.
Qed.

End HandlerFacts.

(** ** One call of [runCycleLogic], path by path *)

(** Split a statement about [runCycleLogic d st] into the paths of its
    [switch], every field read at the state the call started from. *)
Ltac cycle_paths view_runCycleLogic d st :=
  cbv zeta; to_view;
  unfold commandedOn; rewrite ?pinLevel_view by reflexivity;
  rewrite ?view_runCycleLogic;
  unfold UxUi.phaseSwitch, FastScroll.phaseSwitch;
  replace (currentState (set_currentDistance d (getDistance st)))
    with (v_currentState (view st)) by (to_view; reflexivity);
  destruct (v_currentState (view st)) eqn:?; cbv zeta;
  repeat match goal with
         | |- context [if ?c then _ else _] => destruct c eqn:?
         end;
  to_view.

(** Read the tests met on a path as inequalities. *)
Ltac read_tests :=
  repeat match goal with
         | H : (_ && _) = true |- _ => apply andb_true_iff in H; destruct H
         | H : (_ && _) = false |- _ => apply andb_false_iff in H
         | H : (_ <? _) = true |- _ => apply Z.ltb_lt in H
         | H : (_ <? _) = false |- _ => apply Z.ltb_ge in H
         | H : (_ <=? _) = true |- _ => apply Z.leb_le in H
         | H : (_ <=? _) = false |- _ => apply Z.leb_gt in H
         end.

(** Close a path: it contradicts the case at hand, or every field is as
    stated. *)
Ltac close_path :=
  try congruence; read_tests;
  first [ lia
        | repeat split; first [reflexivity | assumption | congruence | lia] ].

Section CyclePaths.

Lemma ux_runCycleLogic_keeps d (st : UxUi.St) :
  settings (UxUi.runCycleLogic d st) = settings st
  /\ lastBtnStart (UxUi.runCycleLogic d st) = lastBtnStart st
  /\ panel (UxUi.runCycleLogic d st) = panel st.
Proof.
  split; [|split]; [| |apply ux_panel_runCycleLogic];
    cycle_paths ux_view_runCycleLogic d st; reflexivity.
Qed.

Lemma ux_phase_order d (st : UxUi.St) :
  let st' := UxUi.runCycleLogic d st in
  currentState st' = currentState st
  \/ currentState st' = nextPhase (currentState st).
Proof. cycle_paths ux_view_runCycleLogic d st; auto. Qed.

Lemma ux_filling_continues d (st : UxUi.St) :
  currentState st = STATE_FILLING ->
  d <= 0 \/ UxUi.setHighDist (settings st) < d ->
  let st' := UxUi.runCycleLogic d st in
  currentState st' = STATE_FILLING
  /\ stateStartTime st' = stateStartTime st
  /\ isRunning st' = isRunning st
  /\ commandedOn relayFill (trace st') = true
  /\ commandedOn relayDrain (trace st') = false.
Proof.
  intros Hp Hd.
  cycle_paths ux_view_runCycleLogic d st; close_path.
Qed.

Lemma ux_draining_continues d (st : UxUi.St) :
  currentState st = STATE_DRAINING ->
  d < UxUi.setLowDist (settings st) ->
  let st' := UxUi.runCycleLogic d st in
  currentState st' = STATE_DRAINING
  /\ stateStartTime st' = stateStartTime st
  /\ isRunning st' = isRunning st
  /\ commandedOn relayFill (trace st') = false
  /\ commandedOn relayDrain (trace st') = true.
Proof.
  intros Hp Hd.
  cycle_paths ux_view_runCycleLogic d st; close_path.
Qed.

Lemma ux_hold_keeps d (st : UxUi.St) :
  currentState st = STATE_HOLD_HIGH \/ currentState st = STATE_HOLD_LOW ->
  timeElapsed st < UxUi.durationMillis (settings st) ->
  let st' := UxUi.runCycleLogic d st in
  currentState st' = currentState st
  /\ stateStartTime st' = stateStartTime st
  /\ completedCycles st' = completedCycles st
  /\ isRunning st' = isRunning st
  /\ isFinished st' = isFinished st
  /\ commandedOn relayFill (trace st') = false
  /\ commandedOn relayDrain (trace st') = false.
Proof.
  intros Hp Hd.
  cycle_paths ux_view_runCycleLogic d st; destruct Hp; close_path.
Qed.

Lemma ux_holdHigh_expiry d (st : UxUi.St) :
  currentState st = STATE_HOLD_HIGH ->
  UxUi.durationMillis (settings st) <= timeElapsed st ->
  let st' := UxUi.runCycleLogic d st in
  currentState st' = STATE_DRAINING
  /\ stateStartTime st' = millis st
  /\ completedCycles st' = completedCycles st
  /\ isRunning st' = isRunning st
  /\ isFinished st' = isFinished st
  /\ commandedOn relayFill (trace st') = false
  /\ commandedOn relayDrain (trace st') = false.
Proof.
  intros Hp Hd.
  cycle_paths ux_view_runCycleLogic d st; close_path.
Qed.

Lemma fs_runCycleLogic_keeps d (st : FastScroll.St) :
  settings (FastScroll.runCycleLogic d st) = settings st
  /\ lastBtnStart (FastScroll.runCycleLogic d st) = lastBtnStart st
  /\ panel (FastScroll.runCycleLogic d st) = panel st.
Proof.
  split; [|split]; [| |apply fs_panel_runCycleLogic];
    cycle_paths fs_view_runCycleLogic d st; reflexivity.
Qed.

Lemma fs_phase_order d (st : FastScroll.St) :
  let st' := FastScroll.runCycleLogic d st in
  currentState st' = currentState st
  \/ currentState st' = nextPhase (currentState st).
Proof. cycle_paths fs_view_runCycleLogic d st; auto. Qed.

Lemma fs_filling_continues d (st : FastScroll.St) :
  currentState st = STATE_FILLING ->
  d <= 0 \/ FastScroll.setHighDist (settings st) < d ->
  let st' := FastScroll.runCycleLogic d st in
  currentState st' = STATE_FILLING
  /\ stateStartTime st' = stateStartTime st
  /\ isRunning st' = isRunning st
  /\ commandedOn relayFill (trace st') = true
  /\ commandedOn relayDrain (trace st') = false.
Proof.
  intros Hp Hd.
  cycle_paths fs_view_runCycleLogic d st; close_path.
Qed.

Lemma fs_draining_continues d (st : FastScroll.St) :
  currentState st = STATE_DRAINING ->
  d < FastScroll.setLowDist (settings st) ->
  let st' := FastScroll.runCycleLogic d st in
  currentState st' = STATE_DRAINING
  /\ stateStartTime st' = stateStartTime st
  /\ isRunning st' = isRunning st
  /\ commandedOn relayFill (trace st') = false
  /\ commandedOn relayDrain (trace st') = true.
Proof.
  intros Hp Hd.
  cycle_paths fs_view_runCycleLogic d st; close_path.
Qed.

Lemma fs_hold_keeps d (st : FastScroll.St) :
  currentState st = STATE_HOLD_HIGH \/ currentState st = STATE_HOLD_LOW ->
  timeElapsed st < FastScroll.durationMillis (settings st) ->
  let st' := FastScroll.runCycleLogic d st in
  currentState st' = currentState st
  /\ stateStartTime st' = stateStartTime st
  /\ completedCycles st' = completedCycles st
  /\ isRunning st' = isRunning st
  /\ isFinished st' = isFinished st
  /\ commandedOn relayFill (trace st') = false
  /\ commandedOn relayDrain (trace st') = false.
Proof.
  intros Hp Hd.
  cycle_paths fs_view_runCycleLogic d st; destruct Hp; close_path.
Qed.

Lemma fs_holdHigh_expiry d (st : FastScroll.St) :
  currentState st = STATE_HOLD_HIGH ->
  FastScroll.durationMillis (settings st) <= timeElapsed st ->
  let st' := FastScroll.runCycleLogic d st in
  currentState st' = STATE_DRAINING
  /\ stateStartTime st' = millis st
  /\ completedCycles st' = completedCycles st
  /\ isRunning st' = isRunning st
  /\ isFinished st' = isFinished st
  /\ commandedOn relayFill (trace st') = false
  /\ commandedOn relayDrain (trace st') = false.
Proof.
  intros Hp Hd.
  cycle_paths fs_view_runCycleLogic d st; close_path.
Qed.

End CyclePaths.

(** ** The buzzer *)

Section Buzzer.
Context {S : Type}.
Implicit Type st : State S.

Lemma trace_delay d st : trace (delay d st) = trace st.
Proof. with_strategy transparent [delay] reflexivity. Qed.

Lemma trace_digitalWrite p v st :
  trace (digitalWrite p v st) = (clock st, DigitalWrite p v) :: trace st.
Proof. with_strategy transparent [digitalWrite emit] reflexivity. Qed.

(** The time [beep] takes from the [i]-th pass of its loop on, and the
    level it leaves on the buzzer pin. *)
Lemma beep_from_clock left : forall i duration count st,
  0 <= i -> i + Z.of_nat left = count ->
  clock (beep_from left i duration count st)
  = clock st + Z.of_nat left * to_ulong duration
    + Z.max 0 (count - 1 - i) * 100.
Proof.
  induction left as [|left IH]; intros i duration count st Hi Hc.
  - cbn [beep_from]. lia.
  - cbn [beep_from]. rewrite (IH (i + 1)) by lia.
    destruct (Z.ltb_spec 1 count), (Z.ltb_spec i (count - 1)); cbn [andb];
      autorewrite with clocks; lia.
Qed.

Lemma beep_from_buzzer left : forall i duration count st,
  pinLevel buzzerPin (trace (beep_from left i duration count st))
  = match left with
    | O => pinLevel buzzerPin (trace st)
    | _ => Some LOW
    end.
Proof.
  induction left as [|left IH]; intros i duration count st; [reflexivity|].
  cbn [beep_from]. rewrite IH. destruct left; [|reflexivity].
  destruct ((1 <? count) && (i <? count - 1));
    rewrite ?trace_delay, trace_digitalWrite; reflexivity.
Qed.

End Buzzer.

(** ** The ranges of the settings *)

(** Bound every [to_int] of the goal and split every comparison. *)
Ltac int_cases :=
  repeat match goal with
         | |- context [to_int ?z] =>
             lazymatch goal with
             | _ : is_int (to_int z) |- _ => fail
             | _ => pose proof (to_int_range z)
             end
         end;
  unfold is_int, INT_MIN, INT_MAX in *;
  repeat match goal with
         | |- context [?a <? ?b] => destruct (Z.ltb_spec a b)
         end;
  simpl; try lia.

Section Ranges.

Lemma ux_ranges_step page d s :
  (0 <= UxUi.setHours s <= 48 /\ 0 <= UxUi.setMinutes s <= 59
   /\ 2 <= UxUi.setHighDist s <= INT_MAX
   /\ INT_MIN <= UxUi.setLowDist s <= INT_MAX
   /\ 1 <= UxUi.setMaxCycles s <= INT_MAX) ->
  let s' := UxUi.adjustSetting page d s in
  0 <= UxUi.setHours s' <= 48 /\ 0 <= UxUi.setMinutes s' <= 59
  /\ 2 <= UxUi.setHighDist s' <= INT_MAX
  /\ INT_MIN <= UxUi.setLowDist s' <= INT_MAX
  /\ 1 <= UxUi.setMaxCycles s' <= INT_MAX.
Proof.
  intros H. cbv zeta.
  destruct (ux_adjust_pages page d s) as [E|[E|[E|[E|[E|E]]]]];
    [subst page ..| rewrite E; exact H]; simpl; int_cases.
Qed.

Lemma fs_ranges_step page d s :
  (1 <= FastScroll.setDurationMins s <= INT_MAX
   /\ 2 <= FastScroll.setHighDist s <= INT_MAX
   /\ INT_MIN <= FastScroll.setLowDist s <= INT_MAX
   /\ 1 <= FastScroll.setMaxCycles s <= INT_MAX) ->
  let s' := FastScroll.adjustSetting page d s in
  1 <= FastScroll.setDurationMins s' <= INT_MAX
  /\ 2 <= FastScroll.setHighDist s' <= INT_MAX
  /\ INT_MIN <= FastScroll.setLowDist s' <= INT_MAX
  /\ 1 <= FastScroll.setMaxCycles s' <= INT_MAX.
Proof.
  intros H. cbv zeta.
  destruct (fs_adjust_pages page d s) as [E|[E|[E|[E|E]]]];
    [subst page ..| rewrite E; exact H]; simpl; int_cases.
Qed.

Lemma ux_duration_exact s :
  0 <= UxUi.setHours s <= 48 -> 0 <= UxUi.setMinutes s <= 59 ->
  UxUi.durationMillis s = UxUi.setHours s * 3600000 + UxUi.setMinutes s * 60000.
Proof.
  intros Hh Hm. unfold UxUi.durationMillis, to_ulong.
  rewrite (Z.mod_small (UxUi.setHours s)) by lia.
  rewrite (Z.mod_small (UxUi.setMinutes s)) by lia.
  rewrite (Z.mod_small (UxUi.setHours s * 3600000)) by lia.
  rewrite (Z.mod_small (UxUi.setMinutes s * 60000)) by lia.
  apply Z.mod_small. lia.
Qed.

Lemma fs_duration_exact s :
  1 <= FastScroll.setDurationMins s <= INT_MAX ->
  FastScroll.durationMillis s = FastScroll.setDurationMins s * 60000.
Proof.
  unfold INT_MAX. intros H. unfold FastScroll.durationMillis, to_ulong.
  rewrite ?(Z.mod_small (FastScroll.setDurationMins s)) by lia.
  apply Z.mod_small. lia.
Qed.

End Ranges.

(** ** What the LCD shows *)

Section EmitFields.
Context {S : Type}.
Implicit Type st : State S.

Lemma menuPage_emit e st : menuPage (emit e st) = menuPage st.
Proof. with_strategy transparent [emit set_trace] reflexivity. Qed.
Lemma settings_emit e st : settings (emit e st) = settings st.
Proof. with_strategy transparent [emit set_trace] reflexivity. Qed.
Lemma completedCycles_emit e st : completedCycles (emit e st) = completedCycles st.
Proof. with_strategy transparent [emit set_trace] reflexivity. Qed.
Lemma currentDistance_emit e st : currentDistance (emit e st) = currentDistance st.
Proof. with_strategy transparent [emit set_trace] reflexivity. Qed.
Lemma currentState_emit e st : currentState (emit e st) = currentState st.
Proof. with_strategy transparent [emit set_trace] reflexivity. Qed.

Lemma lcdInts_emit e st :
  lcdInts (trace (emit e st))
  = match e with
    | LcdPrintInt n => n :: lcdInts (trace st)
    | _ => lcdInts (trace st)
    end.
Proof. with_strategy transparent [emit set_trace] (destruct e; reflexivity). Qed.

End EmitFields.

Create Rewrite HintDb emits.
#[global] Hint Rewrite @menuPage_emit @settings_emit @completedCycles_emit
  @currentDistance_emit @currentState_emit @lcdInts_emit : emits.

Ltac shown_at E :=
  repeat first [ rewrite E
               | progress autorewrite with emits
               | progress cbv beta iota
               | match goal with
                 | |- context [if ?c then _ else _] => destruct c
                 end ].

Ltac shown :=
  repeat first [ progress autorewrite with emits
               | progress cbv beta iota
               | match goal with
                 | |- context [if ?c then _ else _] => destruct c
                 end ].

Lemma ux_menu_shows (st : UxUi.St) :
  0 <= menuPage st <= 4 ->
  lcdInts (trace (UxUi.displayMenu st))
  = (if isFinished st then completedCycles st
     else UxUi.selected (menuPage st) (settings st)) :: lcdInts (trace st).
Proof.
  intros Hp.
  with_strategy transparent [UxUi.displayMenu] unfold UxUi.displayMenu.
  destruct (isFinished st); cbv zeta; [shown; reflexivity|].
  autorewrite with emits.
  assert (E : menuPage st = 0 \/ menuPage st = 1 \/ menuPage st = 2
              \/ menuPage st = 3 \/ menuPage st = 4) by lia.
  destruct E as [E|[E|[E|[E|E]]]]; unfold UxUi.selected;
    shown_at E; reflexivity.
Qed.

Lemma fs_menu_shows (st : FastScroll.St) :
  0 <= menuPage st <= 3 ->
  lcdInts (trace (FastScroll.displayMenu st))
  = (if isFinished st then completedCycles st
     else FastScroll.selected (menuPage st) (settings st)) :: lcdInts (trace st).
Proof.
  intros Hp.
  with_strategy transparent [FastScroll.displayMenu] unfold FastScroll.displayMenu.
  destruct (isFinished st); cbv zeta; [shown; reflexivity|].
  autorewrite with emits.
  assert (E : menuPage st = 0 \/ menuPage st = 1 \/ menuPage st = 2
              \/ menuPage st = 3) by lia.
  destruct E as [E|[E|[E|E]]]; unfold FastScroll.selected;
    shown_at E; reflexivity.
Qed.

Lemma hms_split T :
  0 <= T ->
  0 <= T / 3600 /\ 0 <= (T mod 3600) / 60 < 60 /\ 0 <= T mod 60 < 60
  /\ T / 3600 * 3600 + (T mod 3600) / 60 * 60 + T mod 60 = T.
Proof. intros H. Z.div_mod_to_equations. lia. Qed.

Lemma remaining_clamped e t :
  0 <= e < 4294967296 -> 0 <= t < 2147483648 -> e - t <= 2147483648 ->
  (if to_long (t - e) <? 0 then 0 else to_long (t - e)) = Z.max 0 (t - e).
Proof.
  intros He Ht Hd. unfold to_long.
  rewrite Z.mod_small by lia.
  destruct (Z.ltb_spec (t - e + 2147483648 - 2147483648) 0); lia.
Qed.

(** ** The serial log *)

Create Rewrite HintDb serials.

Section SerialFacts.
Context {S : Type}.
Implicit Type st : State S.

Lemma serial_emit e st :
  serialLines (trace (emit e st))
  = match e with
    | SerialPrintln s => s :: serialLines (trace st)
    | _ => serialLines (trace st)
    end.
Proof. with_strategy transparent [emit set_trace] (destruct e; reflexivity). Qed.

Lemma serial_digitalWrite p v st :
  serialLines (trace (digitalWrite p v st)) = serialLines (trace st).
Proof. with_strategy transparent [digitalWrite emit set_trace] reflexivity. Qed.

Lemma serial_delay d st : serialLines (trace (delay d st)) = serialLines (trace st).
Proof. with_strategy transparent [delay] reflexivity. Qed.

Lemma serial_set_isRunning v st :
  serialLines (trace (set_isRunning v st)) = serialLines (trace st).
Proof. with_strategy transparent [set_isRunning] reflexivity. Qed.

Lemma serial_set_isFinished v st :
  serialLines (trace (set_isFinished v st)) = serialLines (trace st).
Proof. with_strategy transparent [set_isFinished] reflexivity. Qed.

Lemma serial_set_completedCycles v st :
  serialLines (trace (set_completedCycles v st)) = serialLines (trace st).
Proof. with_strategy transparent [set_completedCycles] reflexivity. Qed.

Lemma serial_set_currentState v st :
  serialLines (trace (set_currentState v st)) = serialLines (trace st).
Proof. with_strategy transparent [set_currentState] reflexivity. Qed.

Lemma serial_set_stateStartTime v st :
  serialLines (trace (set_stateStartTime v st)) = serialLines (trace st).
Proof. with_strategy transparent [set_stateStartTime] reflexivity. Qed.

Lemma serial_set_currentDistance v st :
  serialLines (trace (set_currentDistance v st)) = serialLines (trace st).
Proof. with_strategy transparent [set_currentDistance] reflexivity. Qed.

End SerialFacts.

#[global] Hint Rewrite @serial_emit @serial_digitalWrite @serial_delay
  @serial_set_isRunning @serial_set_isFinished @serial_set_completedCycles
  @serial_set_currentState @serial_set_stateStartTime @serial_set_currentDistance
  : serials.

(** The lines of a composition of calls. *)
Ltac logged :=
  cbv zeta;
  repeat first [ progress autorewrite with serials
               | progress cbv beta iota
               | match goal with
                 | |- context [if ?c then _ else _] => destruct c
                 | |- context [match currentState ?st with _ => _ end] =>
                     destruct (currentState st)
                 end ].

Section SerialCalls.
Context {S : Type}.
Implicit Type st : State S.

Lemma serial_beep_from left i duration count st :
  serialLines (trace (beep_from left i duration count st)) = serialLines (trace st).
Proof.
  revert i st. induction left as [|left IH]; intros i st; [reflexivity|].
  cbn [beep_from]. rewrite IH. logged; reflexivity.
Qed.

Lemma serial_beep duration count st :
  serialLines (trace (beep duration count st)) = serialLines (trace st).
Proof. with_strategy transparent [beep] unfold beep. apply serial_beep_from. Qed.

Lemma serial_logStateChange msg st :
  serialLines (trace (logStateChange msg st)) = msg :: serialLines (trace st).
Proof.
  with_strategy transparent [logStateChange] unfold logStateChange.
  logged; reflexivity.
Qed.

Lemma serial_getDistance st :
  serialLines (trace (getDistance st)) = serialLines (trace st).
Proof.
  with_strategy transparent [getDistance] unfold getDistance. logged; reflexivity.
Qed.

End SerialCalls.

#[global] Hint Rewrite @serial_beep @serial_logStateChange @serial_getDistance
  : serials.

Section SerialSystem.
Context {S : Type}.
Implicit Type st : State S.

Lemma serial_stopSystem reason st :
  serialLines (trace (stopSystem reason st)) = reason :: serialLines (trace st).
Proof.
  with_strategy transparent [stopSystem] unfold stopSystem. logged; reflexivity.
Qed.

End SerialSystem.

#[global] Hint Rewrite @serial_stopSystem : serials.

Section SerialSketches.

Lemma ux_serial_updateRunningLCD e t st :
  serialLines (trace (UxUi.updateRunningLCD e t st)) = serialLines (trace st).
Proof.
  with_strategy transparent [UxUi.updateRunningLCD] unfold UxUi.updateRunningLCD.
  cbv zeta. autorewrite with emits. logged; reflexivity.
Qed.

Lemma ux_serial_logStatusChange st :
  serialLines (trace (UxUi.logStatusChange st))
  = phaseNameOf Current (currentState st) :: serialLines (trace st).
Proof.
  with_strategy transparent [UxUi.logStatusChange] unfold UxUi.logStatusChange.
  cbv zeta. autorewrite with serials. destruct (currentState st); reflexivity.
Qed.

(** [runCycleLogic], its parts named. *)
Lemma ux_runCycleLogic_parts d st :
  UxUi.runCycleLogic d st
  = (let te := timeElapsed st in
     let dm := UxUi.durationMillis (settings st) in
     let y := UxUi.phaseSwitch te dm (set_currentDistance d (getDistance st)) in
     let z := if negb (SystemState_eqb (currentState y) (currentState st))
                 && isRunning y
              then UxUi.logStatusChange y else y in
     if isRunning z then delay 200 (UxUi.updateRunningLCD te dm z) else z).
Proof.
  with_strategy transparent [UxUi.runCycleLogic] unfold UxUi.runCycleLogic.
  cbv zeta.
  replace (to_ulong (millis (set_currentDistance d (getDistance st))
                     - stateStartTime (set_currentDistance d (getDistance st))))
    with (timeElapsed st)
    by (unfold timeElapsed; to_view; reflexivity).
  replace (settings (set_currentDistance d (getDistance st)))
    with (settings st) by (to_view; reflexivity).
  replace (currentState (set_currentDistance d (getDistance st)))
    with (currentState st) by (to_view; reflexivity).
  reflexivity.
Qed.

(** The [switch] logs nothing but the finish. *)
Lemma ux_serial_phaseSwitch te dm d st :
  isRunning st = true ->
  let y := UxUi.phaseSwitch te dm (set_currentDistance d (getDistance st)) in
  serialLines (trace y)
  = (if isRunning y then [] else [finishReasonOf Current]) ++ serialLines (trace st).
Proof.
  intros Hr. cbv zeta. unfold UxUi.phaseSwitch.
  replace (currentState (set_currentDistance d (getDistance st)))
    with (v_currentState (view st)) by (to_view; reflexivity).
  destruct (v_currentState (view st)); cbv zeta;
    repeat match goal with
           | |- context [if ?c then _ else _] =>
               lazymatch c with
               | isRunning _ => fail
               | _ => destruct c
               end
           end;
    autorewrite with serials; to_view;
    rewrite ?Hr; reflexivity.
Qed.

Lemma ux_phase_log d st :
  isRunning st = true ->
  let st' := UxUi.runCycleLogic d st in
  serialLines (trace st')
  = (if isRunning st'
     then if SystemState_eqb (currentState st') (currentState st)
          then [] else [phaseNameOf Current (currentState st')]
     else [finishReasonOf Current]) ++ serialLines (trace st).
Proof.
  intros Hr. cbv zeta.
  pose proof (ux_serial_phaseSwitch (timeElapsed st)
                (UxUi.durationMillis (settings st)) d st Hr) as HY.
  cbv zeta in HY.
  rewrite (isRunning_view (UxUi.runCycleLogic d st)),
    (currentState_view (UxUi.runCycleLogic d st)), ux_view_runCycleLogic,
    <- isRunning_view, <- currentState_view.
  rewrite ux_runCycleLogic_parts. cbv zeta.
  set (y := UxUi.phaseSwitch _ _ _) in *.
  destruct (isRunning y) eqn:Ry.
  - destruct (SystemState_eqb (currentState y) (currentState st)) eqn:Ey;
      cbn [negb andb].
    + rewrite Ry. rewrite serial_delay, ux_serial_updateRunningLCD. exact HY.
    + replace (isRunning (UxUi.logStatusChange y)) with true
        by (rewrite isRunning_view, ux_Quiet_logStatusChange, <- isRunning_view;
            symmetry; exact Ry).
      rewrite serial_delay, ux_serial_updateRunningLCD, ux_serial_logStatusChange.
      rewrite HY. reflexivity.
  - rewrite andb_false_r, Ry. exact HY.
Qed.

Lemma fs_serial_updateRunningLCD e t st :
  serialLines (trace (FastScroll.updateRunningLCD e t st)) = serialLines (trace st).
Proof.
  with_strategy transparent [FastScroll.updateRunningLCD] unfold FastScroll.updateRunningLCD.
  cbv zeta. autorewrite with emits. logged; reflexivity.
Qed.

Lemma fs_serial_logStatusChange st :
  serialLines (trace (FastScroll.logStatusChange st))
  = phaseNameOf Earlier (currentState st) :: serialLines (trace st).
Proof.
  with_strategy transparent [FastScroll.logStatusChange] unfold FastScroll.logStatusChange.
  cbv zeta. autorewrite with serials. destruct (currentState st); reflexivity.
Qed.

(** [runCycleLogic], its parts named. *)
Lemma fs_runCycleLogic_parts d st :
  FastScroll.runCycleLogic d st
  = (let te := timeElapsed st in
     let dm := FastScroll.durationMillis (settings st) in
     let y := FastScroll.phaseSwitch te dm (set_currentDistance d (getDistance st)) in
     let z := if negb (SystemState_eqb (currentState y) (currentState st))
                 && isRunning y
              then FastScroll.logStatusChange y else y in
     if isRunning z then delay 200 (FastScroll.updateRunningLCD te dm z) else z).
Proof.
  with_strategy transparent [FastScroll.runCycleLogic] unfold FastScroll.runCycleLogic.
  cbv zeta.
  replace (to_ulong (millis (set_currentDistance d (getDistance st))
                     - stateStartTime (set_currentDistance d (getDistance st))))
    with (timeElapsed st)
    by (unfold timeElapsed; to_view; reflexivity).
  replace (settings (set_currentDistance d (getDistance st)))
    with (settings st) by (to_view; reflexivity).
  replace (currentState (set_currentDistance d (getDistance st)))
    with (currentState st) by (to_view; reflexivity).
  reflexivity.
Qed.

(** The [switch] logs nothing but the finish. *)
Lemma fs_serial_phaseSwitch te dm d st :
  isRunning st = true ->
  let y := FastScroll.phaseSwitch te dm (set_currentDistance d (getDistance st)) in
  serialLines (trace y)
  = (if isRunning y then [] else [finishReasonOf Earlier]) ++ serialLines (trace st).
Proof.
  intros Hr. cbv zeta. unfold FastScroll.phaseSwitch.
  replace (currentState (set_currentDistance d (getDistance st)))
    with (v_currentState (view st)) by (to_view; reflexivity).
  destruct (v_currentState (view st)); cbv zeta;
    repeat match goal with
           | |- context [if ?c then _ else _] =>
               lazymatch c with
               | isRunning _ => fail
               | _ => destruct c
               end
           end;
    autorewrite with serials; to_view;
    rewrite ?Hr; reflexivity.
Qed.

Lemma fs_phase_log d st :
  isRunning st = true ->
  let st' := FastScroll.runCycleLogic d st in
  serialLines (trace st')
  = (if isRunning st'
     then if SystemState_eqb (currentState st') (currentState st)
          then [] else [phaseNameOf Earlier (currentState st')]
     else [finishReasonOf Earlier]) ++ serialLines (trace st).
Proof.
  intros Hr. cbv zeta.
  pose proof (fs_serial_phaseSwitch (timeElapsed st)
                (FastScroll.durationMillis (settings st)) d st Hr) as HY.
  cbv zeta in HY.
  rewrite (isRunning_view (FastScroll.runCycleLogic d st)),
    (currentState_view (FastScroll.runCycleLogic d st)), fs_view_runCycleLogic,
    <- isRunning_view, <- currentState_view.
  rewrite fs_runCycleLogic_parts. cbv zeta.
  set (y := FastScroll.phaseSwitch _ _ _) in *.
  destruct (isRunning y) eqn:Ry.
  - destruct (SystemState_eqb (currentState y) (currentState st)) eqn:Ey;
      cbn [negb andb].
    + rewrite Ry. rewrite serial_delay, fs_serial_updateRunningLCD. exact HY.
    + replace (isRunning (FastScroll.logStatusChange y)) with true
        by (rewrite isRunning_view, fs_Quiet_logStatusChange, <- isRunning_view;
            symmetry; exact Ry).
      rewrite serial_delay, fs_serial_updateRunningLCD, fs_serial_logStatusChange.
      rewrite HY. reflexivity.
  - rewrite andb_false_r, Ry. exact HY.
Qed.

End SerialSketches.

Section SerialButtons.
Context {S : Type}.
Implicit Type st : State S.

Lemma serial_set_settings v st :
  serialLines (trace (set_settings v st)) = serialLines (trace st).
Proof. with_strategy transparent [set_settings] reflexivity. Qed.
Lemma serial_set_menuPage v st :
  serialLines (trace (set_menuPage v st)) = serialLines (trace st).
Proof. with_strategy transparent [set_menuPage] reflexivity. Qed.
Lemma serial_set_lastBtnMenu v st :
  serialLines (trace (set_lastBtnMenu v st)) = serialLines (trace st).
Proof. with_strategy transparent [set_lastBtnMenu] reflexivity. Qed.
Lemma serial_set_lastBtnStart v st :
  serialLines (trace (set_lastBtnStart v st)) = serialLines (trace st).
Proof. with_strategy transparent [set_lastBtnStart] reflexivity. Qed.
Lemma serial_set_lastBtnUp v st :
  serialLines (trace (set_lastBtnUp v st)) = serialLines (trace st).
Proof. with_strategy transparent [set_lastBtnUp] reflexivity. Qed.
Lemma serial_set_lastBtnDown v st :
  serialLines (trace (set_lastBtnDown v st)) = serialLines (trace st).
Proof. with_strategy transparent [set_lastBtnDown] reflexivity. Qed.
Lemma serial_set_btnPressStartTime v st :
  serialLines (trace (set_btnPressStartTime v st)) = serialLines (trace st).
Proof. with_strategy transparent [set_btnPressStartTime] reflexivity. Qed.
Lemma serial_set_lastRepeatTime v st :
  serialLines (trace (set_lastRepeatTime v st)) = serialLines (trace st).
Proof. with_strategy transparent [set_lastRepeatTime] reflexivity. Qed.

End SerialButtons.

#[global] Hint Rewrite @serial_set_settings @serial_set_menuPage
  @serial_set_lastBtnMenu @serial_set_lastBtnStart @serial_set_lastBtnUp
  @serial_set_lastBtnDown @serial_set_btnPressStartTime
  @serial_set_lastRepeatTime : serials.

Section SerialHandler.
Context {S : Type}.
Implicit Type st : State S.
Variable adjustSetting : Z -> Z -> S -> S.
Variable MAX_PAGES : Z.
Variable stopReason : string.

Lemma serial_startSystem st :
  serialLines (trace (startSystem st)) = "STARTED"%string :: serialLines (trace st).
Proof.
  with_strategy transparent [startSystem] unfold startSystem. logged; reflexivity.
Qed.

Lemma serial_startStop i st :
  serialLines (trace (startStop stopReason i st))
  = (if startEdge i st
     then [if isRunning st then stopReason else "STARTED"%string]
     else []) ++ serialLines (trace st).
Proof.
  with_strategy transparent [startStop] unfold startStop. unfold startEdge.
  destruct (isRunning st); cbn [negb];
    logged; rewrite ?serial_startSystem; reflexivity.
Qed.

Lemma serial_menuButton i st :
  serialLines (trace (menuButton MAX_PAGES i st)) = serialLines (trace st).
Proof.
  with_strategy transparent [menuButton] unfold menuButton. logged; reflexivity.
Qed.

Lemma serial_handleUp r st :
  serialLines (trace (handleUp adjustSetting r st)) = serialLines (trace st).
Proof.
  with_strategy transparent [handleUp] unfold handleUp. unfold callAdjustSetting.
  logged; reflexivity.
Qed.

Lemma serial_handleDown r st :
  serialLines (trace (handleDown adjustSetting r st)) = serialLines (trace st).
Proof.
  with_strategy transparent [handleDown] unfold handleDown. unfold callAdjustSetting.
  logged; reflexivity.
Qed.

(** The handler logs the start or the stop it makes, and nothing else. *)
Lemma serial_handleButtons i st :
  serialLines (trace (handleButtons adjustSetting MAX_PAGES stopReason i st))
  = (if startEdge i st
     then [if isRunning st then stopReason else "STARTED"%string]
     else []) ++ serialLines (trace st).
Proof.
  with_strategy transparent [handleButtons] unfold handleButtons. cbv zeta.
  destruct (isRunning (startStop stopReason i st));
    rewrite ?serial_handleDown, ?serial_handleUp, ?serial_menuButton;
    apply serial_startStop.
Qed.

End SerialHandler.

(** * Further properties of the sketches *)

(** ** Time *)

(** [X1].  The time in the phase is right across the roll-over of
    [millis]: if [stateStartTime] was read from [millis] at a state [st0]
    and less than 2^32 ms have passed since, [millis() - stateStartTime]
    is the time passed, although both are kept modulo 2^32. *)
Theorem timer_survives_rollover {S : Type} (st0 st : State S) :
  stateStartTime st = millis st0 ->
  clock st0 <= clock st < clock st0 + 4294967296 ->
  timeElapsed st = clock st - clock st0.
Proof.
  intros E H. unfold timeElapsed. rewrite E, !millis_clock. unfold to_ulong.
  rewrite <- Zminus_mod. apply Z.mod_small. lia.
Qed.

Lemma timer_survives_rollover_witness :
  let st0 := delay 4294967000 (powerOn UxUi.defaults) in
  let st := delay 1000 (set_stateStartTime (millis st0) st0) in
  timeElapsed st = clock st - clock st0.
Proof.
  apply timer_survives_rollover.
  - vm_compute. reflexivity.
  - vm_compute. split; [discriminate | reflexivity].
Defined.

(** ** The cycle *)

(** [X2].  In both sketches one call of [runCycleLogic] leaves the phase
    as it is or moves it to the next one around the cycle filling, high
    hold, draining, low hold: no phase is skipped and none is gone back
    to. *)
Theorem phase_order (k : Sketch) (d : Z) (st : State (SettingsOf k)) :
  let st' := runCycleLogicOf k d st in
  currentState st' = currentState st
  \/ currentState st' = nextPhase (currentState st).
Proof.
  destruct k.
  - exact (ux_phase_order d st).
  - exact (fs_phase_order d st).
Qed.

(** [X3].  In both sketches, while the machine is filling, a reading that
    is not a level at or above the high mark (0 or less, as after a lost
    echo, or more than [setHighDist]) keeps it filling: the phase and its
    timer stay, the fill relay is commanded on and the drain relay off. *)
Theorem filling_continues (k : Sketch) (d : Z) (st : State (SettingsOf k)) :
  currentState st = STATE_FILLING ->
  d <= 0 \/ setHighDistOf k (settings st) < d ->
  let st' := runCycleLogicOf k d st in
  currentState st' = STATE_FILLING
  /\ stateStartTime st' = stateStartTime st
  /\ isRunning st' = isRunning st
  /\ commandedOn relayFill (trace st') = true
  /\ commandedOn relayDrain (trace st') = false.
Proof.
  intros Hp Hd. destruct k.
  - exact (ux_filling_continues d st Hp Hd).
  - exact (fs_filling_continues d st Hp Hd).
Qed.

Lemma filling_continues_witness :
  currentState (runCycleLogicOf Current 0 ux_filling) = STATE_FILLING.
Proof.
  assert (H1 : currentState ux_filling = STATE_FILLING) by (vm_compute; reflexivity).
  assert (H2 : 0 <= 0 \/ setHighDistOf Current (settings ux_filling) < 0)
    by (left; lia).
  pose proof (filling_continues Current 0 ux_filling H1 H2) as H.
  cbv zeta in H. destruct H as [H _]. exact H.
Defined.

(** [X4].  In both sketches, while the machine is draining, a reading
    below [setLowDist] (a reading of 0 after a lost echo is one) keeps it
    draining: the phase and its timer stay, the drain relay is commanded
    on and the fill relay off. *)
Theorem draining_continues (k : Sketch) (d : Z) (st : State (SettingsOf k)) :
  currentState st = STATE_DRAINING ->
  d < setLowDistOf k (settings st) ->
  let st' := runCycleLogicOf k d st in
  currentState st' = STATE_DRAINING
  /\ stateStartTime st' = stateStartTime st
  /\ isRunning st' = isRunning st
  /\ commandedOn relayFill (trace st') = false
  /\ commandedOn relayDrain (trace st') = true.
Proof.
  intros Hp Hd. destruct k.
  - exact (ux_draining_continues d st Hp Hd).
  - exact (fs_draining_continues d st Hp Hd).
Qed.

Lemma draining_continues_witness :
  let st := runOf Earlier [press_start 30 10; at_level 5 1000; at_level 5 21700000]
              (bootOf Earlier) in
  commandedOn relayDrain (trace (runCycleLogicOf Earlier 20 st)) = true.
Proof.
  intros st.
  assert (H1 : currentState st = STATE_DRAINING) by (vm_compute; reflexivity).
  assert (H2 : 20 < setLowDistOf Earlier (settings st)) by (vm_compute; reflexivity).
  pose proof (draining_continues Earlier 20 st H1 H2) as H.
  cbv zeta in H. destruct H as (_ & _ & _ & _ & H). exact H.
Defined.

(** [X5].  In both sketches, in a hold phase whose time is not up, one call
    of [runCycleLogic] changes nothing of the cycle, whatever the sensor
    reads: the phase, its timer, the counter and the run flags stay, and
    both relays are commanded off. *)
Theorem hold_keeps (k : Sketch) (d : Z) (st : State (SettingsOf k)) :
  currentState st = STATE_HOLD_HIGH \/ currentState st = STATE_HOLD_LOW ->
  timeElapsed st < durationMillisOf k (settings st) ->
  let st' := runCycleLogicOf k d st in
  currentState st' = currentState st
  /\ stateStartTime st' = stateStartTime st
  /\ completedCycles st' = completedCycles st
  /\ isRunning st' = isRunning st
  /\ isFinished st' = isFinished st
  /\ commandedOn relayFill (trace st') = false
  /\ commandedOn relayDrain (trace st') = false.
Proof.
  intros Hp Hd. destruct k.
  - exact (ux_hold_keeps d st Hp Hd).
  - exact (fs_hold_keeps d st Hp Hd).
Qed.

Lemma hold_keeps_witness :
  let st := runOf Current [press_start 30 10; at_level 5 1000] (bootOf Current) in
  currentState (runCycleLogicOf Current 60 st) = currentState st.
Proof.
  intros st.
  assert (H1 : currentState st = STATE_HOLD_HIGH \/ currentState st = STATE_HOLD_LOW)
    by (left; vm_compute; reflexivity).
  assert (H2 : timeElapsed st < durationMillisOf Current (settings st))
    by (vm_compute; reflexivity).
  pose proof (hold_keeps Current 60 st H1 H2) as H.
  cbv zeta in H. destruct H as [H _]. exact H.
Defined.

(** [X6].  In both sketches, when the time of the high hold is up, one call
    of [runCycleLogic] moves the machine to [STATE_DRAINING] and sets the
    phase timer to the clock; the counter and the run flags stay, and the
    drain relay is not yet on: it is switched on by the next call. *)
Theorem holdHigh_expiry (k : Sketch) (d : Z) (st : State (SettingsOf k)) :
  currentState st = STATE_HOLD_HIGH ->
  durationMillisOf k (settings st) <= timeElapsed st ->
  let st' := runCycleLogicOf k d st in
  currentState st' = STATE_DRAINING
  /\ stateStartTime st' = millis st
  /\ completedCycles st' = completedCycles st
  /\ isRunning st' = isRunning st
  /\ isFinished st' = isFinished st
  /\ commandedOn relayFill (trace st') = false
  /\ commandedOn relayDrain (trace st') = false.
Proof.
  intros Hp Hd. destruct k.
  - exact (ux_holdHigh_expiry d st Hp Hd).
  - exact (fs_holdHigh_expiry d st Hp Hd).
Qed.

Lemma holdHigh_expiry_witness :
  let st := delay 3700000
              (runOf Current [press_start 30 10; at_level 5 1000] (bootOf Current)) in
  currentState (runCycleLogicOf Current 5 st) = STATE_DRAINING.
Proof.
  intros st.
  assert (H1 : currentState st = STATE_HOLD_HIGH) by (vm_compute; reflexivity).
  assert (H2 : durationMillisOf Current (settings st) <= timeElapsed st)
    by (vm_compute; discriminate).
  pose proof (holdHigh_expiry Current 5 st H1 H2) as H.
  cbv zeta in H. destruct H as [H _]. exact H.
Defined.

(** [X7].  In both sketches, while the machine runs, the counter of
    completed cycles is below the target and [isFinished] is clear, in
    every state reached from power-on. *)
Theorem running_below_target (k : Sketch) (inputs : list Input) :
  let st := runOf k inputs (bootOf k) in
  isRunning st = true ->
  isFinished st = false
  /\ 0 <= completedCycles st < setMaxCyclesOf k (settings st).
Proof.
  intros st Hr.
  assert (H : Inv (setMaxCyclesOf k) st)
    by (apply reachable_inv; exists inputs; reflexivity).
  destruct H as [_ [_ HC]].
  rewrite isRunning_view in Hr. specialize (HC Hr).
  rewrite isFinished_view, completedCycles_view, settings_view. exact HC.
Qed.

Lemma running_below_target_witness :
  isFinished (runOf Current ux_to_lowHold (bootOf Current)) = false
  /\ 0 <= completedCycles (runOf Current ux_to_lowHold (bootOf Current))
     < setMaxCyclesOf Current (settings (runOf Current ux_to_lowHold (bootOf Current))).
Proof.
  apply (running_below_target Current ux_to_lowHold).
  vm_compute. reflexivity.
Defined.

(** ** The buttons *)

(** [X8].  In both sketches every iteration of [loop] stores the level it
    read on the start/stop button, whichever way it went.  So the next
    iteration sees a press-edge exactly when it reads the button pressed
    and this one read it released: a button held down acts once. *)
Theorem start_stop_acts_once (k : Sketch) (i j : Input) (st : State (SettingsOf k)) :
  lastBtnStart (loopOf k i st) = rStart i
  /\ startEdge j (loopOf k i st) = negb (rStart j) && rStart i.
Proof.
  assert (H : lastBtnStart (loopOf k i st) = rStart i).
  { destruct k; unfold loopOf, UxUi.loop, FastScroll.loop.
    - apply loop_lastBtnStart;
        [exact ux_Quiet_displayMenu | exact ux_runCycleLogic_keeps].
    - apply loop_lastBtnStart;
        [exact fs_Quiet_displayMenu | exact fs_runCycleLogic_keeps]. }
  split; [exact H|].
  unfold startEdge. rewrite H. destruct (rStart j), (rStart i); reflexivity.
Qed.

(** [X9].  In both sketches, while the machine runs and start/stop shows no
    press-edge, an iteration of [loop] ignores the Menu, Up and Down
    buttons: the settings and the menu page are as before, and not even
    the stored levels of the three buttons are brought up to date. *)
Theorem running_ignores_buttons (k : Sketch) (i : Input) (st : State (SettingsOf k)) :
  isRunning st = true ->
  startEdge i st = false ->
  settings (loopOf k i st) = settings st
  /\ panel (loopOf k i st) = panel st.
Proof.
  intros Hr He.
  destruct k; unfold loopOf, UxUi.loop, FastScroll.loop.
  - apply loop_running_keeps;
      first [exact ux_runCycleLogic_keeps | assumption].
  - apply loop_running_keeps;
      first [exact fs_runCycleLogic_keeps | assumption].
Qed.

Lemma running_ignores_buttons_witness :
  settings (loopOf Current (mkInput LOW LOW LOW HIGH 60 100) ux_lowHold)
  = settings ux_lowHold
  /\ panel (loopOf Current (mkInput LOW LOW LOW HIGH 60 100) ux_lowHold)
     = panel ux_lowHold.
Proof.
  apply running_ignores_buttons.
  - vm_compute. reflexivity.
  - vm_compute. reflexivity.
Defined.

(** [X10].  In both sketches the menu page is one of the pages of the menu
    in every state reached from power-on: between 0 and [MAX_PAGES] in
    the current sketch, between 0 and 3 in the earlier one. *)
Theorem menu_page_in_range (k : Sketch) (inputs : list Input) :
  0 <= menuPage (runOf k inputs (bootOf k)) <= MAX_PAGESOf k.
Proof.
  destruct k; unfold runOf, bootOf, MAX_PAGESOf, UxUi.run, FastScroll.run.
  - apply run_page_range;
      first [ exact ux_panel_displayMenu | exact ux_runCycleLogic_keeps
            | exact ux_Quiet_displayMenu
            | unfold UxUi.MAX_PAGES, INT_MAX; lia
            | vm_compute; split; discriminate ].
  - apply run_page_range;
      first [ exact fs_panel_displayMenu | exact fs_runCycleLogic_keeps
            | exact fs_Quiet_displayMenu
            | unfold FastScroll.MAX_PAGES, INT_MAX; lia
            | vm_compute; split; discriminate ].
Qed.

(** [X11].  In both sketches, while the machine is stopped and start/stop
    shows no press-edge, a press-edge of Menu moves the menu one page on
    and from the last page back to page 0, whatever Up and Down read;
    without a press-edge of Menu the page stays. *)
Theorem menu_press_cycles (k : Sketch) (i : Input) (st : State (SettingsOf k)) :
  isRunning st = false ->
  startEdge i st = false ->
  0 <= menuPage st <= MAX_PAGESOf k ->
  menuPage (loopOf k i st)
  = if negb (rMenu i) && lastBtnMenu st
    then (menuPage st + 1) mod (MAX_PAGESOf k + 1)
    else menuPage st.
Proof.
  intros Hr He Hp.
  assert (E : forall b c : bool, Bool.eqb b LOW && Bool.eqb c HIGH = negb b && c)
    by (intros [] []; reflexivity).
  assert (A : forall M p, 0 <= M < INT_MAX -> 0 <= p <= M ->
              (if M <? to_int (p + 1) then 0 else to_int (p + 1))
              = (p + 1) mod (M + 1)).
  { intros M p HM HP.
    rewrite to_int_id by (unfold is_int, INT_MIN, INT_MAX in *; lia).
    destruct (Z.ltb_spec M (p + 1)).
    - replace (p + 1) with (M + 1) by lia. symmetry. apply Z_mod_same_full.
    - symmetry. apply Z.mod_small. lia. }
  destruct k; unfold loopOf, MAX_PAGESOf, UxUi.loop, FastScroll.loop in *.
  - rewrite loop_menuPage;
      [| exact ux_panel_displayMenu | exact ux_runCycleLogic_keeps].
    rewrite He, Hr, E. cbn [Bool.eqb].
    rewrite A by (unfold UxUi.MAX_PAGES, INT_MAX in *; lia). reflexivity.
  - rewrite loop_menuPage;
      [| exact fs_panel_displayMenu | exact fs_runCycleLogic_keeps].
    rewrite He, Hr, E. cbn [Bool.eqb].
    rewrite A by (unfold FastScroll.MAX_PAGES, INT_MAX in *; lia). reflexivity.
Qed.

Lemma menu_press_cycles_witness :
  menuPage (loopOf Earlier (mkInput LOW HIGH HIGH HIGH 30 100) fs_ready)
  = if negb (rMenu (mkInput LOW HIGH HIGH HIGH 30 100)) && lastBtnMenu fs_ready
    then (menuPage fs_ready + 1) mod (MAX_PAGESOf Earlier + 1)
    else menuPage fs_ready.
Proof.
  apply menu_press_cycles.
  - vm_compute. reflexivity.
  - vm_compute. reflexivity.
  - vm_compute. split; discriminate.
Defined.

(** [X12].  In both sketches, while the machine is stopped and start/stop
    shows no press-edge, an iteration that reads a press-edge of Up with
    Down released calls [adjustSetting(1)] once, and one that reads a
    press-edge of Down with Up released calls [adjustSetting(-1)] once, on
    the page the menu shows after the iteration: a press of Menu read in
    the same iteration is handled first. *)
Theorem press_adjusts_shown_page (k : Sketch) (i : Input)
    (st : State (SettingsOf k)) (dir : Z) :
  isRunning st = false ->
  startEdge i st = false ->
  (rUp i = LOW /\ lastBtnUp st = HIGH /\ rDown i = HIGH /\ dir = 1)
  \/ (rDown i = LOW /\ lastBtnDown st = HIGH /\ rUp i = HIGH /\ dir = -1) ->
  settings (loopOf k i st)
  = adjustSettingOf k (menuPage (loopOf k i st)) dir (settings st).
Proof.
  intros Hr He H.
  destruct k; unfold loopOf, adjustSettingOf, UxUi.loop, FastScroll.loop.
  - apply loop_press;
      first [ exact ux_Quiet_displayMenu | exact ux_panel_displayMenu
            | assumption ].
  - apply loop_press;
      first [ exact fs_Quiet_displayMenu | exact fs_panel_displayMenu
            | assumption ].
Qed.

Lemma press_adjusts_shown_page_witness :
  settings (loopOf Earlier (mkInput LOW LOW HIGH HIGH 30 100) fs_ready)
  = adjustSettingOf Earlier
      (menuPage (loopOf Earlier (mkInput LOW LOW HIGH HIGH 30 100) fs_ready)) 1
      (settings fs_ready).
Proof.
  apply press_adjusts_shown_page.
  - vm_compute. reflexivity.
  - vm_compute. reflexivity.
  - left. vm_compute. repeat split.
Defined.

(** ** The settings *)

(** [X13].  In every state reached from power-on the settings are in
    range.  Current sketch: hours from 0 to 48, minutes from 0 to 59, the
    high mark at 2 or more, the cycle target at 1 or more, every variable
    a 16-bit [int]; the hold time [runCycleLogic] computes is hours times
    3600000 plus minutes times 60000 ms, without wrap-around of the
    [unsigned long].  Earlier sketch: the duration at 1 minute or more, the
    same bounds for the other variables, and a hold time of exactly
    minutes times 60000 ms. *)
Theorem settings_stay_in_range (inputs : list Input) :
  let su := settings (UxUi.run inputs UxUi.boot) in
  let sf := settings (FastScroll.run inputs FastScroll.boot) in
  (0 <= UxUi.setHours su <= 48 /\ 0 <= UxUi.setMinutes su <= 59
   /\ 2 <= UxUi.setHighDist su <= INT_MAX
   /\ INT_MIN <= UxUi.setLowDist su <= INT_MAX
   /\ 1 <= UxUi.setMaxCycles su <= INT_MAX
   /\ UxUi.durationMillis su
      = UxUi.setHours su * 3600000 + UxUi.setMinutes su * 60000)
  /\ (1 <= FastScroll.setDurationMins sf <= INT_MAX
      /\ 2 <= FastScroll.setHighDist sf <= INT_MAX
      /\ INT_MIN <= FastScroll.setLowDist sf <= INT_MAX
      /\ 1 <= FastScroll.setMaxCycles sf <= INT_MAX
      /\ FastScroll.durationMillis sf = FastScroll.setDurationMins sf * 60000).
Proof.
  intros su sf. split.
  - assert (H : 0 <= UxUi.setHours su <= 48 /\ 0 <= UxUi.setMinutes su <= 59
                /\ 2 <= UxUi.setHighDist su <= INT_MAX
                /\ INT_MIN <= UxUi.setLowDist su <= INT_MAX
                /\ 1 <= UxUi.setMaxCycles su <= INT_MAX).
    { refine (Adjusted_keeps UxUi.adjustSetting _ ux_ranges_step _ _ _ _).
      - unfold su, UxUi.run. apply run_adjusted;
          [exact ux_Quiet_displayMenu | exact ux_runCycleLogic_keeps].
      - vm_compute. repeat split; discriminate. }
    destruct H as (Hh & Hm & Hhi & Hlo & Hc). repeat split; try tauto.
    apply ux_duration_exact; assumption.
  - assert (H : 1 <= FastScroll.setDurationMins sf <= INT_MAX
                /\ 2 <= FastScroll.setHighDist sf <= INT_MAX
                /\ INT_MIN <= FastScroll.setLowDist sf <= INT_MAX
                /\ 1 <= FastScroll.setMaxCycles sf <= INT_MAX).
    { refine (Adjusted_keeps FastScroll.adjustSetting _ fs_ranges_step _ _ _ _).
      - unfold sf, FastScroll.run. apply run_adjusted;
          [exact fs_Quiet_displayMenu | exact fs_runCycleLogic_keeps].
      - vm_compute. repeat split; discriminate. }
    destruct H as (Hd & Hhi & Hlo & Hc). repeat split; try tauto.
    apply fs_duration_exact; assumption.
Qed.

(** ** The buzzer *)

(** [X14].  [beep(duration, count)], with a [duration] that is not
    negative, blocks for [count] tones of [duration] ms and a pause of
    100 ms between two tones, and for no time at all when [count] is 0 or
    less; after a tone the buzzer pin is left LOW; no relay is written and
    nothing of the cycle machine changes. *)
Theorem beep_blocks {S : Type} (duration count : Z) (st : State S) :
  0 <= duration <= INT_MAX ->
  clock (beep duration count st)
  = clock st + Z.max 0 count * duration + Z.max 0 (count - 1) * 100
  /\ pinLevel buzzerPin (trace (beep duration count st))
     = (if 0 <? count then Some LOW else pinLevel buzzerPin (trace st))
  /\ view (beep duration count st) = view st.
Proof.
  intros Hd.
  assert (Hu : to_ulong duration = duration)
    by (unfold to_ulong; apply Z.mod_small; unfold INT_MAX in Hd; lia).
  split; [|split]; [| |apply Quiet_beep];
    with_strategy transparent [beep] unfold beep.
  - destruct (Z.le_gt_cases count 0) as [H|H].
    + replace (Z.to_nat count) with O by lia. cbn [beep_from]. lia.
    + rewrite (beep_from_clock (Z.to_nat count) 0 duration count st) by lia.
      rewrite Hu, Z2Nat.id by lia.
      replace (count - 1 - 0) with (count - 1) by lia.
      rewrite (Z.max_r 0 count) by lia. reflexivity.
  - rewrite beep_from_buzzer.
    destruct (Z.ltb_spec 0 count) as [H|H].
    + destruct (Z.to_nat count) eqn:E; [lia | reflexivity].
    + replace (Z.to_nat count) with O by lia. reflexivity.
Qed.

Lemma beep_blocks_witness :
  clock (beep 200 2 UxUi.boot)
  = clock UxUi.boot + Z.max 0 2 * 200 + Z.max 0 (2 - 1) * 100.
Proof.
  assert (H : 0 <= 200 <= INT_MAX) by (unfold INT_MAX; lia).
  pose proof (beep_blocks 200 2 UxUi.boot H) as H0.
  destruct H0 as [H0 _]. exact H0.
Defined.

(** The wait of a tone is the [duration] as [delay] receives it, an
    [unsigned long]: a negative [duration] would block for 2^32 ms less
    its size.  The sketches call [beep] with 50, 100, 200 and 500 only. *)
Example beep_negative_duration :
  clock (beep (-1) 1 UxUi.boot) = clock UxUi.boot + 4294967295
  /\ clock (beep 500 1 UxUi.boot) = clock UxUi.boot + 500.
Proof. vm_compute. split; reflexivity. Qed.

(** ** The display *)

(** [X15].  In both sketches the idle display prints one number: the value
    of the variable the current menu page edits, the one [adjustSetting]
    changes on that page; once [isFinished] is set it prints the number of
    completed cycles instead, whatever the page. *)
Theorem menu_shows_selected (k : Sketch) (st : State (SettingsOf k)) :
  0 <= menuPage st <= MAX_PAGESOf k ->
  lcdInts (trace (displayMenuOf k st))
  = (if isFinished st then completedCycles st
     else selectedOf k (menuPage st) (settings st)) :: lcdInts (trace st).
Proof.
  intros Hp. destruct k.
  - exact (ux_menu_shows st Hp).
  - exact (fs_menu_shows st Hp).
Qed.

Lemma menu_shows_selected_witness :
  lcdInts (trace (displayMenuOf Earlier fs_ready))
  = (if isFinished fs_ready then completedCycles fs_ready
     else selectedOf Earlier (menuPage fs_ready) (settings fs_ready))
    :: lcdInts (trace fs_ready).
Proof.
  apply menu_shows_selected. vm_compute. split; discriminate.
Defined.

(** [X16].  The running screen of the current sketch prints six numbers:
    the distance, then the time left in hours, minutes and seconds, then
    the number of the cycle under way and the target.  Minutes and seconds
    are below 60 and the three add up to the whole seconds of
    [targetDuration - elapsed]; once [elapsed] has reached
    [targetDuration] they are 0, 0 and 0.  ([targetDuration] below 2^31 ms
    and [elapsed] at most 2^31 ms past it, so that the [long] holding the
    difference has its sign right; [lcdInts] lists the number printed last
    first.) *)
Theorem countdown_shows_remaining (e t : Z) (st : UxUi.St) :
  0 <= e < 4294967296 -> 0 <= t < 2147483648 -> e - t <= 2147483648 ->
  exists h m s,
    lcdInts (trace (UxUi.updateRunningLCD e t st))
    = [UxUi.setMaxCycles (settings st); to_int (completedCycles st + 1);
       s; m; h; currentDistance st] ++ lcdInts (trace st)
    /\ 0 <= h /\ 0 <= m < 60 /\ 0 <= s < 60
    /\ h * 3600 + m * 60 + s = Z.max 0 (t - e) / 1000.
Proof.
  intros He Ht Hd.
  pose proof (remaining_clamped e t He Ht Hd) as HR.
  set (R := Z.max 0 (t - e)) in *.
  assert (HR0 : 0 <= R < 2147483648) by lia.
  assert (HT : to_ulong (Z.quot R 1000) = R / 1000).
  { rewrite Z.quot_div_nonneg by lia. unfold to_ulong. apply Z.mod_small.
    Z.div_mod_to_equations. lia. }
  assert (HT0 : 0 <= R / 1000 <= 2147483) by (Z.div_mod_to_equations; lia).
  destruct (hms_split (R / 1000)) as (Hh & Hm & Hs & E); [lia|].
  exists (R / 1000 / 3600), ((R / 1000) mod 3600 / 60), ((R / 1000) mod 60).
  split; [|repeat split; try lia; exact E].
  with_strategy transparent [UxUi.updateRunningLCD] unfold UxUi.updateRunningLCD.
  cbv zeta. rewrite HR, HT.
  rewrite (to_int_id (R / 1000 / 3600)), (to_int_id ((R / 1000) mod 3600 / 60)),
    (to_int_id ((R / 1000) mod 60))
    by (unfold is_int, INT_MIN, INT_MAX; Z.div_mod_to_equations; lia).
  autorewrite with emits. destruct (currentState st); shown; reflexivity.
Qed.

Lemma countdown_shows_remaining_witness :
  exists h m s,
    lcdInts (trace (UxUi.updateRunningLCD 1000 3660000 UxUi.boot))
    = [UxUi.setMaxCycles (settings UxUi.boot);
       to_int (completedCycles UxUi.boot + 1); s; m; h;
       currentDistance UxUi.boot] ++ lcdInts (trace UxUi.boot)
    /\ 0 <= h /\ 0 <= m < 60 /\ 0 <= s < 60
    /\ h * 3600 + m * 60 + s = Z.max 0 (3660000 - 1000) / 1000.
Proof.
  apply countdown_shows_remaining; lia.
Defined.

(** ** Up, then Down *)

(** Split the comparisons of the goal from the inside out, taking the
    wrap off every sum that stays a 16-bit [int]. *)
Ltac inner_cases :=
  repeat first
    [ rewrite (to_int_id (_ + 1)) by (unfold is_int, INT_MIN, INT_MAX; lia)
    | rewrite (to_int_id (_ + -1)) by (unfold is_int, INT_MIN, INT_MAX; lia)
    | match goal with
      | |- context [?a <? ?b] =>
          lazymatch a with
          | context [_ <? _] => fail
          | _ => lazymatch b with
                 | context [_ <? _] => fail
                 | _ => destruct (Z.ltb_spec a b); try lia
                 end
          end
      end ].

(** [X17].  [adjustSetting(1)] followed by [adjustSetting(-1)] on the same
    page gives the settings back as they were, as long as the variable is
    at or above the floor of its page and below its upper limit: 32767
    for a variable without one, 48 for the hours of the current sketch;
    its minutes come back from every value from 0 to 59, the wrap from 59
    to 0 being undone by the wrap from 0 to 59. *)
Theorem up_then_down_restores (pf pu : Z)
    (sf : FastScroll.Settings) (su : UxUi.Settings) :
  0 <= pf <= 3 -> 0 <= pu <= 4 ->
  FastScroll.floor pf sf <= FastScroll.selected pf sf < INT_MAX ->
  UxUi.floor pu su <= UxUi.selected pu su ->
  UxUi.selected pu su < (if pu =? 0 then 48 else if pu =? 1 then 60 else INT_MAX) ->
  FastScroll.adjustSetting pf (-1) (FastScroll.adjustSetting pf 1 sf) = sf
  /\ UxUi.adjustSetting pu (-1) (UxUi.adjustSetting pu 1 su) = su.
Proof.
  intros Hpf Hpu Hf Hu Hu'.
  destruct sf as [fd fh fl fc], su as [uh um ui ul uc].
  pose proof (to_int_range (fh + 5)) as Rf.
  pose proof (to_int_range (ui + 5)) as Ru.
  unfold is_int, INT_MIN, INT_MAX in *.
  split.
  - assert (E : pf = 0 \/ pf = 1 \/ pf = 2 \/ pf = 3) by lia.
    destruct E as [E|[E|[E|E]]]; subst pf; simpl in *;
      f_equal; inner_cases; lia.
  - assert (E : pu = 0 \/ pu = 1 \/ pu = 2 \/ pu = 3 \/ pu = 4) by lia.
    destruct E as [E|[E|[E|[E|E]]]]; subst pu; simpl in *;
      f_equal; inner_cases; lia.
Qed.

Lemma up_then_down_restores_witness :
  FastScroll.adjustSetting 0 (-1) (FastScroll.adjustSetting 0 1 FastScroll.defaults)
  = FastScroll.defaults
  /\ UxUi.adjustSetting 1 (-1) (UxUi.adjustSetting 1 1 (UxUi.mkSettings 1 59 10 50 1))
     = UxUi.mkSettings 1 59 10 50 1.
Proof.
  apply up_then_down_restores; vm_compute; intuition congruence.
Defined.

(** ** The serial log *)

(** [X18].  In both sketches one call of [runCycleLogic] on a running
    machine prints at most one line: the name of the new phase when the
    phase has changed and the machine still runs, the finish reason when
    the last cycle has just been completed, and nothing when the phase
    stays. *)
Theorem phase_changes_are_logged (k : Sketch) (d : Z) (st : State (SettingsOf k)) :
  isRunning st = true ->
  let st' := runCycleLogicOf k d st in
  serialLines (trace st')
  = (if isRunning st'
     then if SystemState_eqb (currentState st') (currentState st)
          then [] else [phaseNameOf k (currentState st')]
     else [finishReasonOf k]) ++ serialLines (trace st).
Proof.
  intros Hr. destruct k.
  - exact (ux_phase_log d st Hr).
  - exact (fs_phase_log d st Hr).
Qed.

Lemma phase_changes_are_logged_witness :
  let st := delay 3700000 ux_lowHold in
  let st' := runCycleLogicOf Current 60 st in
  serialLines (trace st')
  = (if isRunning st'
     then if SystemState_eqb (currentState st') (currentState st)
          then [] else [phaseNameOf Current (currentState st')]
     else [finishReasonOf Current]) ++ serialLines (trace st).
Proof.
  intros st. apply (phase_changes_are_logged Current 60 st).
  vm_compute. reflexivity.
Defined.

(** [X19].  In both sketches a call of [handleButtons] prints one line when
    it reads a press-edge of start/stop, "STARTED" when the machine was
    stopped and the stop reason when it was running, and no line
    otherwise, whatever the other buttons read. *)
Theorem start_stop_logged (k : Sketch) (i : Input) (st : State (SettingsOf k)) :
  serialLines (trace (handleButtonsOf k i st))
  = (if startEdge i st
     then [if isRunning st then stopReasonOf k else "STARTED"%string]
     else []) ++ serialLines (trace st).
Proof.
  destruct k; unfold handleButtonsOf, UxUi.handleButtons, FastScroll.handleButtons.
  - apply serial_handleButtons.
  - apply serial_handleButtons.
Qed.
